(** * pr-comment-github-deployment: a shallow embedding of [entrypoint.py]

    The program is a GitHub Action: it reads an issue-comment webhook event,
    and when the comment is a deployment command on a pull request it
    validates the pull request, resolves the target environment, checks the
    commit status and creates a deployment through the GitHub API.

    The embedding follows the source function by function.  Python values
    that come out of [json.load] are modelled by the type [value]; a Python
    [str] is a [string] whose characters stand for code points below 256;
    JSON numbers are integers; a dictionary is an association list in
    insertion order, read through [lookup], which takes the first binding
    of a key (a Python dictionary holds one binding per key).

    A run is a pair of the trace of what the program did (the entries of
    the ten functions that make up the pipeline, the [print]/[error] lines,
    the files opened, the HTTP requests sent) and its outcome (a returned
    value or a raised exception, [SystemExit] included).  Lines written
    with [debug] are diagnostics and are not part of the trace; the logging
    helpers [debug] and [error] are not recorded as function entries. *)

From Stdlib Require Import String Ascii List ZArith Bool Arith Lia DecimalString.
Import ListNotations.
Open Scope string_scope.

#[local] Set Warnings "-register-all".

(** ** Python values and dictionaries *)

Definition dict (A : Type) : Type := list (string * A).

Inductive value : Type :=
| VNone
| VBool (b : bool)
| VInt (z : Z)
| VStr (s : string)
| VList (l : list value)
| VDict (d : list (string * value)).

Fixpoint lookup {A : Type} (k : string) (d : dict A) : option A :=
  match d with
  | [] => None
  | (k', v) :: d' => if String.eqb k k' then Some v else lookup k d'
  end.

(** [d[k] = v] on a dictionary that keeps insertion order. *)
Fixpoint dict_set {A : Type} (k : string) (v : A) (d : dict A) : dict A :=
  match d with
  | [] => [(k, v)]
  | (k', v') :: d' =>
      if String.eqb k k' then (k', v) :: d' else (k', v') :: dict_set k v d'
  end.

(** [{**d, **e}] *)
Definition dict_update {A : Type} (d e : dict A) : dict A :=
  fold_left (fun acc kv => dict_set (fst kv) (snd kv) acc) e d.

(** Python truth value of a JSON value. *)
Definition truthy (v : value) : bool :=
  match v with
  | VNone => false
  | VBool b => b
  | VInt z => negb (Z.eqb z 0)
  | VStr s => negb (String.eqb s "")
  | VList l => match l with [] => false | _ => true end
  | VDict d => match d with [] => false | _ => true end
  end.

(** [v == s] for a [str] [s]: only an equal [str] compares equal. *)
Definition eq_str (v : value) (s : string) : bool :=
  match v with
  | VStr x => String.eqb x s
  | _ => false
  end.

(** ** Strings *)

Definition nl : string := String (ascii_of_nat 10) "".
Definition dquote : ascii := ascii_of_nat 34.
Definition squote : ascii := ascii_of_nat 39.
Definition backslash : ascii := ascii_of_nat 92.

(** [str.isspace] on one code point below 256. *)
Definition is_space (c : ascii) : bool :=
  let n := nat_of_ascii c in
  (((9 <=? n) && (n <=? 13)) || ((28 <=? n) && (n <=? 32))
   || (n =? 133) || (n =? 160))%nat.

Fixpoint lstrip (s : string) : string :=
  match s with
  | EmptyString => EmptyString
  | String c s' => if is_space c then lstrip s' else s
  end.

Fixpoint rstrip (s : string) : string :=
  match s with
  | EmptyString => EmptyString
  | String c s' =>
      match rstrip s' with
      | EmptyString => if is_space c then EmptyString else String c EmptyString
      | r => String c r
      end
  end.

(** [s.strip()] *)
Definition strip (s : string) : string := rstrip (lstrip s).

(** [s[n:]] *)
Fixpoint str_drop (n : nat) (s : string) : string :=
  match n, s with
  | O, _ => s
  | S n', EmptyString => EmptyString
  | S n', String _ s' => str_drop n' s'
  end.

(** [s.startswith(t)] *)
Definition startswith (s t : string) : bool := String.prefix t s.

Definition lower_char (c : ascii) : ascii :=
  let n := nat_of_ascii c in
  if (((65 <=? n) && (n <=? 90))
      || ((192 <=? n) && (n <=? 222) && negb (n =? 215)))%nat
  then ascii_of_nat (n + 32) else c.

(** [s.lower()] *)
Fixpoint lower (s : string) : string :=
  match s with
  | EmptyString => EmptyString
  | String c s' => String (lower_char c) (lower s')
  end.

(** [sep.join(l)] *)
Fixpoint join (sep : string) (l : list string) : string :=
  match l with
  | [] => ""
  | [x] => x
  | x :: rest => x ++ sep ++ join sep rest
  end.

Fixpoint str_mem (c : ascii) (s : string) : bool :=
  match s with
  | EmptyString => false
  | String c' s' => Ascii.eqb c c' || str_mem c s'
  end.

(** [str(z)] for an [int]. *)
Definition str_int (z : Z) : string := NilZero.string_of_int (Z.to_int z).

(** *** [repr] and [str] of a value *)

Definition hex_digit (n : nat) : ascii :=
  nth n (list_ascii_of_string "0123456789abcdef") "0"%char.

Definition hex2 (c : ascii) : string :=
  let n := nat_of_ascii c in
  String (hex_digit (n / 16)) (String (hex_digit (n mod 16)) "").

Definition printable (c : ascii) : bool :=
  let n := nat_of_ascii c in
  (((32 <=? n) && (n <? 127)) || ((161 <=? n) && negb (n =? 173)))%nat.

Definition repr_char (q c : ascii) : string :=
  let n := nat_of_ascii c in
  if Ascii.eqb c q || Ascii.eqb c backslash then String backslash (String c "")
  else if (n =? 9)%nat then String backslash "t"
  else if (n =? 10)%nat then String backslash "n"
  else if (n =? 13)%nat then String backslash "r"
  else if printable c then String c ""
  else String backslash ("x" ++ hex2 c).

Fixpoint repr_chars (q : ascii) (s : string) : string :=
  match s with
  | EmptyString => EmptyString
  | String c s' => repr_char q c ++ repr_chars q s'
  end.

Definition repr_str (s : string) : string :=
  let q := if str_mem squote s && negb (str_mem dquote s)
           then dquote else squote in
  String q (repr_chars q s) ++ String q "".

Fixpoint repr (v : value) : string :=
  match v with
  | VNone => "None"
  | VBool true => "True"
  | VBool false => "False"
  | VInt z => str_int z
  | VStr s => repr_str s
  | VList l => "[" ++ join ", " (map repr l) ++ "]"
  | VDict d =>
      "{" ++ join ", " (map (fun kv => repr_str (fst kv) ++ ": " ++ repr (snd kv)) d)
          ++ "}"
  end.

(** [str(v)], which is also what an f-string and ["%s" % v] insert. *)
Definition py_str (v : value) : string :=
  match v with
  | VStr s => s
  | _ => repr v
  end.

(** ** Runs: traces and outcomes *)

(** The exceptions the program can meet.  [DeploymentFailure] is the
    program's own; the others are raised by the interpreter or by the
    [requests] and [json] libraries and are never caught by name. *)
Inductive exn : Type :=
| SystemExit (code : Z)
| DeploymentFailure (msg : string)
| KeyError (key : string)
| TypeError
| AttributeError
| HTTPError
| RequestException
| OSError
| JSONDecodeError.

Inductive outcome (A : Type) : Type :=
| Ret (a : A)
| Raise (e : exn).
Arguments Ret {A} a.
Arguments Raise {A} e.

Inductive http_method : Type := GET | POST.

Record request : Type := mkRequest {
  method : http_method;
  url : value;
  headers : dict string;
  body : option value
}.

Inductive event : Type :=
| Call (f : string)
| Print (line : string)
| Open (path : value)
| Send (r : request).

Definition M (A : Type) : Type := (list event * outcome A)%type.

Definition ret {A : Type} (a : A) : M A := ([], Ret a).

Definition raise {A : Type} (e : exn) : M A := ([], Raise e).

Definition bind {A B : Type} (m : M A) (f : A -> M B) : M B :=
  match m with
  | (t, Ret a) => let (t', o) := f a in ((t ++ t')%list, o)
  | (t, Raise e) => (t, Raise e)
  end.

Notation "x <- m ;; k" := (bind m (fun x => k))
  (at level 61, m at next level, right associativity).
Notation "m ;; k" := (bind m (fun _ => k))
  (at level 61, right associativity).

Definition emit (e : event) : M unit := ([e], Ret tt).

Definition call (f : string) : M unit := emit (Call f).

(** [print(line)] *)
Definition print (line : string) : M unit := emit (Print line).

(** [error(msg)] *)
Definition error (msg : string) : M unit := print ("::error ::" ++ msg).

(** [sys.exit(code)] *)
Definition sys_exit {A : Type} (code : Z) : M A := raise (SystemExit code).

(** [try: body  except DeploymentFailure as e: handler(e)  else: orelse] *)
Definition try_except_else {A B : Type} (body : M A)
    (handler : string -> M B) (orelse : A -> M B) : M B :=
  match body with
  | (t, Ret a) => let (t', o) := orelse a in ((t ++ t')%list, o)
  | (t, Raise (DeploymentFailure msg)) =>
      let (t', o) := handler msg in ((t ++ t')%list, o)
  | (t, Raise e) => (t, Raise e)
  end.

Definition try_except {A : Type} (body : M A) (handler : string -> M A) : M A :=
  try_except_else body handler ret.

(** The exit status the operating system sees. *)
Definition exit_status {A : Type} (o : outcome A) : Z :=
  match o with
  | Ret _ => 0
  | Raise (SystemExit code) => code
  | Raise _ => 1
  end.

(** [v[k]] for a [str] key. *)
Definition getitem (v : value) (k : string) : M value :=
  match v with
  | VDict d =>
      match lookup k d with
      | Some x => ret x
      | None => raise (KeyError k)
      end
  | _ => raise TypeError
  end.

(** [v.get(k, default)] *)
Definition get_method (v : value) (k : string) (default : value) : M value :=
  match v with
  | VDict d =>
      match lookup k d with
      | Some x => ret x
      | None => ret default
      end
  | _ => raise AttributeError
  end.

(** The elements a [for] loop or a comprehension draws from [v]. *)
Definition py_iter (v : value) : M (list value) :=
  match v with
  | VList l => ret l
  | VDict d => ret (map (fun kv => VStr (fst kv)) d)
  | VStr s => ret (map (fun c => VStr (String c "")) (list_ascii_of_string s))
  | _ => raise TypeError
  end.

Fixpoint mapM {A B : Type} (f : A -> M B) (l : list A) : M (list B) :=
  match l with
  | [] => ret []
  | x :: rest => y <- f x ;; ys <- mapM f rest ;; ret (y :: ys)
  end.

(** ** The world outside the program *)

Record response : Type := mkResponse {
  status_code : Z;
  text : string;
  json_body : option value   (* what [.json()] parses, when it parses *)
}.

Inductive http_result : Type :=
| NoResponse                 (* [requests] raised before any response *)
| Got (r : response).

Inductive file_result : Type :=
| CannotOpen
| NotJson
| Parsed (v : value).

Record world : Type := mkWorld {
  environ : dict string;
  files : value -> file_result;
  server : request -> http_result
}.

(** [json.load(open(path))] *)
Definition json_load_open (w : world) (path : value) : M value :=
  emit (Open path) ;;
  match files w path with
  | CannotOpen => raise OSError
  | NotJson => raise JSONDecodeError
  | Parsed v => ret v
  end.

(** [requests.get(url, headers=...)] and [requests.post(url, headers=..., json=...)] *)
Definition requests_send (w : world) (r : request) : M response :=
  emit (Send r) ;;
  match server w r with
  | NoResponse => raise RequestException
  | Got resp => ret resp
  end.

Definition requests_get (w : world) (u : value) (h : dict string) : M response :=
  requests_send w (mkRequest GET u h None).

Definition requests_post (w : world) (u : value) (h : dict string) (j : value)
    : M response :=
  requests_send w (mkRequest POST u h (Some j)).

(** [resp.raise_for_status()] *)
Definition raise_for_status (resp : response) : M unit :=
  if ((400 <=? status_code resp) && (status_code resp <? 600))%Z
  then raise HTTPError else ret tt.

(** [resp.json()] *)
Definition response_json (resp : response) : M value :=
  match json_body resp with
  | Some v => ret v
  | None => raise JSONDecodeError
  end.

(** ** Module globals *)

Record globals : Type := mkGlobals {
  CONFIG : dict value;
  BASE_GH_REQUEST_HEADERS : dict string
}.

(** The [CONFIG] literal of [__main__], as a function of the five settings. *)
Definition make_config (trigger : string) (env_file : option string)
    (allow_draft ignore_status_checks comment : bool) : dict value :=
  [ ("trigger", VStr trigger);
    ("env_file", match env_file with Some p => VStr p | None => VNone end);
    ("allow_draft", VBool allow_draft);
    ("ignore_status_checks", VBool ignore_status_checks);
    ("comment", VBool comment) ].

Definition make_headers (token : string) : dict string :=
  [ ("Authorization", "Bearer " ++ token);
    ("Content-Type", "application/json") ].

(** [CONFIG[k]] *)
Definition config (G : globals) (k : string) : M value :=
  getitem (VDict (CONFIG G)) k.

(** ** The functions of [entrypoint.py] *)

Definition add_comment (G : globals) (w : world) (u : value) (msg : string)
    (is_error : bool) : M unit :=
  call "add_comment" ;;
  (if is_error then error msg else print msg) ;;
  c <- config G "comment" ;;
  if truthy c then
    comment_resp <-
      requests_post w u (BASE_GH_REQUEST_HEADERS G) (VDict [("body", VStr msg)]) ;;
    raise_for_status comment_resp
  else ret tt.

(** The receiver of [.startswith]: anything but a [str] has no such method. *)
Definition str_receiver (v : value) : M string :=
  match v with
  | VStr s => ret s
  | _ => raise AttributeError
  end.

(** The argument of [.startswith] must be a [str]. *)
Definition str_argument (v : value) : M string :=
  match v with
  | VStr s => ret s
  | _ => raise TypeError
  end.

Definition parse_message (G : globals) (comment : value) : M string :=
  call "parse_message" ;;
  message <- getitem comment "body" ;;
  user <- getitem comment "user" ;;
  author <- getitem user "login" ;;
  m <- str_receiver message ;;
  trigger <- config G "trigger" ;;
  t <- str_argument trigger ;;
  if negb (startswith m t) then
    print ("Comment from " ++ py_str author
           ++ " does not match the comment trigger (`" ++ t ++ "`).") ;;
    sys_exit 0
  else
    let environment := strip (str_drop (String.length t) m) in
    if String.eqb environment "" then
      raise (DeploymentFailure
               ("No environment specified (usage: `" ++ t ++ " environment`)."))
    else ret environment.

(** The [for] loop of [get_environment]: [Some env] when the loop returns
    [env], [None] when it runs off the end of the list. *)
Fixpoint find_environment (environment : string) (envs : list value)
    : M (option value) :=
  match envs with
  | [] => ret None
  | env :: rest =>
      name <- getitem env "name" ;;
      if eq_str name environment then ret (Some env)
      else find_environment environment rest
  end.

Definition get_environment (G : globals) (w : world) (environment : string)
    : M value :=
  call "get_environment" ;;
  env_file <- config G "env_file" ;;
  if negb (truthy env_file) then ret (VDict [("name", VStr environment)])
  else
    loaded <- json_load_open w env_file ;;
    envs <- py_iter loaded ;;
    found <- find_environment environment envs ;;
    match found with
    | Some env => ret env
    | None =>
        raise (DeploymentFailure
                 ("Environment '" ++ environment
                  ++ "' doesn't exist in CONFIG['env_file'] ("
                  ++ py_str env_file ++ ")."))
    end.

Definition load_pr (G : globals) (w : world) (u : value) : M value :=
  call "load_pr" ;;
  pr_url <- config G "pr_url" ;;
  pr_resp <-
    requests_get w pr_url
      (dict_update (BASE_GH_REQUEST_HEADERS G)
         [("Accept",
           "application/vnd.github.shadow-cat-preview+json, application/vnd.github.sailor-v-preview+json")]) ;;
  raise_for_status pr_resp ;;
  response_json pr_resp.

Definition status_line (s : value) : M string :=
  context <- getitem s "context" ;;
  ret ("* " ++ py_str context).

Definition status_url (head_repo sha : value) : string :=
  "https://api.github.com/repos/" ++ py_str head_repo ++ "/commits/"
  ++ py_str sha ++ "/status".

Definition check_commit (G : globals) (w : world) (head_repo sha : value)
    : M unit :=
  call "check_commit" ;;
  ignore <- config G "ignore_status_checks" ;;
  if truthy ignore then ret tt
  else
    status_resp <-
      requests_get w (VStr (status_url head_repo sha))
        (BASE_GH_REQUEST_HEADERS G) ;;
    raise_for_status status_resp ;;
    status <- response_json status_resp ;;
    state <- getitem status "state" ;;
    if negb (eq_str state "success") then
      statuses <- getitem status "statuses" ;;
      items <- py_iter statuses ;;
      lines <- mapM status_line items ;;
      raise (DeploymentFailure
               ("The following status checks are not green for " ++ py_str sha
                ++ ":" ++ nl ++ join nl lines ++ "."))
    else ret tt.

Definition set_deployment_outputs (deployment_response : response) : M unit :=
  call "set_deployment_outputs" ;;
  deployment <- response_json deployment_response ;;
  _id <- getitem deployment "id" ;;
  api_url <- getitem deployment "url" ;;
  print ("::set-output name=deployment_id::" ++ py_str _id) ;;
  print ("::set-output name=deployment_api_url::" ++ py_str api_url).

(** The [params] dictionary that [trigger_deployment] posts. *)
Definition deployment_params (G : globals) (ref environment : value)
    (description : string) : M (dict value) :=
  transient <- get_method environment "transient" (VBool false) ;;
  production <- get_method environment "production" (VBool true) ;;
  name <- getitem environment "name" ;;
  let params :=
    [ ("ref", ref);
      ("environment", name);
      ("description", VStr description);
      ("transient_environment", transient);
      ("production_environment", production) ] in
  ignore <- config G "ignore_status_checks" ;;
  if truthy ignore then ret (dict_set "required_contexts" (VList []) params)
  else ret params.

Definition deployments_url (head_repo : value) : string :=
  "https://api.github.com/repos/" ++ py_str head_repo ++ "/deployments".

Definition trigger_deployment (G : globals) (w : world)
    (head_repo ref environment : value) (description : string) : M unit :=
  call "trigger_deployment" ;;
  params <- deployment_params G ref environment description ;;
  trigger_resp <-
    requests_post w (VStr (deployments_url head_repo))
      (dict_update (BASE_GH_REQUEST_HEADERS G)
         [("Accept", "application/vnd.github.ant-man-preview+json")])
      (VDict params) ;;
  match raise_for_status trigger_resp with
  | (t, Raise _) =>
      (t, Raise (DeploymentFailure
                   ("Failed to trigger deployment (" ++ text trigger_resp ++ ")")))
  | (t, Ret _) => (t, Ret tt)
  end ;;
  set_deployment_outputs trigger_resp.

Definition validate_pr (G : globals) (pr : value) : M unit :=
  call "validate_pr" ;;
  draft <- getitem pr "draft" ;;
  refuse_draft <-
    (if truthy draft then
       allow <- config G "allow_draft" ;; ret (negb (truthy allow))
     else ret false) ;;
  if refuse_draft : bool then raise (DeploymentFailure "Can't deploy draft PRs.")
  else
    merged <- getitem pr "merged" ;;
    is_merged <-
      (if truthy merged then ret true
       else merged_by <- getitem pr "merged_by" ;; ret (truthy merged_by)) ;;
    if is_merged : bool then raise (DeploymentFailure "Can't deploy a merged PR.")
    else
      state <- getitem pr "state" ;;
      if negb (eq_str state "open") then
        raise (DeploymentFailure "Can't deploy a PR which isn't open.")
      else
        mergeable_state <- getitem pr "mergeable_state" ;;
        if negb (eq_str mergeable_state "mergeable") then
          draft_allowed <-
            (if eq_str mergeable_state "draft" then
               allow <- config G "allow_draft" ;; ret (truthy allow)
             else ret false) ;;
          if draft_allowed : bool then ret tt
          else
            raise (DeploymentFailure
                     "PR can't be cleanly merged with base branch.")
        else ret tt.

Definition validate_event (event : value) : M unit :=
  call "validate_event" ;;
  issue <- get_method event "issue" VNone ;;
  if negb (truthy issue) then
    error "This event doesn't seem to be an issue comment." ;;
    sys_exit 1
  else
    action <- getitem event "action" ;;
    if negb (eq_str action "created") then
      print "This is not a comment creation, ignoring." ;;
      sys_exit 0
    else
      issue' <- get_method event "issue" VNone ;;
      pull_request <- get_method issue' "pull_request" VNone ;;
      if negb (truthy pull_request) then
        print "This is not a pull request comment, ignoring." ;;
        sys_exit 0
      else ret tt.

Definition react_to_original_comment (G : globals) (w : world) (event : value)
    : M unit :=
  call "react_to_original_comment" ;;
  comment <- getitem event "comment" ;;
  comment_url <- getitem comment "url" ;;
  let reaction_url := py_str comment_url ++ "/reactions" in
  reaction_resp <-
    requests_post w (VStr reaction_url)
      (dict_update (BASE_GH_REQUEST_HEADERS G)
         [("Accept", "application/vnd.github.squirrel-girl-preview+json")])
      (VDict [("content", VStr "rocket")]) ;;
  raise_for_status reaction_resp.

(** ** [__main__] *)

(** [os.environ.get(k, default)] *)
Definition environ_get (w : world) (k default : string) : string :=
  match lookup k (environ w) with
  | Some v => v
  | None => default
  end.

(** [os.environ[k]] *)
Definition environ_getitem (w : world) (k : string) : M string :=
  match lookup k (environ w) with
  | Some v => ret v
  | None => raise (KeyError k)
  end.

Definition token_hint : string :=
  "Missing GITHUB_TOKEN environment variable. (hint: `env: GITHUB_TOKEN: ${{ secrets.GITHUB_TOKEN }}`)".

(** The globals that [__main__] builds from the environment. *)
Definition main_globals (w : world) (token : string) : globals :=
  mkGlobals
    (make_config
       (environ_get w "INPUT_TRIGGER_PHRASE" "deploy to")
       (lookup "INPUT_ENVIRONMENT_VALIDATION_FILE" (environ w))
       (String.eqb (lower (environ_get w "INPUT_ALLOW_DRAFT_DEPLOY" "false")) "true")
       (String.eqb (lower (environ_get w "INPUT_IGNORE_STATUS_CHECKS" "false")) "true")
       (String.eqb (lower (environ_get w "INPUT_COMMENT" "true")) "true"))
    (make_headers token).

(** [__main__] from the point where the pull request has been loaded
    (from [sha = pr["head"]["sha"]] to the end). *)
Definition main_deploy (G : globals) (w : world) (event pr : value) : M unit :=
  head <- getitem pr "head" ;;
  sha <- getitem head "sha" ;;
  head' <- getitem pr "head" ;;
  repo <- getitem head' "repo" ;;
  head_repo <- getitem repo "full_name" ;;
  pr_num <- getitem pr "number" ;;
  environment_name <-
    try_except
      (validate_pr G pr ;;
       comment <- getitem event "comment" ;;
       parse_message G comment)
      (fun e =>
         comments_url <- getitem pr "comments_url" ;;
         add_comment G w comments_url ("Deployment failed: " ++ e) true ;;
         sys_exit 1) ;;
  try_except_else
    (environment <- get_environment G w environment_name ;;
     check_commit G w head_repo sha ;;
     trigger_deployment G w head_repo sha environment
       ("Automatic deployment from #" ++ py_str pr_num))
    (fun e =>
       comments_url <- getitem pr "comments_url" ;;
       add_comment G w comments_url
         ("Deployment to " ++ environment_name ++ " failed: " ++ e) true ;;
       sys_exit 1)
    (fun _ =>
       react_to_original_comment G w event ;;
       comment <- getitem event "comment" ;;
       user <- getitem comment "user" ;;
       comment_author <- getitem user "login" ;;
       comments_url <- getitem pr "comments_url" ;;
       add_comment G w comments_url
         ("@" ++ py_str comment_author
          ++ ": Triggered [deployment](https://github.com/" ++ py_str head_repo
          ++ "/deployments) to " ++ environment_name ++ ".")
         false).

(** [__main__] from [validate_event(event)] to the end, for any globals. *)
Definition main_pipeline (G : globals) (w : world) (event : value) : M unit :=
  validate_event event ;;
  pr_url <- config G "pr_url" ;;
  pr <- load_pr G w pr_url ;;
  main_deploy G w event pr.

Definition main (w : world) : M unit :=
  match lookup "GITHUB_ACTION" (environ w) with
  | None => error token_hint ;; sys_exit 1
  | Some _ =>
      GITHUB_TOKEN <- environ_getitem w "GITHUB_TOKEN" ;;
      GITHUB_EVENT_PATH <- environ_getitem w "GITHUB_EVENT_PATH" ;;
      let G := main_globals w GITHUB_TOKEN in
      event <- json_load_open w (VStr GITHUB_EVENT_PATH) ;;
      main_pipeline G w event
  end.

(** ** Observations on a run *)

Definition trace {A : Type} (r : M A) : list event := fst r.

Definition result {A : Type} (r : M A) : outcome A := snd r.

(** The HTTP requests of a trace, in the order they were sent. *)
Fixpoint requests (t : list event) : list request :=
  match t with
  | [] => []
  | Send r :: t' => r :: requests t'
  | _ :: t' => requests t'
  end.

(** The functions entered, in the order they were entered. *)
Fixpoint calls (t : list event) : list string :=
  match t with
  | [] => []
  | Call f :: t' => f :: calls t'
  | _ :: t' => calls t'
  end.

(** The lines written to the log. *)
Fixpoint printed (t : list event) : list string :=
  match t with
  | [] => []
  | Print l :: t' => l :: printed t'
  | _ :: t' => printed t'
  end.

(** * Vocabulary of the properties *)

(** ** The pull-request validator *)

(** What the GitHub API sends for the fields [validate_pr] reads: two
    booleans, a user object or [null], and two strings. *)
Record pr_fields (pr : value) (draft merged : bool) (merged_by : value)
    (state mergeable_state : string) : Prop := {
  pr_is_dict : exists d, pr = VDict d
    /\ lookup "draft" d = Some (VBool draft)
    /\ lookup "merged" d = Some (VBool merged)
    /\ lookup "merged_by" d = Some merged_by
    /\ lookup "state" d = Some (VStr state)
    /\ lookup "mergeable_state" d = Some (VStr mergeable_state);
  merged_by_shape : merged_by = VNone
    \/ exists u, merged_by = VDict u /\ u <> []
}.

(** [merged_by] is present when it is not [null]. *)
Definition present (v : value) : bool :=
  match v with
  | VNone => false
  | _ => true
  end.

(** The verdict of the validator as the specification words it: the four
    checks in order, the first failing one giving the message. *)
Definition validate_pr_spec (allow_draft draft merged by_present : bool)
    (state mergeable_state : string) : outcome unit :=
  if draft && negb allow_draft then
    Raise (DeploymentFailure "Can't deploy draft PRs.")
  else if merged || by_present then
    Raise (DeploymentFailure "Can't deploy a merged PR.")
  else if negb (String.eqb state "open") then
    Raise (DeploymentFailure "Can't deploy a PR which isn't open.")
  else if negb (String.eqb mergeable_state "mergeable")
          && negb (String.eqb mergeable_state "draft" && allow_draft) then
    Raise (DeploymentFailure "PR can't be cleanly merged with base branch.")
  else Ret tt.

Definition sample_pr (draft merged : bool) (merged_by : value)
    (state mergeable_state : string) : value :=
  VDict [ ("number", VInt 7);
          ("draft", VBool draft);
          ("merged", VBool merged);
          ("merged_by", merged_by);
          ("state", VStr state);
          ("mergeable_state", VStr mergeable_state);
          ("comments_url",
           VStr "https://api.github.com/repos/o/r/issues/7/comments");
          ("head", VDict [ ("sha", VStr "abc123");
                           ("repo", VDict [("full_name", VStr "o/r")]) ]) ].

(** ** Strings: prefixes and trimming *)

Fixpoint all_space (s : string) : bool :=
  match s with
  | EmptyString => true
  | String c s' => is_space c && all_space s'
  end.

Fixpoint ends_nonspace (s : string) : bool :=
  match s with
  | EmptyString => false
  | String c EmptyString => negb (is_space c)
  | String _ s' => ends_nonspace s'
  end.

(** A string with no whitespace at either end (the empty string included). *)
Definition trimmed (s : string) : bool :=
  match s with
  | EmptyString => true
  | String c _ => negb (is_space c) && ends_nonspace s
  end.

(** ** The command parser *)

(** A comment object with a string [body] and a [user.login]. *)
Definition comment_fields (comment : value) (body : string) (author : value)
    : Prop :=
  exists d u, comment = VDict d
    /\ lookup "body" d = Some (VStr body)
    /\ lookup "user" d = Some (VDict u)
    /\ lookup "login" u = Some author.

Definition no_environment_message (trigger : string) : string :=
  "No environment specified (usage: `" ++ trigger ++ " environment`).".

Definition no_match_line (author : value) (trigger : string) : string :=
  "Comment from " ++ py_str author ++ " does not match the comment trigger (`"
  ++ trigger ++ "`).".

Definition sample_comment (body : string) : value :=
  VDict [ ("url", VStr "https://api.github.com/repos/o/r/issues/comments/1");
          ("body", VStr body);
          ("user", VDict [("login", VStr "octocat")]) ].

(** ** The environment resolver *)

(** [name_is e r]: [r] is a record whose [name] equals [e]. *)
Definition name_is (e : string) (r : value) : bool :=
  match r with
  | VDict d =>
      match lookup "name" d with
      | Some n => eq_str n e
      | None => false
      end
  | _ => false
  end.

(** A record of the allowlist: an object with a [name]. *)
Definition is_record (r : value) : Prop :=
  exists d n, r = VDict d /\ lookup "name" d = Some n.

(** An object without a [name]. *)
Definition nameless (r : value) : Prop :=
  exists d, r = VDict d /\ lookup "name" d = None.

Definition unknown_environment_message (e p : string) : string :=
  "Environment '" ++ e ++ "' doesn't exist in CONFIG['env_file'] (" ++ p ++ ").".

Definition sample_allowlist : value :=
  VList [ VDict [("name", VStr "staging")];
          VDict [("name", VStr "prod"); ("production", VBool true)] ].

(** A world whose only file is the allowlist [envs.json] and whose server
    answers every request with [answer]. *)
Definition sample_world (vars : dict string) (answer : request -> http_result)
    : world :=
  mkWorld vars
    (fun p => if eq_str p "envs.json" then Parsed sample_allowlist
              else CannotOpen)
    answer.

Definition no_server (r : request) : http_result := NoResponse.

Definition crowded_world (records : list value) : world :=
  mkWorld []
    (fun p => if eq_str p "envs.json" then Parsed (VList records)
              else CannotOpen)
    no_server.

(** ** The status checker *)

(** A sub-status with a [context]; its other fields, [state] among them,
    are unconstrained. *)
Definition has_context (s c : value) : Prop :=
  exists d, s = VDict d /\ lookup "context" d = Some c.

Definition not_green_message (sha : value) (contexts : list value) : string :=
  "The following status checks are not green for " ++ py_str sha ++ ":" ++ nl
  ++ join nl (map (fun c => "* " ++ py_str c) contexts) ++ ".".

Definition ok_status (resp : response) : Prop :=
  (status_code resp < 400 \/ 600 <= status_code resp)%Z.

Definition sample_status : value :=
  VDict [ ("state", VStr "failure");
          ("statuses",
           VList [ VDict [("context", VStr "ci/build"); ("state", VStr "success")];
                   VDict [("context", VStr "ci/test"); ("state", VStr "failure")] ]) ].

Definition status_server (r : request) : http_result :=
  Got (mkResponse 200 "" (Some sample_status)).

(** ** The deployment trigger *)

Definition deployment_headers (H : dict string) : dict string :=
  dict_update H [("Accept", "application/vnd.github.ant-man-preview+json")].

(** The five entries every deployment request carries. *)
Definition base_params (ref : value) (environment : dict value)
    (description : string) (name : value) : dict value :=
  [ ("ref", ref);
    ("environment", name);
    ("description", VStr description);
    ("transient_environment",
     match lookup "transient" environment with
     | Some x => x
     | None => VBool false
     end);
    ("production_environment",
     match lookup "production" environment with
     | Some x => x
     | None => VBool true
     end) ].

(** ** The order of the pipeline *)

(** A run is quiet when it enters none of the program's functions. *)
Definition quiet {A : Type} (m : M A) : Prop := calls (trace m) = [].

(** The functions of the program in the order [__main__] reaches them. *)
Definition pipeline : list string :=
  [ "validate_event"; "load_pr"; "validate_pr"; "parse_message";
    "get_environment"; "check_commit"; "trigger_deployment";
    "set_deployment_outputs"; "react_to_original_comment"; "add_comment" ].

(** Entries [a] to [b - 1] of the pipeline. *)
Definition seg (a b : nat) : list string := skipn a (firstn b pipeline).

(** [clean a b m]: [m] enters the functions of [seg a b] in order, all of
    them when it returns and an initial part of them when it raises. *)
Definition clean {A : Type} (a b : nat) (m : M A) : Prop :=
  match result m with
  | Ret _ => calls (trace m) = seg a b
  | Raise _ => exists k, a <= k <= b /\ calls (trace m) = seg a k
  end.

(** [stage a b m]: as [clean], except that a raising run may end with the
    failure comment. *)
Definition stage {A : Type} (a b : nat) (m : M A) : Prop :=
  match result m with
  | Ret _ => calls (trace m) = seg a b
  | Raise _ =>
      exists k, a <= k <= b
        /\ (calls (trace m) = seg a k
            \/ calls (trace m) = (seg a k ++ ["add_comment"])%list)
  end.

(** A handler that posts at most the failure comment and never returns. *)
Definition failure_handler {B : Type} (h : string -> M B) : Prop :=
  forall msg,
    (exists e, result (h msg) = Raise e)
    /\ (calls (trace (h msg)) = [] \/ calls (trace (h msg)) = ["add_comment"]).

(** The steps the specification names, and the function that carries each. *)
Inductive step : Type :=
| EventValidation
| PrLoading
| PrValidation
| CommentParsing
| EnvironmentResolution
| StatusCheck
| DeploymentTrigger
| Notification.

Definition step_of (f : string) : option step :=
  if String.eqb f "validate_event" then Some EventValidation
  else if String.eqb f "load_pr" then Some PrLoading
  else if String.eqb f "validate_pr" then Some PrValidation
  else if String.eqb f "parse_message" then Some CommentParsing
  else if String.eqb f "get_environment" then Some EnvironmentResolution
  else if String.eqb f "check_commit" then Some StatusCheck
  else if String.eqb f "trigger_deployment" then Some DeploymentTrigger
  else if String.eqb f "set_deployment_outputs" then Some DeploymentTrigger
  else if String.eqb f "react_to_original_comment" then Some Notification
  else if String.eqb f "add_comment" then Some Notification
  else None.

Definition step_eqb (a b : step) : bool :=
  match a, b with
  | EventValidation, EventValidation
  | PrLoading, PrLoading
  | PrValidation, PrValidation
  | CommentParsing, CommentParsing
  | EnvironmentResolution, EnvironmentResolution
  | StatusCheck, StatusCheck
  | DeploymentTrigger, DeploymentTrigger
  | Notification, Notification => true
  | _, _ => false
  end.

(** The position of a step in an order, when the order names it. *)
Fixpoint rank (order : list step) (s : step) : option nat :=
  match order with
  | [] => None
  | x :: rest => if step_eqb x s then Some 0 else option_map S (rank rest s)
  end.

Fixpoint ranks (order : list step) (cs : list string) : list nat :=
  match cs with
  | [] => []
  | f :: rest =>
      match step_of f with
      | Some s =>
          match rank order s with
          | Some n => n :: ranks order rest
          | None => ranks order rest
          end
      | None => ranks order rest
      end
  end.

Fixpoint nondecreasing (l : list nat) : bool :=
  match l with
  | a :: ((b :: _) as rest) => (a <=? b)%nat && nondecreasing rest
  | _ => true
  end.

(** The steps of a trace occur in the given order. *)
Definition in_order (order : list step) (t : list event) : bool :=
  nondecreasing (ranks order (calls t)).

(** [b] is never entered unless [a] was entered before it. *)
Fixpoint entered_first (a b : string) (cs : list string) : bool :=
  match cs with
  | [] => true
  | f :: rest =>
      if String.eqb f a then true
      else if String.eqb f b then false
      else entered_first a b rest
  end.

(** The order the specification gives. *)
Definition spec_order : list step :=
  [ EventValidation; CommentParsing; PrValidation; EnvironmentResolution;
    StatusCheck; DeploymentTrigger; Notification ].

(** The order of [__main__]. *)
Definition code_order : list step :=
  [ EventValidation; PrLoading; PrValidation; CommentParsing;
    EnvironmentResolution; StatusCheck; DeploymentTrigger; Notification ].

(** The claim on the order of steps, as the specification states it. *)
Definition claimed_order (t : list event) : Prop :=
  in_order spec_order t = true
  /\ entered_first "parse_message" "validate_pr" (calls t) = true.

(** *** A repository [o/r] with pull request 7 *)

Definition pr_api_url : string := "https://api.github.com/repos/o/r/pulls/7".

Definition sample_event (body : string) : value :=
  VDict [ ("action", VStr "created");
          ("issue", VDict [ ("number", VInt 7);
                            ("pull_request", VDict [("url", VStr pr_api_url)]) ]);
          ("comment", sample_comment body) ].

(** A server that knows pull request [pr], reports a green commit and
    accepts every POST. *)
Definition github (pr : value) (r : request) : http_result :=
  match method r with
  | GET =>
      if eq_str (url r) pr_api_url then Got (mkResponse 200 "" (Some pr))
      else if eq_str (url r)
                "https://api.github.com/repos/o/r/commits/abc123/status"
      then Got (mkResponse 200 ""
                  (Some (VDict [ ("state", VStr "success");
                                 ("statuses", VList []) ])))
      else Got (mkResponse 404 "" None)
  | POST =>
      if eq_str (url r) "https://api.github.com/repos/o/r/deployments"
      then Got (mkResponse 201 ""
                  (Some (VDict [ ("id", VInt 42);
                                 ("url",
                                  VStr "https://api.github.com/repos/o/r/deployments/42") ])))
      else Got (mkResponse 201 "" (Some (VDict [])))
  end.

(** Globals as [__main__] builds them, with the [pr_url] entry added that
    [__main__] never sets. *)
Definition globals_with_pr_url : globals :=
  mkGlobals
    (dict_set "pr_url" (VStr pr_api_url)
       (make_config "deploy to" None false false true))
    (make_headers "secret").

(** ** Start-up *)

(** A runner with the usual variables set and the event in [event.json]. *)
Definition runner (event : value) (answer : request -> http_result) : world :=
  mkWorld
    [ ("GITHUB_ACTION", "run"); ("GITHUB_TOKEN", "secret");
      ("GITHUB_EVENT_PATH", "event.json") ]
    (fun p => if eq_str p "event.json" then Parsed event else CannotOpen)
    answer.

(** ** Vocabulary of the further properties *)

(** [raise_for_status] raises on a response with this status. *)
Definition error_status (resp : response) : bool :=
  ((400 <=? status_code resp) && (status_code resp <? 600))%Z.

(** The line [add_comment] writes to the log. *)
Definition log_line (msg : string) (is_error : bool) : string :=
  if is_error then "::error ::" ++ msg else msg.

(** The outcome of a request once [raise_for_status] has looked at it. *)
Definition checked (answer : http_result) : outcome unit :=
  match answer with
  | NoResponse => Raise RequestException
  | Got resp => if error_status resp then Raise HTTPError else Ret tt
  end.

(** The outcome of a request whose body is then read with [.json()]. *)
Definition checked_json (answer : http_result) : outcome value :=
  match answer with
  | NoResponse => Raise RequestException
  | Got resp =>
      if error_status resp then Raise HTTPError
      else match json_body resp with
           | Some v => Ret v
           | None => Raise JSONDecodeError
           end
  end.

Definition pr_accept : string :=
  "application/vnd.github.shadow-cat-preview+json, application/vnd.github.sailor-v-preview+json".

Definition reaction_accept : string :=
  "application/vnd.github.squirrel-girl-preview+json".

(** The parameters [trigger_deployment] posts for a named environment. *)
Definition params_of (ignore : bool) (ref : value) (environment : dict value)
    (description : string) (name : value) : dict value :=
  if ignore
  then (base_params ref environment description name
        ++ [("required_contexts", VList [])])%list
  else base_params ref environment description name.

(** A JSON value that a [for] loop runs over without a single turn. *)
Definition empty_container (v : value) : bool :=
  match v with
  | VStr EmptyString => true
  | VList [] => true
  | VDict [] => true
  | _ => false
  end.

Definition is_list (v : value) : bool :=
  match v with
  | VList _ => true
  | _ => false
  end.

Definition is_dict (v : value) : bool :=
  match v with
  | VDict _ => true
  | _ => false
  end.

(** [entered f m]: the run [m] enters the function [f]. *)
Definition entered {A : Type} (f : string) (m : M A) : Prop :=
  In f (calls (trace m)).

(** A run sends no request. *)
Definition silent {A : Type} (m : M A) : Prop := requests (trace m) = [].

(** The number of requests in a trace. *)
Definition sent (t : list event) : nat := List.length (requests t).

(** The number of times a trace enters [f]. *)
Definition entries (f : string) (t : list event) : nat :=
  count_occ string_dec (calls t) f.

(** [within mu a b m]: the measure [mu] of the trace of [m] is at most [a]
    when [m] returns and at most [b] when it raises. *)
Definition within (mu : list event -> nat) {A : Type} (a b : nat) (m : M A)
    : Prop :=
  match result m with
  | Ret _ => mu (trace m) <= a
  | Raise _ => mu (trace m) <= b
  end.

(** The fields [__main__] reads from the pull request before the first
    [try] block. *)
Definition pr_heads (pr sha head_repo pr_num comments_url : value) : Prop :=
  exists p h rp,
    pr = VDict p
    /\ lookup "head" p = Some (VDict h)
    /\ lookup "sha" h = Some sha
    /\ lookup "repo" h = Some (VDict rp)
    /\ lookup "full_name" rp = Some head_repo
    /\ lookup "number" p = Some pr_num
    /\ lookup "comments_url" p = Some comments_url.

(** What both [except DeploymentFailure] clauses do once the URL of the
    comments is at hand: the failure comment, then [sys.exit(1)]. *)
Definition failure_report (G : globals) (w : world) (comments_url : value)
    (message : string) : M unit :=
  add_comment G w comments_url message true ;; sys_exit 1.

(** The body of the second [try] block. *)
Definition deploy_steps (G : globals) (w : world)
    (head_repo sha pr_num : value) (environment_name : string) : M unit :=
  environment <- get_environment G w environment_name ;;
  check_commit G w head_repo sha ;;
  trigger_deployment G w head_repo sha environment
    ("Automatic deployment from #" ++ py_str pr_num).

(** The [else] clause of the second [try] block. *)
Definition success_report (G : globals) (w : world) (event pr : value)
    (head_repo : value) (environment_name : string) : M unit :=
  react_to_original_comment G w event ;;
  comment <- getitem event "comment" ;;
  user <- getitem comment "user" ;;
  comment_author <- getitem user "login" ;;
  comments_url <- getitem pr "comments_url" ;;
  add_comment G w comments_url
    ("@" ++ py_str comment_author
     ++ ": Triggered [deployment](https://github.com/" ++ py_str head_repo
     ++ "/deployments) to " ++ environment_name ++ ".")
    false.

(** The sixteen spellings of "true" in upper and lower case. *)
Definition true_word (s : string) : Prop :=
  exists a b c d,
    s = String a (String b (String c (String d "")))
    /\ (a = "t"%char \/ a = "T"%char)
    /\ (b = "r"%char \/ b = "R"%char)
    /\ (c = "u"%char \/ c = "U"%char)
    /\ (d = "e"%char \/ d = "E"%char).

Definition refusing_server (r : request) : http_result :=
  Got (mkResponse 422 "No ref found for: abc123" None).

Definition obliging_server (r : request) : http_result :=
  Got (mkResponse 201 ""
         (Some (VDict [ ("id", VInt 42);
                        ("url",
                         VStr "https://api.github.com/repos/o/r/deployments/42") ]))).

(** * Properties *)

(** ** The monad *)

Lemma bind_ret {A B : Type} (a : A) (f : A -> M B) : bind (ret a) f = f a.
Proof. unfold bind, ret. destruct (f a); reflexivity. Qed.

Lemma bind_emit {B : Type} (e : event) (k : M B) :
  bind (emit e) (fun _ => k) = (e :: fst k, snd k).
Proof. unfold bind, emit. destruct k; reflexivity. Qed.

Lemma getitem_dict (d : dict value) (k : string) (v : value) :
  lookup k d = Some v -> getitem (VDict d) k = ret v.
Proof. intros H. unfold getitem. rewrite H. reflexivity. Qed.

Lemma getitem_missing (d : dict value) (k : string) :
  lookup k d = None -> getitem (VDict d) k = raise (KeyError k).
Proof. intros H. unfold getitem. rewrite H. reflexivity. Qed.

Section ConfigLookups.
Variables (trigger : string) (env_file : option string).
Variables (allow_draft ignore_status_checks comment : bool).
Variable H : dict string.

Let G : globals :=
  mkGlobals
    (make_config trigger env_file allow_draft ignore_status_checks comment) H.

Lemma config_trigger : config G "trigger" = ret (VStr trigger).
Proof. reflexivity. Qed.

Lemma config_env_file :
  config G "env_file"
  = ret (match env_file with Some p => VStr p | None => VNone end).
Proof. reflexivity. Qed.

Lemma config_allow_draft : config G "allow_draft" = ret (VBool allow_draft).
Proof. reflexivity. Qed.

Lemma config_ignore_status_checks :
  config G "ignore_status_checks" = ret (VBool ignore_status_checks).
Proof. reflexivity. Qed.

Lemma config_comment : config G "comment" = ret (VBool comment).
Proof. reflexivity. Qed.

(** The dictionary of [__main__] has five keys; [pr_url] is not one. *)
Lemma config_pr_url : config G "pr_url" = raise (KeyError "pr_url").
Proof. reflexivity. Qed.
End ConfigLookups.

(** ** The pull-request validator *)

Lemma truthy_present (v : value) :
  (v = VNone \/ exists u, v = VDict u /\ u <> []) -> truthy v = present v.
Proof.
  intros [-> | (u & -> & Hu)]; [reflexivity |].
  destruct u; [contradiction | reflexivity].
Qed.

Lemma validate_pr_run (trigger : string) (env_file : option string)
    (allow ignore comment : bool) (H : dict string)
    (d : dict value) (draft merged : bool) (merged_by : value)
    (state mergeable_state : string) :
  lookup "draft" d = Some (VBool draft) ->
  lookup "merged" d = Some (VBool merged) ->
  lookup "merged_by" d = Some merged_by ->
  lookup "state" d = Some (VStr state) ->
  lookup "mergeable_state" d = Some (VStr mergeable_state) ->
  validate_pr (mkGlobals (make_config trigger env_file allow ignore comment) H)
    (VDict d)
  = ([Call "validate_pr"],
     validate_pr_spec allow draft merged (truthy merged_by) state mergeable_state).
Proof.
  intros Hd Hm Hb Hs Hms.
  unfold validate_pr, validate_pr_spec, call, config.
  rewrite bind_emit.
  rewrite (getitem_dict _ _ _ Hd), bind_ret. cbn [truthy].
  destruct draft, allow; cbn -[getitem lookup String.eqb]; try reflexivity;
    rewrite (getitem_dict _ _ _ Hm), ?bind_ret; cbn [truthy];
    destruct merged; cbn -[getitem lookup String.eqb]; try reflexivity;
    rewrite (getitem_dict _ _ _ Hb), ?bind_ret;
    destruct (truthy merged_by); cbn -[getitem lookup String.eqb];
    try reflexivity;
    rewrite (getitem_dict _ _ _ Hs), ?bind_ret; cbn [eq_str];
    destruct (String.eqb state "open"); cbn -[getitem lookup String.eqb];
    try reflexivity;
    rewrite (getitem_dict _ _ _ Hms), ?bind_ret; cbn [eq_str];
    destruct (String.eqb mergeable_state "mergeable");
    cbn -[getitem lookup String.eqb]; try reflexivity;
    destruct (String.eqb mergeable_state "draft"); reflexivity.
Qed.

Lemma validate_pr_spec_raises (allow draft merged by_present : bool)
    (state mergeable_state : string) :
  (exists msg, validate_pr_spec allow draft merged by_present state
                 mergeable_state = Raise (DeploymentFailure msg))
  <-> ((draft = true /\ allow = false)
       \/ (merged = true \/ by_present = true)
       \/ state <> "open"
       \/ (mergeable_state <> "mergeable"
           /\ ~ (mergeable_state = "draft" /\ allow = true))).
Proof.
  unfold validate_pr_spec.
  destruct (String.eqb_spec state "open") as [Hs | Hs];
    destruct (String.eqb_spec mergeable_state "mergeable") as [Hm | Hm];
    destruct (String.eqb_spec mergeable_state "draft") as [Hd | Hd];
    destruct draft, allow, merged, by_present; cbn;
    (split;
     [ intros [msg Hmsg]; try discriminate Hmsg;
       first
         [ left; split; reflexivity
         | right; left; left; reflexivity
         | right; left; right; reflexivity
         | right; right; left; assumption
         | right; right; right; split;
           [ assumption | intros [? ?]; congruence ] ]
     | intros Hc; try (eexists; reflexivity); exfalso;
       destruct Hc as [[? ?] | [[? | ?] | [? | [? Hn]]]];
       try discriminate; try contradiction;
       try (apply Hn; split; [assumption | reflexivity]) ]).
Qed.

(** C4. For every pull-request record, [validate_pr] raises
    [DeploymentFailure] exactly when the PR is a draft and drafts are
    disallowed, or it is merged or has a [merged_by], or its state is not
    "open", or its mergeable state is not "mergeable" (unless that state is
    "draft" and drafts are allowed); the checks run in this order and the
    first failing one gives the message.  The validator has no other effect
    and raises nothing else. *)
Theorem validate_pr_first_failing_check (trigger : string)
    (env_file : option string) (allow ignore comment : bool) (H : dict string)
    (pr : value) (draft merged : bool) (merged_by : value)
    (state mergeable_state : string) :
  pr_fields pr draft merged merged_by state mergeable_state ->
  let G := mkGlobals (make_config trigger env_file allow ignore comment) H in
  validate_pr G pr
  = ([Call "validate_pr"],
     validate_pr_spec allow draft merged (present merged_by) state
       mergeable_state)
  /\ ((exists msg, result (validate_pr G pr) = Raise (DeploymentFailure msg))
      <-> ((draft = true /\ allow = false)
           \/ (merged = true \/ present merged_by = true)
           \/ state <> "open"
           \/ (mergeable_state <> "mergeable"
               /\ ~ (mergeable_state = "draft" /\ allow = true)))).
Proof.
  intros [(d & -> & Hd & Hm & Hb & Hs & Hms) Hshape] G.
  assert (E : validate_pr G (VDict d)
              = ([Call "validate_pr"],
                 validate_pr_spec allow draft merged (present merged_by) state
                   mergeable_state)).
  { unfold G. rewrite (validate_pr_run _ _ _ _ _ _ _ _ _ _ _ _
                         Hd Hm Hb Hs Hms).
    rewrite (truthy_present _ Hshape). reflexivity. }
  split; [exact E |].
  rewrite E. unfold result, snd. apply validate_pr_spec_raises.
Qed.

Lemma sample_pr_fields (draft merged : bool) (state mergeable_state : string) :
  pr_fields (sample_pr draft merged VNone state mergeable_state)
    draft merged VNone state mergeable_state.
Proof.
  split; [| left; reflexivity].
  eexists; split; [reflexivity |]. repeat split; reflexivity.
Qed.

Lemma validate_pr_first_failing_check_witness :
  validate_pr
    (mkGlobals (make_config "deploy to" None false false true) [])
    (sample_pr true true VNone "closed" "dirty")
  = ([Call "validate_pr"], Raise (DeploymentFailure "Can't deploy draft PRs.")).
Proof.
  exact (proj1 (validate_pr_first_failing_check "deploy to" None false false
                  true [] _ true true VNone "closed" "dirty"
                  (sample_pr_fields true true "closed" "dirty"))).
Defined.

(** ** Strings: prefixes and trimming *)

Lemma length_app (a b : string) :
  String.length (a ++ b) = String.length a + String.length b.
Proof. induction a as [| x a IH]; cbn; [reflexivity | now rewrite IH]. Qed.

Lemma prefix_app (t s : string) : String.prefix t (t ++ s) = true.
Proof.
  induction t as [| c t IH]; cbn.
  - destruct s; reflexivity.
  - destruct (Ascii.ascii_dec c c) as [_ | N]; [exact IH | contradiction].
Qed.

Lemma str_drop_app (t s : string) : str_drop (String.length t) (t ++ s) = s.
Proof. induction t as [| c t IH]; cbn; [reflexivity | exact IH]. Qed.

Lemma prefix_split (t m : string) :
  String.prefix t m = true -> m = t ++ str_drop (String.length t) m.
Proof.
  revert m. induction t as [| c t IH]; intros m H; cbn.
  - reflexivity.
  - destruct m as [| c' m]; cbn in H; [discriminate |].
    destruct (Ascii.ascii_dec c c') as [-> | _]; [| discriminate].
    cbn. f_equal. apply IH, H.
Qed.

Lemma lstrip_spaces (l s : string) :
  all_space l = true -> lstrip (l ++ s) = lstrip s.
Proof.
  induction l as [| c l IH]; cbn; intros H; [reflexivity |].
  apply andb_prop in H as [Hc Hl]. rewrite Hc. apply IH, Hl.
Qed.

Lemma rstrip_spaces (r : string) : all_space r = true -> rstrip r = "".
Proof.
  induction r as [| c r IH]; cbn; intros H; [reflexivity |].
  apply andb_prop in H as [Hc Hr]. rewrite (IH Hr), Hc. reflexivity.
Qed.

Lemma rstrip_app_spaces (e r : string) :
  all_space r = true -> rstrip (e ++ r) = rstrip e.
Proof.
  intros Hr. induction e as [| c e IH]; cbn.
  - apply rstrip_spaces, Hr.
  - rewrite IH. reflexivity.
Qed.

Lemma rstrip_ends_nonspace (e : string) :
  ends_nonspace e = true -> rstrip e = e.
Proof.
  induction e as [| c e IH]; cbn; intros H; [discriminate |].
  destruct e as [| c' e].
  - cbn. apply negb_true_iff in H. rewrite H. reflexivity.
  - rewrite (IH H). reflexivity.
Qed.

(** Trimming removes exactly the whitespace at the two ends. *)
Lemma strip_spec (l e r : string) :
  all_space l = true -> all_space r = true -> trimmed e = true ->
  strip (l ++ e ++ r) = e.
Proof.
  intros Hl Hr He. unfold strip. rewrite (lstrip_spaces _ _ Hl).
  destruct e as [| c e].
  - cbn [append]. clear He.
    assert (E : lstrip r = "").
    { induction r as [| x r IH]; cbn; [reflexivity |].
      cbn in Hr. apply andb_prop in Hr as [Hx Hr]. rewrite Hx. auto. }
    rewrite E. reflexivity.
  - cbn in He. apply andb_prop in He as [Hc He].
    apply negb_true_iff in Hc. cbn [append lstrip]. rewrite Hc.
    change (String c (e ++ r)) with (String c e ++ r).
    rewrite (rstrip_app_spaces _ _ Hr). apply rstrip_ends_nonspace, He.
Qed.

Lemma lstrip_split (s : string) :
  exists l, s = l ++ lstrip s /\ all_space l = true.
Proof.
  induction s as [| c s (l & E & Hl)]; cbn.
  - exists "". split; reflexivity.
  - destruct (is_space c) eqn:Hc.
    + exists (String c l). cbn. rewrite Hc, Hl, <- E. split; reflexivity.
    + exists "". split; reflexivity.
Qed.

Lemma rstrip_split (s : string) :
  exists r, s = rstrip s ++ r /\ all_space r = true
            /\ (rstrip s = "" \/ ends_nonspace (rstrip s) = true).
Proof.
  induction s as [| c s (r & E & Hr & Ht)]; cbn.
  - exists "". repeat split; auto.
  - destruct (rstrip s) as [| c' s'] eqn:Hs.
    + destruct (is_space c) eqn:Hc.
      * exists (String c r). cbn in E. subst r. cbn. rewrite Hc, Hr.
        repeat split; auto.
      * exists r. cbn in E |- *. subst r. rewrite Hc. repeat split; auto.
    + exists r. cbn [append] in E |- *. rewrite <- E.
      repeat split; auto. right.
      destruct Ht as [Ht | Ht]; [discriminate | exact Ht].
Qed.

Lemma rstrip_head (c : ascii) (s : string) :
  is_space c = false -> exists s', rstrip (String c s) = String c s'.
Proof.
  intros Hc. cbn. destruct (rstrip s).
  - rewrite Hc. eexists; reflexivity.
  - eexists; reflexivity.
Qed.

(** Every string is its trimmed form between two runs of whitespace. *)
Lemma strip_split (s : string) :
  exists l r, s = l ++ strip s ++ r
              /\ all_space l = true /\ all_space r = true
              /\ trimmed (strip s) = true.
Proof.
  destruct (lstrip_split s) as (l & El & Hl).
  destruct (rstrip_split (lstrip s)) as (r & Er & Hr & Ht).
  exists l, r. unfold strip. rewrite <- Er. repeat split; auto.
  destruct (lstrip s) as [| c s'] eqn:Hs; [reflexivity |].
  assert (Hc : is_space c = false).
  { clear -Hs. induction s as [| x s IH]; cbn in Hs; [discriminate |].
    destruct (is_space x) eqn:Hx; [auto |]. now inversion Hs; subst. }
  destruct (rstrip_head c s' Hc) as (s'' & E). rewrite E in Ht |- *.
  destruct Ht as [Ht | Ht]; [discriminate |].
  unfold trimmed. rewrite Hc, Ht. reflexivity.
Qed.

(** ** The command parser *)

Lemma sample_comment_fields (body : string) :
  comment_fields (sample_comment body) body (VStr "octocat").
Proof. do 2 eexists. repeat split; reflexivity. Qed.

Lemma parse_message_run (trigger : string) (env_file : option string)
    (allow ignore comment_on : bool) (H : dict string)
    (comment : value) (m : string) (author : value) :
  comment_fields comment m author ->
  parse_message
    (mkGlobals (make_config trigger env_file allow ignore comment_on) H) comment
  = if startswith m trigger then
      ([Call "parse_message"],
       let environment := strip (str_drop (String.length trigger) m) in
       if String.eqb environment "" then
         Raise (DeploymentFailure (no_environment_message trigger))
       else Ret environment)
    else
      ([Call "parse_message"; Print (no_match_line author trigger)],
       Raise (SystemExit 0)).
Proof.
  intros (d & u & -> & Hb & Hu & Hl).
  unfold parse_message, call. rewrite bind_emit.
  rewrite (getitem_dict _ _ _ Hb), bind_ret.
  rewrite (getitem_dict _ _ _ Hu), bind_ret.
  rewrite (getitem_dict _ _ _ Hl), bind_ret.
  unfold str_receiver. rewrite bind_ret.
  rewrite config_trigger, bind_ret.
  unfold str_argument. rewrite bind_ret.
  destruct (startswith m trigger); cbn [negb].
  - cbv zeta.
    destruct (String.eqb (strip (str_drop (String.length trigger) m)) "");
      reflexivity.
  - reflexivity.
Qed.

(** On [trigger ++ l ++ e ++ r] with [l], [r] whitespace and [e] trimmed,
    the parser answers [e], or fails when [e] is empty. *)
Lemma parse_message_trims (trigger : string) (env_file : option string)
    (allow ignore comment_on : bool) (H : dict string)
    (comment : value) (l e r : string) (author : value) :
  all_space l = true -> all_space r = true -> trimmed e = true ->
  comment_fields comment (trigger ++ l ++ e ++ r) author ->
  parse_message
    (mkGlobals (make_config trigger env_file allow ignore comment_on) H) comment
  = ([Call "parse_message"],
     if String.eqb e "" then
       Raise (DeploymentFailure (no_environment_message trigger))
     else Ret e).
Proof.
  intros Hl Hr He Hc.
  rewrite (parse_message_run _ _ _ _ _ _ _ _ _ Hc).
  unfold startswith. rewrite prefix_app, str_drop_app.
  cbv zeta. rewrite (strip_spec _ _ _ Hl Hr He). reflexivity.
Qed.

(** C8. For every comment body that starts with the trigger phrase, the
    body is the phrase, whitespace, a trimmed remainder and whitespace; the
    parser yields that remainder as the environment name, and raises
    [DeploymentFailure] if and only if the remainder is empty, which is the
    case for a comment equal to the trigger phrase. *)
Theorem parse_message_yields_trimmed_remainder (trigger : string)
    (env_file : option string) (allow ignore comment_on : bool)
    (H : dict string) (comment : value) (m : string) (author : value) :
  comment_fields comment m author ->
  startswith m trigger = true ->
  let G := mkGlobals (make_config trigger env_file allow ignore comment_on) H in
  exists l e r,
    m = trigger ++ l ++ e ++ r
    /\ all_space l = true /\ all_space r = true /\ trimmed e = true
    /\ parse_message G comment
       = ([Call "parse_message"],
          if String.eqb e "" then
            Raise (DeploymentFailure (no_environment_message trigger))
          else Ret e)
    /\ ((exists msg,
           result (parse_message G comment) = Raise (DeploymentFailure msg))
        <-> e = "")
    /\ (m = trigger -> e = "").
Proof.
  intros Hc Hp G.
  pose proof (prefix_split _ _ Hp) as Em.
  destruct (strip_split (str_drop (String.length trigger) m))
    as (l & r & Es & Hl & Hr & Ht).
  set (e := strip (str_drop (String.length trigger) m)) in *.
  exists l, e, r.
  assert (Em' : m = trigger ++ l ++ e ++ r) by (rewrite <- Es; exact Em).
  assert (E : parse_message G comment
              = ([Call "parse_message"],
                 if String.eqb e "" then
                   Raise (DeploymentFailure (no_environment_message trigger))
                 else Ret e)).
  { unfold G. apply parse_message_trims with (l := l) (r := r) (author := author);
      auto. rewrite <- Em'. exact Hc. }
  repeat split; auto.
  - rewrite E. unfold result, snd. intros [msg Hmsg].
    destruct (String.eqb_spec e ""); [assumption | discriminate].
  - intros ->. rewrite E. unfold result, snd. cbn. eexists; reflexivity.
  - intros Emt. rewrite Emt in Em' at 1.
    assert (L : String.length trigger
                = String.length (trigger ++ l ++ e ++ r)) by (now rewrite <- Em').
    rewrite !length_app in L.
    destruct e; [reflexivity | cbn in L; lia].
Qed.

Lemma parse_message_yields_trimmed_remainder_witness :
  exists l e r,
    "deploy to  staging " = "deploy to" ++ l ++ e ++ r
    /\ all_space l = true /\ all_space r = true /\ trimmed e = true
    /\ parse_message
         (mkGlobals (make_config "deploy to" None false false true) [])
         (sample_comment "deploy to  staging ")
       = ([Call "parse_message"],
          if String.eqb e "" then
            Raise (DeploymentFailure (no_environment_message "deploy to"))
          else Ret e).
Proof.
  destruct (parse_message_yields_trimmed_remainder "deploy to" None false false
              true [] _ _ _ (sample_comment_fields "deploy to  staging ")
              eq_refl)
    as (l & e & r & E & Hl & Hr & Ht & Hrun & _).
  exists l, e, r. repeat split; assumption.
Defined.

(** C9. The trigger match is a plain prefix test, with no word boundary:
    a body made of the trigger phrase immediately followed by a
    non-whitespace character [c] is accepted as a command.  What follows
    the phrase is a trimmed name [e] that starts with [c], then whitespace,
    and the environment name is [e].  With the phrase "deploy to", the
    comment "deploy toprod" deploys to "prod". *)
Theorem parse_message_no_word_boundary (trigger : string)
    (env_file : option string) (allow ignore comment_on : bool)
    (H : dict string) (comment : value) (c : ascii) (s : string)
    (author : value) :
  comment_fields comment (trigger ++ String c s) author ->
  is_space c = false ->
  (exists e r,
     String c s = e ++ r
     /\ all_space r = true /\ trimmed e = true
     /\ (exists s', e = String c s')
     /\ parse_message
          (mkGlobals (make_config trigger env_file allow ignore comment_on) H)
          comment
        = ([Call "parse_message"], Ret e))
  /\ parse_message
       (mkGlobals (make_config "deploy to" env_file allow ignore comment_on) H)
       (sample_comment "deploy toprod")
     = ([Call "parse_message"], Ret "prod").
Proof.
  intros Hc Hs. split; [| reflexivity].
  destruct (rstrip_split (String c s)) as (r & E & Hr & Ht).
  destruct (rstrip_head c s Hs) as (s' & Es). rewrite Es in E, Ht.
  destruct Ht as [Ht | Ht]; [discriminate |].
  assert (Htrim : trimmed (String c s') = true).
  { unfold trimmed. rewrite Hs, Ht. reflexivity. }
  exists (String c s'), r. repeat split; try assumption.
  - exists s'. reflexivity.
  - rewrite E in Hc.
    exact (parse_message_trims trigger env_file allow ignore comment_on H
             comment "" (String c s') r author eq_refl Hr Htrim Hc).
Qed.

Lemma parse_message_no_word_boundary_witness :
  exists e r,
    "it now  " = e ++ r
    /\ all_space r = true /\ trimmed e = true
    /\ (exists s', e = String "i"%char s')
    /\ parse_message
         (mkGlobals (make_config "ship" None false false true) [])
         (sample_comment "shipit now  ")
       = ([Call "parse_message"], Ret e).
Proof.
  exact (proj1 (parse_message_no_word_boundary "ship" None false false true
                  [] (sample_comment "shipit now  ") "i"%char "t now  " _
                  (sample_comment_fields _) eq_refl)).
Defined.

(** ** Traces of composed runs *)

Lemma trace_bind {A B : Type} (m : M A) (f : A -> M B) :
  trace (bind m f)
  = (trace m ++ match result m with
                | Ret a => trace (f a)
                | Raise _ => []
                end)%list.
Proof.
  destruct m as [t [a | e]]; cbn.
  - destruct (f a); reflexivity.
  - now rewrite app_nil_r.
Qed.

Lemma result_bind {A B : Type} (m : M A) (f : A -> M B) :
  result (bind m f)
  = match result m with
    | Ret a => result (f a)
    | Raise e => Raise e
    end.
Proof.
  destruct m as [t [a | e]]; cbn; [| reflexivity]. destruct (f a); reflexivity.
Qed.

Lemma calls_app (t1 t2 : list event) :
  calls (t1 ++ t2) = (calls t1 ++ calls t2)%list.
Proof.
  induction t1 as [| [f | l | p | r] t1 IH]; cbn; try assumption.
  - reflexivity.
  - now rewrite IH.
Qed.

(** ** The environment resolver *)

Lemma find_environment_records (e : string) (envs : list value) :
  Forall is_record envs ->
  find_environment e envs = ret (find (name_is e) envs).
Proof.
  induction 1 as [| r envs (d & n & -> & Hn) _ IH]; [reflexivity |].
  cbn [find_environment find name_is].
  rewrite (getitem_dict _ _ _ Hn), bind_ret, Hn.
  destruct (eq_str n e); [reflexivity | exact IH].
Qed.

Lemma find_environment_skip (e : string) (pre rest : list value) :
  Forall is_record pre -> forallb (fun r => negb (name_is e r)) pre = true ->
  find_environment e (pre ++ rest)%list = find_environment e rest.
Proof.
  induction 1 as [| r pre (d & n & -> & Hn) _ IH]; [reflexivity |].
  cbn [forallb name_is app find_environment]. rewrite Hn.
  intros Hp. apply andb_prop in Hp as [Hr Hp]. apply negb_true_iff in Hr.
  rewrite (getitem_dict _ _ _ Hn), bind_ret, Hr. exact (IH Hp).
Qed.

Lemma bind_step {A B : Type} (t : list event) (a : A) (f : A -> M B) :
  bind (t, Ret a) f = ((t ++ fst (f a))%list, snd (f a)).
Proof. cbn. destruct (f a); reflexivity. Qed.

Lemma json_load_open_parsed (w : world) (p v : value) :
  files w p = Parsed v -> json_load_open w p = ([Open p], Ret v).
Proof. intros E. unfold json_load_open. rewrite E. reflexivity. Qed.

Lemma json_load_open_cannot_open (w : world) (p : value) :
  files w p = CannotOpen -> json_load_open w p = ([Open p], Raise OSError).
Proof. intros E. unfold json_load_open. rewrite E. reflexivity. Qed.

Lemma json_load_open_not_json (w : world) (p : value) :
  files w p = NotJson -> json_load_open w p = ([Open p], Raise JSONDecodeError).
Proof. intros E. unfold json_load_open. rewrite E. reflexivity. Qed.

(** The resolver once the allowlist file has been read as a list. *)
Lemma get_environment_loaded (trigger p : string) (allow ignore comment : bool)
    (H : dict string) (w : world) (e : string) (envs : list value) :
  p <> "" ->
  files w (VStr p) = Parsed (VList envs) ->
  get_environment
    (mkGlobals (make_config trigger (Some p) allow ignore comment) H) w e
  = ([Call "get_environment"; Open (VStr p)],
     match result (find_environment e envs) with
     | Ret (Some env) => Ret env
     | Ret None => Raise (DeploymentFailure (unknown_environment_message e p))
     | Raise x => Raise x
     end).
Proof.
  intros Hp Hf. apply String.eqb_neq in Hp.
  unfold get_environment, call. rewrite bind_emit, config_env_file, bind_ret.
  cbn [truthy]. rewrite Hp. cbn [negb].
  rewrite (json_load_open_parsed _ _ _ Hf), bind_step.
  cbn [py_iter]. rewrite bind_ret.
  assert (T : forall l, fst (find_environment e l) = []).
  { induction l as [| r l IH]; [reflexivity |].
    cbn [find_environment]. fold (trace (find_environment e l)) in IH.
    change (trace (name <- getitem r "name" ;;
                   (if eq_str name e then ret (Some r)
                    else find_environment e l)) = []).
    rewrite trace_bind.
    destruct r; try reflexivity. cbn [getitem].
    destruct (lookup "name" d); [| reflexivity]. cbn.
    destruct (eq_str v e); [reflexivity | exact IH]. }
  specialize (T envs). unfold result.
  destruct (find_environment e envs) as [t [[env |] | x]]; cbn in T; subst t;
    reflexivity.
Qed.

(** C6. Without an allowlist file the resolver returns the record
    [{name: requested}] whatever the name.  With a file holding an array of
    records it returns the first record whose name equals the requested
    name, and raises [DeploymentFailure] if and only if no record matches.
    A file that cannot be read or is not JSON raises the library's
    exception, which no [except DeploymentFailure] clause catches. *)
Theorem get_environment_resolves (trigger : string) (allow ignore comment : bool)
    (H : dict string) (w : world) (e : string) :
  (forall env_file, env_file = None \/ env_file = Some "" ->
     get_environment
       (mkGlobals (make_config trigger env_file allow ignore comment) H) w e
     = ([Call "get_environment"], Ret (VDict [("name", VStr e)])))
  /\ (forall p envs, p <> "" ->
        files w (VStr p) = Parsed (VList envs) -> Forall is_record envs ->
        let run :=
          get_environment
            (mkGlobals (make_config trigger (Some p) allow ignore comment) H)
            w e in
        run
        = ([Call "get_environment"; Open (VStr p)],
           match find (name_is e) envs with
           | Some env => Ret env
           | None => Raise (DeploymentFailure (unknown_environment_message e p))
           end)
        /\ ((exists msg, result run = Raise (DeploymentFailure msg))
            <-> forall r, In r envs -> name_is e r = false))
  /\ (forall p (B : Type) (handler : string -> M B) (orelse : value -> M B),
        p <> "" ->
        let run :=
          get_environment
            (mkGlobals (make_config trigger (Some p) allow ignore comment) H)
            w e in
        (files w (VStr p) = CannotOpen ->
           run = ([Call "get_environment"; Open (VStr p)], Raise OSError)
           /\ result (try_except_else run handler orelse) = Raise OSError)
        /\ (files w (VStr p) = NotJson ->
             run = ([Call "get_environment"; Open (VStr p)],
                    Raise JSONDecodeError)
             /\ result (try_except_else run handler orelse)
                = Raise JSONDecodeError)).
Proof.
  split; [| split].
  - intros env_file [-> | ->]; reflexivity.
  - intros p envs Hp Hf Hr run.
    assert (E : run
                = ([Call "get_environment"; Open (VStr p)],
                   match find (name_is e) envs with
                   | Some env => Ret env
                   | None =>
                       Raise (DeploymentFailure
                                (unknown_environment_message e p))
                   end)).
    { unfold run. rewrite (get_environment_loaded _ _ _ _ _ _ _ _ _ Hp Hf).
      rewrite (find_environment_records _ _ Hr). reflexivity. }
    split; [exact E |]. rewrite E. unfold result, snd. split.
    + intros [msg Hmsg] r Hin.
      destruct (find (name_is e) envs) as [env |] eqn:Hfind.
      * discriminate Hmsg.
      * destruct (name_is e r) eqn:Hn; [| reflexivity].
        exfalso. exact (eq_true_false_abs _ Hn (find_none _ _ Hfind _ Hin)).
    + intros Hall. destruct (find (name_is e) envs) as [env |] eqn:Hfind.
      * apply find_some in Hfind as [Hin Hname].
        rewrite (Hall _ Hin) in Hname. discriminate.
      * eexists; reflexivity.
  - intros p B handler orelse Hp run. apply String.eqb_neq in Hp.
    unfold run, get_environment, call.
    rewrite bind_emit, config_env_file, bind_ret. cbn [truthy]. rewrite Hp.
    cbn [negb]. split; intros Hf.
    + rewrite (json_load_open_cannot_open _ _ Hf). split; reflexivity.
    + rewrite (json_load_open_not_json _ _ Hf). split; reflexivity.
Qed.

Lemma sample_allowlist_records :
  Forall is_record
    [ VDict [("name", VStr "staging")];
      VDict [("name", VStr "prod"); ("production", VBool true)] ].
Proof. repeat constructor; do 2 eexists; split; reflexivity. Qed.

Lemma get_environment_resolves_witness :
  get_environment
    (mkGlobals (make_config "deploy to" (Some "envs.json") false false true) [])
    (sample_world [] no_server) "prod"
  = ([Call "get_environment"; Open (VStr "envs.json")],
     Ret (VDict [("name", VStr "prod"); ("production", VBool true)]))
  /\ get_environment
       (mkGlobals (make_config "deploy to" (Some "envs.json") false false true) [])
       (sample_world [] no_server) "qa"
     = ([Call "get_environment"; Open (VStr "envs.json")],
        Raise (DeploymentFailure
                 "Environment 'qa' doesn't exist in CONFIG['env_file'] (envs.json).")).
Proof.
  split.
  - refine (proj1 (proj1 (proj2 (get_environment_resolves "deploy to" false
                                   false true [] (sample_world [] no_server)
                                   "prod"))
                     "envs.json" _ _ eq_refl sample_allowlist_records)).
    discriminate.
  - refine (proj1 (proj1 (proj2 (get_environment_resolves "deploy to" false
                                   false true [] (sample_world [] no_server)
                                   "qa"))
                     "envs.json" _ _ eq_refl sample_allowlist_records)).
    discriminate.
Defined.

(** C10. With an allowlist file the resolver reads the records in array
    order and stops at the first match: the answer is that record whatever
    follows it, well-formed or not.  A record without a [name] that is
    reached before any match raises [KeyError], not [DeploymentFailure]. *)
Theorem get_environment_scans_in_order (trigger p : string)
    (allow ignore comment : bool) (H : dict string) (w : world) (e : string)
    (pre post : list value) (r : value) :
  p <> "" ->
  files w (VStr p) = Parsed (VList (pre ++ r :: post)) ->
  Forall is_record pre ->
  forallb (fun x => negb (name_is e x)) pre = true ->
  let run :=
    get_environment
      (mkGlobals (make_config trigger (Some p) allow ignore comment) H) w e in
  (name_is e r = true ->
     run = ([Call "get_environment"; Open (VStr p)], Ret r))
  /\ (nameless r ->
      run = ([Call "get_environment"; Open (VStr p)], Raise (KeyError "name"))).
Proof.
  intros Hp Hf Hpre Hno run. unfold run.
  rewrite (get_environment_loaded _ _ _ _ _ _ _ _ _ Hp Hf).
  rewrite (find_environment_skip _ _ _ Hpre Hno).
  split.
  - intros Hr. unfold name_is in Hr. destruct r; try discriminate.
    destruct (lookup "name" d) as [n |] eqn:Hn; [| discriminate].
    cbn [find_environment]. rewrite (getitem_dict _ _ _ Hn), bind_ret, Hr.
    reflexivity.
  - intros (d & -> & Hn). cbn [find_environment].
    rewrite (getitem_missing _ _ Hn). reflexivity.
Qed.

Lemma get_environment_scans_in_order_witness :
  get_environment
    (mkGlobals (make_config "deploy to" (Some "envs.json") false false true) [])
    (crowded_world [ VDict [("name", VStr "staging")];
                     VDict [("name", VStr "prod")];
                     VDict [("label", VStr "no name here")];
                     VInt 3 ])
    "prod"
  = ([Call "get_environment"; Open (VStr "envs.json")],
     Ret (VDict [("name", VStr "prod")]))
  /\ get_environment
       (mkGlobals (make_config "deploy to" (Some "envs.json") false false true) [])
       (crowded_world [ VDict [("name", VStr "staging")];
                        VDict [("label", VStr "no name here")];
                        VDict [("name", VStr "prod")] ])
       "prod"
     = ([Call "get_environment"; Open (VStr "envs.json")],
        Raise (KeyError "name")).
Proof.
  assert (P : Forall is_record [VDict [("name", VStr "staging")]]).
  { repeat constructor. do 2 eexists; split; reflexivity. }
  split.
  - refine (proj1 (get_environment_scans_in_order "deploy to" "envs.json" false
                     false true [] (crowded_world _) "prod"
                     [VDict [("name", VStr "staging")]]
                     [VDict [("label", VStr "no name here")]; VInt 3]
                     (VDict [("name", VStr "prod")]) _ eq_refl P eq_refl)
                  eq_refl).
    discriminate.
  - refine (proj2 (get_environment_scans_in_order "deploy to" "envs.json" false
                     false true [] (crowded_world _) "prod"
                     [VDict [("name", VStr "staging")]]
                     [VDict [("name", VStr "prod")]]
                     (VDict [("label", VStr "no name here")]) _ eq_refl P
                     eq_refl)
                  _).
    + discriminate.
    + eexists; split; reflexivity.
Defined.

(** ** The status checker *)

Lemma raise_for_status_ok (resp : response) :
  ok_status resp -> raise_for_status resp = ret tt.
Proof.
  intros Hok. unfold raise_for_status.
  destruct (Z.leb_spec 400 (status_code resp));
    destruct (Z.ltb_spec (status_code resp) 600); cbn; try reflexivity.
  unfold ok_status in Hok. lia.
Qed.

Lemma mapM_status_line (subs contexts : list value) :
  Forall2 has_context subs contexts ->
  mapM status_line subs = ret (map (fun c => "* " ++ py_str c) contexts).
Proof.
  induction 1 as [| s c subs contexts (d & -> & Hc) _ IH]; [reflexivity |].
  cbn [mapM map]. unfold status_line at 1.
  rewrite (getitem_dict _ _ _ Hc), !bind_ret, IH, bind_ret. reflexivity.
Qed.

(** C5. When status checks are not ignored and the combined status is not
    "success", the checker raises [DeploymentFailure] with a message that
    lists the context of every sub-status of the combined status, in order,
    whatever the state of each sub-status. *)
Theorem check_commit_lists_every_context (trigger : string)
    (env_file : option string) (allow comment : bool) (H : dict string)
    (w : world) (head_repo sha : value) (resp : response)
    (status : dict value) (state : value) (subs contexts : list value) :
  let G := mkGlobals (make_config trigger env_file allow false comment) H in
  let req := mkRequest GET (VStr (status_url head_repo sha)) H None in
  server w req = Got resp ->
  ok_status resp ->
  json_body resp = Some (VDict status) ->
  lookup "state" status = Some state ->
  eq_str state "success" = false ->
  lookup "statuses" status = Some (VList subs) ->
  Forall2 has_context subs contexts ->
  check_commit G w head_repo sha
  = ([Call "check_commit"; Send req],
     Raise (DeploymentFailure (not_green_message sha contexts))).
Proof.
  intros G req Hs Hok Hj Hst Hne Hsubs Hctx.
  unfold check_commit, call. rewrite bind_emit.
  unfold G. rewrite config_ignore_status_checks, bind_ret. cbn [truthy].
  unfold requests_get, requests_send. cbn [BASE_GH_REQUEST_HEADERS].
  fold req. rewrite Hs. rewrite bind_emit. cbn [fst snd ret].
  rewrite bind_step. cbn [app].
  rewrite (raise_for_status_ok _ Hok), bind_ret.
  unfold response_json. rewrite Hj, bind_ret.
  rewrite (getitem_dict _ _ _ Hst), bind_ret, Hne. cbn [negb].
  rewrite (getitem_dict _ _ _ Hsubs), bind_ret. cbn [py_iter].
  rewrite bind_ret, (mapM_status_line _ _ Hctx), bind_ret.
  reflexivity.
Qed.

Lemma check_commit_lists_every_context_witness :
  check_commit
    (mkGlobals (make_config "deploy to" None false false true) [])
    (sample_world [] status_server) (VStr "o/r") (VStr "abc123")
  = ([ Call "check_commit";
       Send (mkRequest GET
               (VStr "https://api.github.com/repos/o/r/commits/abc123/status")
               [] None) ],
     Raise (DeploymentFailure
              ("The following status checks are not green for abc123:" ++ nl
               ++ "* ci/build" ++ nl ++ "* ci/test."))).
Proof.
  refine (check_commit_lists_every_context "deploy to" None false true []
            (sample_world [] status_server) (VStr "o/r") (VStr "abc123")
            (mkResponse 200 "" (Some sample_status)) _ (VStr "failure")
            _ [VStr "ci/build"; VStr "ci/test"]
            eq_refl _ eq_refl eq_refl eq_refl eq_refl _).
  - left. reflexivity.
  - repeat constructor; eexists; split; reflexivity.
Defined.

(** ** The deployment trigger *)

Lemma deployment_params_run (trigger : string) (env_file : option string)
    (allow ignore comment : bool) (H : dict string) (ref : value)
    (environment : dict value) (description : string) (name : value) :
  lookup "name" environment = Some name ->
  deployment_params
    (mkGlobals (make_config trigger env_file allow ignore comment) H)
    ref (VDict environment) description
  = ret (if ignore
         then (base_params ref environment description name
               ++ [("required_contexts", VList [])])%list
         else base_params ref environment description name).
Proof.
  intros Hn. unfold deployment_params, base_params, get_method.
  destruct (lookup "transient" environment);
    destruct (lookup "production" environment);
    rewrite !bind_ret, (getitem_dict _ _ _ Hn), bind_ret,
      config_ignore_status_checks, bind_ret;
    destruct ignore; reflexivity.
Qed.

Lemma set_deployment_outputs_requests (resp : response) :
  requests (trace (set_deployment_outputs resp)) = [].
Proof.
  unfold set_deployment_outputs, response_json, call. rewrite bind_emit.
  destruct (json_body resp) as [[| | | | |d] |]; try reflexivity.
  rewrite bind_ret. cbn [getitem].
  destruct (lookup "id" d); [| reflexivity]. rewrite bind_ret.
  destruct (lookup "url" d); reflexivity.
Qed.

(** C7. When [ignore_status_checks] is true the status check returns at
    once without any HTTP request, and the deployment request carries an
    explicit empty [required_contexts] list; when it is false the request
    carries no [required_contexts] entry.  Either way exactly one request
    is sent by the trigger: the POST of these parameters. *)
Theorem ignore_status_checks_is_passed_on (trigger : string)
    (env_file : option string) (allow comment : bool) (H : dict string)
    (w : world) (head_repo sha : value) :
  check_commit (mkGlobals (make_config trigger env_file allow true comment) H)
    w head_repo sha
  = ([Call "check_commit"], Ret tt)
  /\ forall (ignore : bool) (environment : dict value) (name : value)
       (description : string),
       lookup "name" environment = Some name ->
       exists params,
         requests
           (trace
              (trigger_deployment
                 (mkGlobals (make_config trigger env_file allow ignore comment) H)
                 w head_repo sha (VDict environment) description))
         = [ mkRequest POST (VStr (deployments_url head_repo))
               (deployment_headers H) (Some (VDict params)) ]
         /\ lookup "ref" params = Some sha
         /\ lookup "environment" params = Some name
         /\ lookup "required_contexts" params
            = if ignore then Some (VList []) else None.
Proof.
  split; [reflexivity |].
  intros ignore environment name description Hn.
  exists (if ignore
          then (base_params sha environment description name
                ++ [("required_contexts", VList [])])%list
          else base_params sha environment description name).
  split; [| destruct ignore; repeat split; reflexivity].
  unfold trigger_deployment, call. rewrite bind_emit.
  rewrite (deployment_params_run _ _ _ _ _ _ _ _ _ _ Hn), bind_ret.
  unfold requests_post, requests_send. cbn [BASE_GH_REQUEST_HEADERS].
  fold (deployment_headers H).
  set (req := mkRequest POST _ _ _).
  rewrite bind_emit. unfold trace. cbn [fst requests].
  destruct (server w req) as [| resp]; [reflexivity |].
  cbn [ret fst snd]. rewrite bind_step. cbn [app fst requests]. f_equal.
  unfold raise_for_status.
  destruct ((400 <=? status_code resp)%Z && (status_code resp <? 600)%Z);
    cbn [ret raise]; [reflexivity |].
  rewrite bind_step. cbn [app fst].
  apply set_deployment_outputs_requests.
Qed.

Lemma ignore_status_checks_is_passed_on_witness :
  exists params,
    requests
      (trace
         (trigger_deployment
            (mkGlobals (make_config "deploy to" None false true true) [])
            (sample_world [] no_server) (VStr "o/r") (VStr "abc123")
            (VDict [("name", VStr "staging")])
            "Automatic deployment from #7"))
    = [ mkRequest POST (VStr "https://api.github.com/repos/o/r/deployments")
          [("Accept", "application/vnd.github.ant-man-preview+json")]
          (Some (VDict params)) ]
    /\ lookup "ref" params = Some (VStr "abc123")
    /\ lookup "environment" params = Some (VStr "staging")
    /\ lookup "required_contexts" params = Some (VList []).
Proof.
  exact (proj2 (ignore_status_checks_is_passed_on "deploy to" None false true
                  [] (sample_world [] no_server) (VStr "o/r") (VStr "abc123"))
           true [("name", VStr "staging")] (VStr "staging")
           "Automatic deployment from #7" eq_refl).
Defined.

(** ** The order of the pipeline *)

Lemma quiet_ret {A : Type} (a : A) : quiet (ret a).
Proof. reflexivity. Qed.

Lemma quiet_raise {A : Type} (e : exn) : quiet (@raise A e).
Proof. reflexivity. Qed.

Lemma quiet_sys_exit {A : Type} (c : Z) : quiet (@sys_exit A c).
Proof. reflexivity. Qed.

Lemma quiet_print (l : string) : quiet (print l).
Proof. reflexivity. Qed.

Lemma quiet_error (l : string) : quiet (error l).
Proof. reflexivity. Qed.

Lemma quiet_bind {A B : Type} (m : M A) (f : A -> M B) :
  quiet m -> (forall a, quiet (f a)) -> quiet (bind m f).
Proof.
  unfold quiet. intros Hm Hf. rewrite trace_bind, calls_app, Hm.
  destruct (result m); [apply Hf | reflexivity].
Qed.

Lemma quiet_getitem (v : value) (k : string) : quiet (getitem v k).
Proof. destruct v; try reflexivity. cbn. destruct (lookup k d); reflexivity. Qed.

Lemma quiet_config (G : globals) (k : string) : quiet (config G k).
Proof. apply quiet_getitem. Qed.

Lemma quiet_get_method (v : value) (k : string) (d : value) :
  quiet (get_method v k d).
Proof.
  destruct v; try reflexivity. cbn. destruct (lookup k d0); reflexivity.
Qed.

Lemma quiet_py_iter (v : value) : quiet (py_iter v).
Proof. destruct v; reflexivity. Qed.

Lemma quiet_str_receiver (v : value) : quiet (str_receiver v).
Proof. destruct v; reflexivity. Qed.

Lemma quiet_str_argument (v : value) : quiet (str_argument v).
Proof. destruct v; reflexivity. Qed.

Lemma quiet_json_load_open (w : world) (p : value) : quiet (json_load_open w p).
Proof. unfold json_load_open. destruct (files w p); reflexivity. Qed.

Lemma quiet_requests_send (w : world) (r : request) : quiet (requests_send w r).
Proof. unfold requests_send. destruct (server w r); reflexivity. Qed.

Lemma quiet_raise_for_status (r : response) : quiet (raise_for_status r).
Proof.
  unfold raise_for_status.
  destruct ((400 <=? status_code r)%Z && (status_code r <? 600)%Z); reflexivity.
Qed.

Lemma quiet_response_json (r : response) : quiet (response_json r).
Proof. unfold response_json. destruct (json_body r); reflexivity. Qed.

Lemma quiet_environ_getitem (w : world) (k : string) :
  quiet (environ_getitem w k).
Proof. unfold environ_getitem. destruct (lookup k (environ w)); reflexivity. Qed.

Create HintDb quiet.
#[local] Hint Resolve quiet_ret quiet_raise quiet_sys_exit quiet_print
  quiet_error quiet_getitem quiet_config quiet_get_method quiet_py_iter
  quiet_str_receiver quiet_str_argument quiet_json_load_open
  quiet_requests_send quiet_raise_for_status quiet_response_json
  quiet_environ_getitem : quiet.

(** Decompose a run built from binds, conditionals and matches into its
    primitive steps. *)
Ltac quiet_steps :=
  repeat first
    [ solve [auto with quiet]
    | apply quiet_bind; [| intros ?]
    | match goal with
      | |- quiet (if ?b then _ else _) => destruct b
      | |- quiet (match ?x with _ => _ end) => destruct x
      | |- quiet (let _ := _ in _) => cbv zeta
      end ].

Lemma quiet_find_environment (e : string) (envs : list value) :
  quiet (find_environment e envs).
Proof.
  induction envs as [| r envs IH]; cbn [find_environment]; quiet_steps.
Qed.

Lemma quiet_status_line (s : value) : quiet (status_line s).
Proof. unfold status_line. quiet_steps. Qed.

Lemma quiet_mapM_status_line (l : list value) : quiet (mapM status_line l).
Proof.
  induction l as [| s l IH]; cbn [mapM]; [apply quiet_ret |].
  apply quiet_bind; [apply quiet_status_line | intros y].
  apply quiet_bind; [exact IH | intros ys]. apply quiet_ret.
Qed.

#[local] Hint Resolve quiet_find_environment quiet_mapM_status_line : quiet.

(** A function that announces itself and then only runs primitives. *)
Lemma calls_call {A : Type} (f : string) (k : M A) :
  quiet k -> calls (trace (call f ;; k)) = [f].
Proof.
  intros Hk. unfold call. rewrite bind_emit. unfold trace. cbn [fst calls].
  f_equal. exact Hk.
Qed.

Lemma calls_validate_event (event : value) :
  calls (trace (validate_event event)) = ["validate_event"].
Proof. unfold validate_event. apply calls_call. quiet_steps. Qed.

Lemma calls_load_pr (G : globals) (w : world) (u : value) :
  calls (trace (load_pr G w u)) = ["load_pr"].
Proof.
  unfold load_pr, requests_get. apply calls_call. quiet_steps.
Qed.

Lemma calls_validate_pr (G : globals) (pr : value) :
  calls (trace (validate_pr G pr)) = ["validate_pr"].
Proof. unfold validate_pr. apply calls_call. quiet_steps. Qed.

Lemma calls_parse_message (G : globals) (comment : value) :
  calls (trace (parse_message G comment)) = ["parse_message"].
Proof. unfold parse_message. apply calls_call. quiet_steps. Qed.

Lemma calls_get_environment (G : globals) (w : world) (e : string) :
  calls (trace (get_environment G w e)) = ["get_environment"].
Proof. unfold get_environment. apply calls_call. quiet_steps. Qed.

Lemma calls_check_commit (G : globals) (w : world) (head_repo sha : value) :
  calls (trace (check_commit G w head_repo sha)) = ["check_commit"].
Proof.
  unfold check_commit, requests_get. apply calls_call. quiet_steps.
Qed.

Lemma calls_set_deployment_outputs (r : response) :
  calls (trace (set_deployment_outputs r)) = ["set_deployment_outputs"].
Proof. unfold set_deployment_outputs. apply calls_call. quiet_steps. Qed.

Lemma calls_react_to_original_comment (G : globals) (w : world) (event : value) :
  calls (trace (react_to_original_comment G w event))
  = ["react_to_original_comment"].
Proof.
  unfold react_to_original_comment, requests_post. apply calls_call.
  quiet_steps.
Qed.

Lemma calls_add_comment (G : globals) (w : world) (u : value) (msg : string)
    (is_error : bool) :
  calls (trace (add_comment G w u msg is_error)) = ["add_comment"].
Proof.
  unfold add_comment, requests_post. apply calls_call. quiet_steps.
Qed.

Lemma seg_empty (a : nat) : seg a a = [].
Proof.
  unfold seg. apply skipn_all2. rewrite length_firstn. lia.
Qed.

Lemma seg_app (a b c : nat) :
  a <= b -> b <= c -> c <= 10 -> (seg a b ++ seg b c)%list = seg a c.
Proof.
  intros Hab Hbc Hc. unfold seg.
  assert (E : firstn c pipeline
              = (firstn b pipeline ++ skipn b (firstn c pipeline))%list).
  { rewrite <- (firstn_skipn b (firstn c pipeline)) at 1.
    rewrite firstn_firstn. now replace (Nat.min b c) with b by lia. }
  rewrite E at 2. rewrite skipn_app, length_firstn.
  change (List.length pipeline) with 10.
  replace (a - Nat.min b 10) with 0 by lia. reflexivity.
Qed.

Lemma clean_calls {A : Type} (a b : nat) (m : M A) :
  a <= b -> calls (trace m) = seg a b -> clean a b m.
Proof.
  intros Hab E. unfold clean. destruct (result m); [exact E |].
  exists b. split; [lia | exact E].
Qed.

Lemma clean_quiet {A : Type} (a : nat) (m : M A) : quiet m -> clean a a m.
Proof. intros Hq. apply clean_calls; [lia |]. rewrite seg_empty. exact Hq. Qed.

Lemma clean_bind {A B : Type} (a b c : nat) (m : M A) (f : A -> M B) :
  a <= b -> b <= c -> c <= 10 ->
  clean a b m -> (forall x, clean b c (f x)) -> clean a c (bind m f).
Proof.
  intros Hab Hbc Hc Hm Hf. unfold clean in *.
  rewrite result_bind, trace_bind, calls_app.
  destruct (result m) as [x | e].
  - specialize (Hf x). rewrite Hm. destruct (result (f x)).
    + rewrite Hf. now apply seg_app.
    + destruct Hf as (k & Hk & ->). exists k. split; [lia |].
      apply seg_app; lia.
  - destruct Hm as (k & Hk & ->). exists k. split; [lia |].
    apply app_nil_r.
Qed.

Lemma clean_bind_quiet {A B : Type} (a c : nat) (m : M A) (f : A -> M B) :
  a <= c -> c <= 10 ->
  quiet m -> (forall x, clean a c (f x)) -> clean a c (bind m f).
Proof.
  intros Hac Hc Hq Hf. apply (clean_bind a a c); auto. now apply clean_quiet.
Qed.

Lemma stage_clean {A : Type} (a b : nat) (m : M A) : clean a b m -> stage a b m.
Proof.
  unfold clean, stage. destruct (result m); [auto |].
  intros (k & Hk & E). exists k. auto.
Qed.

Lemma stage_bind {A B : Type} (a b c : nat) (m : M A) (f : A -> M B) :
  a <= b -> b <= c -> c <= 10 ->
  stage a b m -> (forall x, stage b c (f x)) -> stage a c (bind m f).
Proof.
  intros Hab Hbc Hc Hm Hf. unfold stage in *.
  rewrite result_bind, trace_bind, calls_app.
  destruct (result m) as [x | e].
  - specialize (Hf x). rewrite Hm. destruct (result (f x)).
    + rewrite Hf. now apply seg_app.
    + destruct Hf as (k & Hk & [-> | ->]); exists k; (split; [lia |]).
      * left. apply seg_app; lia.
      * right. rewrite List.app_assoc. f_equal. apply seg_app; lia.
  - destruct Hm as (k & Hk & [-> | ->]); exists k; (split; [lia |]);
      rewrite app_nil_r; auto.
Qed.

Lemma stage_bind_quiet {A B : Type} (a c : nat) (m : M A) (f : A -> M B) :
  a <= c -> c <= 10 ->
  quiet m -> (forall x, stage a c (f x)) -> stage a c (bind m f).
Proof.
  intros Hac Hc Hq Hf. apply (stage_bind a a c); auto.
  now apply stage_clean, clean_quiet.
Qed.

Lemma stage_try_except_else {A B : Type} (a b c : nat) (body : M A)
    (handler : string -> M B) (orelse : A -> M B) :
  a <= b -> b <= c -> c <= 10 ->
  clean a b body -> failure_handler handler ->
  (forall x, stage b c (orelse x)) ->
  stage a c (try_except_else body handler orelse).
Proof.
  intros Hab Hbc Hc Hbody Hh Helse.
  destruct body as [t [x | e]]; unfold clean in Hbody; cbn in Hbody.
  - specialize (Helse x). unfold stage in *. cbn [try_except_else].
    destruct (orelse x) as [t' o]. cbn in *. rewrite calls_app, Hbody.
    destruct o.
    + rewrite Helse. now apply seg_app.
    + destruct Helse as (k & Hk & [-> | ->]); exists k; (split; [lia |]).
      * left. apply seg_app; lia.
      * right. rewrite List.app_assoc. f_equal. apply seg_app; lia.
  - destruct Hbody as (k & Hk & E). unfold stage.
    destruct e; cbn [try_except_else];
      try (cbn; exists k; split; [lia | left; exact E]).
    destruct (Hh msg) as ((e & He) & Hcalls).
    destruct (handler msg) as [t' o]. cbn in *. subst o.
    exists k. split; [lia |]. rewrite calls_app, E.
    destruct Hcalls as [-> | ->]; [left; apply app_nil_r | right; reflexivity].
Qed.

Lemma quiet_trigger_status (resp : response) :
  quiet (match raise_for_status resp with
         | (t, Raise _) =>
             (t, Raise (DeploymentFailure
                          ("Failed to trigger deployment (" ++ text resp ++ ")")))
         | (t, Ret _) => (t, Ret tt)
         end).
Proof.
  unfold raise_for_status.
  destruct ((400 <=? status_code resp)%Z && (status_code resp <? 600)%Z);
    reflexivity.
Qed.

Lemma quiet_deployment_params (G : globals) (ref environment : value)
    (description : string) :
  quiet (deployment_params G ref environment description).
Proof. unfold deployment_params. quiet_steps. Qed.

Lemma clean_trigger_deployment (G : globals) (w : world)
    (head_repo ref environment : value) (description : string) :
  clean 6 8 (trigger_deployment G w head_repo ref environment description).
Proof.
  unfold trigger_deployment, requests_post.
  apply (clean_bind 6 7 8); try lia.
  { apply clean_calls; [lia | reflexivity]. }
  intros _. apply clean_bind_quiet; try lia.
  { apply quiet_deployment_params. }
  intros params. apply clean_bind_quiet; try lia.
  { apply quiet_requests_send. }
  intros resp. apply clean_bind_quiet; try lia.
  { apply quiet_trigger_status. }
  intros _. apply clean_calls; [lia | apply calls_set_deployment_outputs].
Qed.

Lemma failure_handler_add_comment {B : Type} (G : globals) (w : world)
    (pr : value) (text_of : string -> string) :
  failure_handler
    (fun e =>
       comments_url <- getitem pr "comments_url" ;;
       add_comment G w comments_url (text_of e) true ;;
       @sys_exit B 1).
Proof.
  intros msg. rewrite !result_bind, !trace_bind, !calls_app.
  rewrite (quiet_getitem pr "comments_url").
  destruct (result (getitem pr "comments_url")) as [u | e].
  - rewrite result_bind, trace_bind, calls_app, calls_add_comment.
    destruct (result (add_comment G w u (text_of msg) true));
      (split; [eexists; reflexivity | right; reflexivity]).
  - split; [eexists; reflexivity | left; reflexivity].
Qed.

Lemma stage_main_deploy (G : globals) (w : world) (event pr : value) :
  stage 2 10 (main_deploy G w event pr).
Proof.
  unfold main_deploy.
  repeat (apply stage_bind_quiet;
          [lia | lia | solve [auto with quiet] | intros ?]).
  apply (stage_bind 2 4 10); try lia.
  - unfold try_except.
    apply (stage_try_except_else 2 4 4); try lia.
    + apply (clean_bind 2 3 4); try lia.
      { apply clean_calls; [lia | apply calls_validate_pr]. }
      intros _. apply clean_bind_quiet; try lia; [auto with quiet |].
      intros comment. apply clean_calls; [lia | apply calls_parse_message].
    + apply (failure_handler_add_comment G w pr
               (fun e => "Deployment failed: " ++ e)).
    + intros name. apply stage_clean, clean_quiet, quiet_ret.
  - intros environment_name.
    apply (stage_try_except_else 4 8 10); try lia.
    + apply (clean_bind 4 5 8); try lia.
      { apply clean_calls; [lia | apply calls_get_environment]. }
      intros environment. apply (clean_bind 5 6 8); try lia.
      { apply clean_calls; [lia | apply calls_check_commit]. }
      intros _. apply clean_trigger_deployment.
    + apply (failure_handler_add_comment G w pr
               (fun e => "Deployment to " ++ environment_name
                         ++ " failed: " ++ e)).
    + intros _. apply stage_clean.
      apply (clean_bind 8 9 10); try lia.
      { apply clean_calls; [lia | apply calls_react_to_original_comment]. }
      intros _.
      repeat (apply clean_bind_quiet;
              [lia | lia | solve [auto with quiet] | intros ?]).
      apply clean_calls; [lia | apply calls_add_comment].
Qed.

Lemma stage_main_pipeline (G : globals) (w : world) (event : value) :
  stage 0 10 (main_pipeline G w event).
Proof.
  unfold main_pipeline.
  apply (stage_bind 0 1 10); try lia.
  { apply stage_clean, clean_calls; [lia | apply calls_validate_event]. }
  intros _. apply stage_bind_quiet; try lia; [auto with quiet |].
  intros pr_url. apply (stage_bind 1 2 10); try lia.
  { apply stage_clean, clean_calls; [lia | apply calls_load_pr]. }
  intros pr. apply stage_main_deploy.
Qed.

Lemma stage_main (w : world) : stage 0 10 (main w).
Proof.
  unfold main. destruct (lookup "GITHUB_ACTION" (environ w)).
  - repeat (apply stage_bind_quiet;
            [lia | lia | solve [auto with quiet] | intros ?]).
    apply stage_main_pipeline.
  - exists 0. split; [lia | left; reflexivity].
Qed.

(** *** The order of the steps *)

(** Every shape the sequence of entered functions can take: an initial part
    of the pipeline, possibly followed by the failure comment. *)
Lemma stage_calls {A : Type} (m : M A) :
  stage 0 10 m ->
  exists k, k <= 10
    /\ (calls (trace m) = seg 0 k
        \/ calls (trace m) = (seg 0 k ++ ["add_comment"])%list).
Proof.
  unfold stage. destruct (result m).
  - intros E. exists 10. split; [lia | left; exact E].
  - intros (k & Hk & E). exists k. split; [lia | exact E].
Qed.

Lemma stage_property {A : Type} (P : list string -> bool) (m : M A) :
  forallb (fun k => P (seg 0 k) && P (seg 0 k ++ ["add_comment"])%list)
    (seq 0 11) = true ->
  stage 0 10 m -> P (calls (trace m)) = true.
Proof.
  intros HP Hm. destruct (stage_calls m Hm) as (k & Hk & E).
  rewrite forallb_forall in HP.
  assert (Hin : In k (seq 0 11)) by (apply in_seq; lia).
  specialize (HP k Hin). apply andb_prop in HP as [H1 H2].
  destruct E as [-> | ->]; assumption.
Qed.

(** The order in the text of [__main__].  Whatever the configuration, the
    event and the answers of the server, the steps of a run occur in the
    order: event validation, PR loading, PR validation, comment parsing,
    environment resolution, status check, deployment trigger, notification;
    the comment parser is never entered unless the PR validator was entered
    before it.  This holds from the validation of the event on, for any
    globals, and for the whole of [__main__]. *)
Lemma pipeline_steps_in_code_order (G : globals) (w : world) (event : value) :
  (in_order code_order (trace (main_pipeline G w event)) = true
   /\ entered_first "validate_pr" "parse_message"
        (calls (trace (main_pipeline G w event))) = true)
  /\ (in_order code_order (trace (main w)) = true
      /\ entered_first "validate_pr" "parse_message"
           (calls (trace (main w))) = true).
Proof.
  pose proof (stage_main_pipeline G w event) as Hp.
  pose proof (stage_main w) as Hm.
  repeat split.
  - exact (stage_property (fun cs => nondecreasing (ranks code_order cs)) _
             eq_refl Hp).
  - exact (stage_property (entered_first "validate_pr" "parse_message") _
             eq_refl Hp).
  - exact (stage_property (fun cs => nondecreasing (ranks code_order cs)) _
             eq_refl Hm).
  - exact (stage_property (entered_first "validate_pr" "parse_message") _
             eq_refl Hm).
Qed.

(** Were [CONFIG] to carry the [pr_url] entry that [__main__] never sets,
    the order of the specification would fail: on an open, mergeable pull
    request and the comment "deploy to staging" the run enters the PR
    validator before the comment parser. *)
Lemma spec_order_counterexample :
  calls (trace (main_pipeline globals_with_pr_url
                  (sample_world []
                     (github (sample_pr false false VNone "open" "mergeable")))
                  (sample_event "deploy to staging")))
  = pipeline
  /\ ~ claimed_order
         (trace (main_pipeline globals_with_pr_url
                   (sample_world []
                      (github (sample_pr false false VNone "open" "mergeable")))
                   (sample_event "deploy to staging"))).
Proof.
  split; [vm_compute; reflexivity |].
  intros [H _]. vm_compute in H. discriminate H.
Qed.

(** With the validator first, a comment that is no command at all still
    gets the failure comment when the pull request is not deployable. *)
Lemma invalid_pr_answers_any_comment :
  let run :=
    main_pipeline globals_with_pr_url
      (sample_world [] (github (sample_pr false true VNone "closed" "clean")))
      (sample_event "looks good to me") in
  calls (trace run)
  = ["validate_event"; "load_pr"; "validate_pr"; "add_comment"]
  /\ printed (trace run)
     = ["::error ::Deployment failed: Can't deploy a merged PR."]
  /\ result run = Raise (SystemExit 1).
Proof. vm_compute. repeat split; reflexivity. Qed.

(** ** Start-up *)

Lemma validate_event_returns (event : value) :
  result (validate_event event) = Ret tt ->
  validate_event event = ([Call "validate_event"], Ret tt).
Proof.
  unfold validate_event, call. rewrite bind_emit. unfold result. cbn [snd].
  destruct event; try discriminate. cbn [get_method].
  destruct (lookup "issue" d) as [issue |]; rewrite ?bind_ret;
    [| discriminate].
  destruct (truthy issue); cbn [negb]; [| discriminate].
  cbn [getitem]. destruct (lookup "action" d) as [action |];
    rewrite ?bind_ret; [| discriminate].
  destruct (eq_str action "created"); cbn [negb]; [| discriminate].
  destruct issue; try discriminate. cbn [get_method].
  destruct (lookup "pull_request" d0) as [pull |]; rewrite ?bind_ret;
    [| discriminate].
  destruct (truthy pull); cbn [negb]; [reflexivity | discriminate].
Qed.

(** Without [GITHUB_ACTION] the hint about the token is written and the
    run exits with status 1, whether or not the token is set. *)
Lemma main_without_action (w : world) :
  lookup "GITHUB_ACTION" (environ w) = None ->
  main w = ([Print ("::error ::" ++ token_hint)], Raise (SystemExit 1)).
Proof. intros E. unfold main. rewrite E. reflexivity. Qed.

(** C1, where the code departs from it.  The claim is that a missing
    [GITHUB_TOKEN] makes the run print the hint and exit with status 1
    whatever else the environment holds.  The guard of [__main__] tests
    [GITHUB_ACTION] instead: when that variable is set and the token is not,
    the run ends in an uncaught [KeyError] on the token, with status 1 but
    without any line written, the hint included. *)
Theorem main_without_token (w : world) (action : string) :
  lookup "GITHUB_ACTION" (environ w) = Some action ->
  lookup "GITHUB_TOKEN" (environ w) = None ->
  main w = ([], Raise (KeyError "GITHUB_TOKEN"))
  /\ printed (trace (main w)) = []
  /\ exit_status (result (main w)) = 1%Z.
Proof.
  intros Ha Ht.
  assert (E : main w = ([], Raise (KeyError "GITHUB_TOKEN"))).
  { unfold main, environ_getitem. rewrite Ha, Ht. reflexivity. }
  rewrite E. repeat split; reflexivity.
Qed.

Lemma main_without_token_witness :
  main (sample_world [("GITHUB_ACTION", "run");
                      ("GITHUB_EVENT_PATH", "event.json")] no_server)
  = ([], Raise (KeyError "GITHUB_TOKEN")).
Proof.
  exact (proj1 (main_without_token
                  (sample_world [("GITHUB_ACTION", "run");
                                 ("GITHUB_EVENT_PATH", "event.json")] no_server)
                  "run" eq_refl eq_refl)).
Defined.

(** C2, where the code departs from it.  The claim is that a comment not
    starting with the trigger phrase, on a valid comment-created event of a
    pull request, ends the run with status 0 and without deployment or
    comment requests.  The run never reaches the parser: whenever the event
    passes [validate_event], [__main__] looks up [CONFIG["pr_url"]], a key
    its dictionary does not have, and ends in an uncaught [KeyError] with
    status 1, before any request is sent. *)
Theorem main_stops_at_pr_url (w : world) (action token path : string)
    (event : value) :
  lookup "GITHUB_ACTION" (environ w) = Some action ->
  lookup "GITHUB_TOKEN" (environ w) = Some token ->
  lookup "GITHUB_EVENT_PATH" (environ w) = Some path ->
  files w (VStr path) = Parsed event ->
  result (validate_event event) = Ret tt ->
  main w
  = ([Open (VStr path); Call "validate_event"], Raise (KeyError "pr_url"))
  /\ requests (trace (main w)) = []
  /\ exit_status (result (main w)) = 1%Z.
Proof.
  intros Ha Ht Hp Hf Hv.
  assert (E : main w
              = ([Open (VStr path); Call "validate_event"],
                 Raise (KeyError "pr_url"))).
  { unfold main, environ_getitem. rewrite Ha, Ht, Hp, !bind_ret. cbv zeta.
    rewrite (json_load_open_parsed _ _ _ Hf), bind_step.
    unfold main_pipeline. rewrite (validate_event_returns _ Hv), bind_step.
    unfold main_globals. rewrite config_pr_url. reflexivity. }
  rewrite E. repeat split; reflexivity.
Qed.

Lemma main_stops_at_pr_url_witness :
  main (runner (sample_event "looks good to me")
          (github (sample_pr false false VNone "open" "mergeable")))
  = ([Open (VStr "event.json"); Call "validate_event"],
     Raise (KeyError "pr_url")).
Proof.
  exact (proj1 (main_stops_at_pr_url
                  (runner (sample_event "looks good to me")
                     (github (sample_pr false false VNone "open" "mergeable")))
                  "run" "secret" "event.json" (sample_event "looks good to me")
                  eq_refl eq_refl eq_refl eq_refl eq_refl)).
Defined.

(** * Further properties of the code *)

(** ** Dictionaries and headers *)

Lemma lookup_dict_set {A : Type} (k k' : string) (v : A) (d : dict A) :
  lookup k' (dict_set k v d) = if String.eqb k' k then Some v else lookup k' d.
Proof.
  induction d as [| [k0 v0] d IH]; cbn [dict_set lookup]; [reflexivity |].
  destruct (String.eqb_spec k k0) as [-> | Hk]; cbn [lookup].
  - destruct (String.eqb k' k0); reflexivity.
  - rewrite IH. destruct (String.eqb_spec k' k0) as [-> | Hk'];
      [| reflexivity].
    destruct (String.eqb_spec k0 k) as [E | _]; [| reflexivity].
    symmetry in E. contradiction.
Qed.

(** X1. In [{**BASE_GH_REQUEST_HEADERS, "Accept": a}] the [Accept] header is
    [a] whatever the base headers hold, an [Accept] of their own included,
    and every other header is the base header. *)
Theorem accept_header_overrides (H : dict string) (a k : string) :
  lookup k (dict_update H [("Accept", a)])
  = if String.eqb k "Accept" then Some a else lookup k H.
Proof. unfold dict_update. cbn [fold_left fst snd]. apply lookup_dict_set. Qed.

(** ** The event validator *)

(** X2. [validate_event] returns exactly on an object whose [issue] is an
    object with a truthy [pull_request] and whose [action] is "created";
    it then has written nothing. *)
Theorem validate_event_accepts (event : value) :
  result (validate_event event) = Ret tt
  <-> exists d issue action pull,
        event = VDict d
        /\ lookup "issue" d = Some (VDict issue)
        /\ lookup "action" d = Some action
        /\ eq_str action "created" = true
        /\ lookup "pull_request" issue = Some pull
        /\ truthy pull = true.
Proof.
  split.
  - unfold validate_event, call. rewrite bind_emit. unfold result. cbn [snd].
    destruct event; try discriminate. cbn [get_method].
    destruct (lookup "issue" d) as [issue |] eqn:Hi; rewrite ?bind_ret;
      [| discriminate].
    destruct (truthy issue); cbn [negb]; [| discriminate].
    cbn [getitem]. destruct (lookup "action" d) as [action |] eqn:Ha;
      rewrite ?bind_ret; [| discriminate].
    destruct (eq_str action "created") eqn:Hc; cbn [negb]; [| discriminate].
    destruct issue; try discriminate. cbn [get_method].
    destruct (lookup "pull_request" d0) as [pull |] eqn:Hp; rewrite ?bind_ret;
      [| discriminate].
    destruct (truthy pull) eqn:Ht; cbn [negb]; [| discriminate].
    intros _. exists d, d0, action, pull. repeat split; assumption.
  - intros (d & issue & action & pull & -> & Hi & Ha & Hc & Hp & Ht).
    unfold validate_event, call. rewrite bind_emit. unfold result. cbn [snd].
    cbn [get_method]. rewrite Hi, !bind_ret.
    assert (Hne : truthy (VDict issue) = true).
    { destruct issue; [discriminate Hp | reflexivity]. }
    rewrite Hne. cbn [negb getitem]. rewrite Ha, bind_ret, Hc.
    cbn [negb get_method]. rewrite Hp, bind_ret, Ht. reflexivity.
Qed.

(** X3. The three ways [validate_event] ends a run.  An event whose [issue]
    is missing or falsy is an error (status 1), even when it has no
    [action] at all; an action other than "created" and an issue that is
    not a pull request are skipped with status 0.  Each writes one line. *)
Theorem validate_event_exits (d : dict value) :
  ((lookup "issue" d = None
    \/ exists v, lookup "issue" d = Some v /\ truthy v = false) ->
   validate_event (VDict d)
   = ([Call "validate_event";
       Print "::error ::This event doesn't seem to be an issue comment."],
      Raise (SystemExit 1)))
  /\ (forall issue action,
        lookup "issue" d = Some issue -> truthy issue = true ->
        lookup "action" d = Some action -> eq_str action "created" = false ->
        validate_event (VDict d)
        = ([Call "validate_event";
            Print "This is not a comment creation, ignoring."],
           Raise (SystemExit 0)))
  /\ (forall issue action,
        lookup "issue" d = Some (VDict issue) -> issue <> [] ->
        lookup "action" d = Some action -> eq_str action "created" = true ->
        (lookup "pull_request" issue = None
         \/ exists v, lookup "pull_request" issue = Some v /\ truthy v = false) ->
        validate_event (VDict d)
        = ([Call "validate_event";
            Print "This is not a pull request comment, ignoring."],
           Raise (SystemExit 0))).
Proof.
  unfold validate_event, call. rewrite bind_emit. cbn [get_method].
  repeat split.
  - intros [E | (v & E & Hv)]; rewrite E, bind_ret; cbn [truthy negb];
      [| rewrite Hv]; reflexivity.
  - intros issue action Hi Ht Ha Hc. rewrite Hi, bind_ret, Ht. cbn [negb getitem].
    rewrite Ha, bind_ret, Hc. reflexivity.
  - intros issue action Hi Hne Ha Hc Hp. rewrite Hi, !bind_ret.
    assert (Ht : truthy (VDict issue) = true).
    { destruct issue; [contradiction | reflexivity]. }
    rewrite Ht. cbn [negb getitem]. rewrite Ha, bind_ret, Hc.
    cbn [negb get_method].
    destruct Hp as [E | (v & E & Hv)]; rewrite E, bind_ret; cbn [truthy negb];
      [| rewrite Hv]; reflexivity.
Qed.

Lemma validate_event_exits_witness :
  validate_event (VDict [("action", VStr "created")])
  = ([Call "validate_event";
      Print "::error ::This event doesn't seem to be an issue comment."],
     Raise (SystemExit 1))
  /\ validate_event
       (VDict [("action", VStr "edited"); ("issue", VDict [("number", VInt 7)])])
     = ([Call "validate_event"; Print "This is not a comment creation, ignoring."],
        Raise (SystemExit 0)).
Proof.
  split.
  - exact (proj1 (validate_event_exits [("action", VStr "created")])
             (or_introl eq_refl)).
  - exact (proj1 (proj2 (validate_event_exits
                           [("action", VStr "edited");
                            ("issue", VDict [("number", VInt 7)])]))
             (VDict [("number", VInt 7)]) (VStr "edited")
             eq_refl eq_refl eq_refl eq_refl).
Defined.

(** ** The notifier *)

Lemma add_comment_run (trigger : string)
    (env_file : option string) (allow ignore comment : bool) (H : dict string)
    (w : world) (u : value) (msg : string) (is_error : bool) :
  let G := mkGlobals (make_config trigger env_file allow ignore comment) H in
  let req := mkRequest POST u H (Some (VDict [("body", VStr msg)])) in
  add_comment G w u msg is_error
  = if comment then
      ([Call "add_comment"; Print (log_line msg is_error); Send req],
       checked (server w req))
    else ([Call "add_comment"; Print (log_line msg is_error)], Ret tt).
Proof.
  intros G req. unfold add_comment, call. rewrite bind_emit.
  assert (L : (if is_error then error msg else print msg)
              = ([Print (log_line msg is_error)], Ret tt)).
  { destruct is_error; reflexivity. }
  rewrite L, bind_step. unfold G. rewrite config_comment, bind_ret.
  cbn [truthy]. destruct comment; [| reflexivity].
  unfold requests_post, requests_send. cbn [BASE_GH_REQUEST_HEADERS].
  fold req. rewrite bind_emit. unfold checked.
  destruct (server w req) as [| resp]; [reflexivity |].
  cbn [ret fst snd]. rewrite bind_step. unfold raise_for_status, error_status.
  destruct ((400 <=? status_code resp)%Z && (status_code resp <? 600)%Z);
    reflexivity.
Qed.

(** X4. [add_comment] always writes its line to the log, as an error line
    when asked to, before anything else.  With comments disabled it sends
    nothing and returns.  With comments enabled it sends one POST of
    [{body: msg}] with the base headers to the given URL, and fails with an
    uncaught error when no response comes or the status is 4xx or 5xx. *)
Theorem add_comment_logs_then_posts (trigger : string)
    (env_file : option string) (allow ignore comment : bool) (H : dict string)
    (w : world) (u : value) (msg : string) (is_error : bool) :
  let G := mkGlobals (make_config trigger env_file allow ignore comment) H in
  let req := mkRequest POST u H (Some (VDict [("body", VStr msg)])) in
  add_comment G w u msg is_error
  = if comment then
      ([Call "add_comment"; Print (log_line msg is_error); Send req],
       checked (server w req))
    else ([Call "add_comment"; Print (log_line msg is_error)], Ret tt).
Proof.
  exact (add_comment_run trigger env_file allow ignore comment H w u msg
           is_error).
Qed.

(** ** The pull-request loader *)

(** X5. [load_pr] never looks at its argument: it requests the URL under
    [CONFIG["pr_url"]] with the two preview media types, and returns the
    JSON body of a response whose status is not 4xx or 5xx.  When [CONFIG]
    has no [pr_url], as in the dictionary [__main__] builds, it raises
    [KeyError] before any request is sent. *)
Theorem load_pr_reads_config_url (G : globals) (w : world) (u : value) :
  (forall pr_url,
     lookup "pr_url" (CONFIG G) = Some pr_url ->
     let req :=
       mkRequest GET pr_url
         (dict_update (BASE_GH_REQUEST_HEADERS G) [("Accept", pr_accept)])
         None in
     load_pr G w u
     = ([Call "load_pr"; Send req], checked_json (server w req)))
  /\ (lookup "pr_url" (CONFIG G) = None ->
      load_pr G w u = ([Call "load_pr"], Raise (KeyError "pr_url"))).
Proof.
  split.
  - intros pr_url Hu req. unfold load_pr, call, config. rewrite bind_emit.
    rewrite (getitem_dict _ _ _ Hu), bind_ret.
    unfold requests_get, requests_send. fold pr_accept. fold req.
    rewrite bind_emit. unfold checked_json.
    destruct (server w req) as [| resp]; [reflexivity |].
    cbn [ret fst snd]. rewrite bind_step.
    unfold raise_for_status, error_status, response_json.
    destruct ((400 <=? status_code resp)%Z && (status_code resp <? 600)%Z);
      [reflexivity |].
    rewrite bind_ret. destruct (json_body resp); reflexivity.
  - intros Hu. unfold load_pr, call, config. rewrite bind_emit.
    rewrite (getitem_missing _ _ Hu). reflexivity.
Qed.

Lemma load_pr_reads_config_url_witness :
  load_pr globals_with_pr_url
    (sample_world [] (github (sample_pr false false VNone "open" "clean")))
    (VStr "https://example.org/ignored")
  = ([ Call "load_pr";
       Send (mkRequest GET (VStr pr_api_url)
               [ ("Authorization", "Bearer secret");
                 ("Content-Type", "application/json");
                 ("Accept", pr_accept) ] None) ],
     Ret (sample_pr false false VNone "open" "clean"))
  /\ load_pr (mkGlobals (make_config "deploy to" None false false true) [])
       (sample_world [] no_server) (VStr pr_api_url)
     = ([Call "load_pr"], Raise (KeyError "pr_url")).
Proof.
  split.
  - exact (proj1 (load_pr_reads_config_url globals_with_pr_url
                    (sample_world []
                       (github (sample_pr false false VNone "open" "clean")))
                    (VStr "https://example.org/ignored"))
             (VStr pr_api_url) eq_refl).
  - exact (proj2 (load_pr_reads_config_url
                    (mkGlobals (make_config "deploy to" None false false true) [])
                    (sample_world [] no_server) (VStr pr_api_url))
             eq_refl).
Defined.

(** ** The outputs of a deployment *)

Lemma set_deployment_outputs_run (resp : response) (d : dict value)
    (i u : value) :
  json_body resp = Some (VDict d) ->
  lookup "id" d = Some i -> lookup "url" d = Some u ->
  set_deployment_outputs resp
  = ([ Call "set_deployment_outputs";
       Print ("::set-output name=deployment_id::" ++ py_str i);
       Print ("::set-output name=deployment_api_url::" ++ py_str u) ],
     Ret tt).
Proof.
  intros Hj Hi Hu. unfold set_deployment_outputs, response_json, call.
  rewrite bind_emit, Hj, bind_ret.
  rewrite (getitem_dict _ _ _ Hi), bind_ret.
  rewrite (getitem_dict _ _ _ Hu), bind_ret. reflexivity.
Qed.

(** X6. [set_deployment_outputs] writes both output lines or none.  When
    the body of the response is a JSON object with an [id] and a [url] it
    writes the two lines, made from these two values, and returns.  In
    every other case it raises having written nothing: [JSONDecodeError]
    for a body that is not JSON, [TypeError] for JSON that is not an
    object, [KeyError] for a missing [id] (checked first) or [url].  It
    sends no request. *)
Theorem set_deployment_outputs_both_or_none (resp : response) :
  (forall d i u,
     json_body resp = Some (VDict d) ->
     lookup "id" d = Some i -> lookup "url" d = Some u ->
     set_deployment_outputs resp
     = ([ Call "set_deployment_outputs";
          Print ("::set-output name=deployment_id::" ++ py_str i);
          Print ("::set-output name=deployment_api_url::" ++ py_str u) ],
        Ret tt))
  /\ (json_body resp = None ->
      set_deployment_outputs resp
      = ([Call "set_deployment_outputs"], Raise JSONDecodeError))
  /\ (forall v, json_body resp = Some v -> is_dict v = false ->
      set_deployment_outputs resp
      = ([Call "set_deployment_outputs"], Raise TypeError))
  /\ (forall d, json_body resp = Some (VDict d) -> lookup "id" d = None ->
      set_deployment_outputs resp
      = ([Call "set_deployment_outputs"], Raise (KeyError "id")))
  /\ (forall d i, json_body resp = Some (VDict d) ->
      lookup "id" d = Some i -> lookup "url" d = None ->
      set_deployment_outputs resp
      = ([Call "set_deployment_outputs"], Raise (KeyError "url")))
  /\ requests (trace (set_deployment_outputs resp)) = [].
Proof.
  split; [| split; [| split; [| split; [| split]]]].
  - intros d i u. apply set_deployment_outputs_run.
  - intros Hj. unfold set_deployment_outputs, response_json, call.
    rewrite bind_emit, Hj. reflexivity.
  - intros v Hj Hv. unfold set_deployment_outputs, response_json, call.
    rewrite bind_emit, Hj, bind_ret.
    destruct v; try reflexivity. discriminate Hv.
  - intros d Hj Hi. unfold set_deployment_outputs, response_json, call.
    rewrite bind_emit, Hj, bind_ret, (getitem_missing _ _ Hi). reflexivity.
  - intros d i Hj Hi Hu. unfold set_deployment_outputs, response_json, call.
    rewrite bind_emit, Hj, bind_ret, (getitem_dict _ _ _ Hi), bind_ret.
    rewrite (getitem_missing _ _ Hu). reflexivity.
  - unfold set_deployment_outputs, response_json, call. rewrite bind_emit.
    destruct (json_body resp) as [[| b | z | s0 | l | d] |]; try reflexivity.
    rewrite bind_ret. cbn [getitem].
    destruct (lookup "id" d); [| reflexivity]. rewrite bind_ret.
    destruct (lookup "url" d); reflexivity.
Qed.

Lemma set_deployment_outputs_both_or_none_witness :
  set_deployment_outputs
    (mkResponse 201 ""
       (Some (VDict [ ("url",
                       VStr "https://api.github.com/repos/o/r/deployments/42");
                      ("id", VInt 42) ])))
  = ([ Call "set_deployment_outputs";
       Print "::set-output name=deployment_id::42";
       Print "::set-output name=deployment_api_url::https://api.github.com/repos/o/r/deployments/42" ],
     Ret tt)
  /\ set_deployment_outputs
       (mkResponse 201 "" (Some (VDict [("id", VInt 42)])))
     = ([Call "set_deployment_outputs"], Raise (KeyError "url")).
Proof.
  split.
  - exact (proj1 (set_deployment_outputs_both_or_none
                    (mkResponse 201 ""
                       (Some (VDict [ ("url",
                                       VStr "https://api.github.com/repos/o/r/deployments/42");
                                      ("id", VInt 42) ]))))
             _ _ _ eq_refl eq_refl eq_refl).
  - exact (proj1 (proj2 (proj2 (proj2 (proj2
                    (set_deployment_outputs_both_or_none
                       (mkResponse 201 "" (Some (VDict [("id", VInt 42)]))))))))
             _ _ eq_refl eq_refl eq_refl).
Defined.

(** ** The deployment trigger, continued *)

Lemma trigger_deployment_run (trigger : string)
    (env_file : option string) (allow ignore comment : bool) (H : dict string)
    (w : world) (head_repo ref : value) (environment : dict value)
    (name : value) (description : string) :
  lookup "name" environment = Some name ->
  let G := mkGlobals (make_config trigger env_file allow ignore comment) H in
  let req :=
    mkRequest POST (VStr (deployments_url head_repo)) (deployment_headers H)
      (Some (VDict (params_of ignore ref environment description name))) in
  trigger_deployment G w head_repo ref (VDict environment) description
  = match server w req with
    | NoResponse =>
        ([Call "trigger_deployment"; Send req], Raise RequestException)
    | Got resp =>
        if error_status resp then
          ([Call "trigger_deployment"; Send req],
           Raise (DeploymentFailure
                    ("Failed to trigger deployment (" ++ text resp ++ ")")))
        else
          (Call "trigger_deployment" :: Send req
             :: trace (set_deployment_outputs resp),
           result (set_deployment_outputs resp))
    end.
Proof.
  intros Hn G req. unfold trigger_deployment, call. rewrite bind_emit.
  unfold G. rewrite (deployment_params_run _ _ _ _ _ _ _ _ _ _ Hn), bind_ret.
  unfold requests_post, requests_send. cbn [BASE_GH_REQUEST_HEADERS].
  fold (deployment_headers H). subst req. unfold params_of.
  set (req := mkRequest POST _ _ _).
  rewrite bind_emit.
  destruct (server w req) as [| resp]; [reflexivity |].
  cbn [ret fst snd]. rewrite bind_step. unfold raise_for_status, error_status.
  destruct ((400 <=? status_code resp)%Z && (status_code resp <? 600)%Z);
    cbn [ret raise]; [reflexivity |].
  rewrite bind_step. reflexivity.
Qed.

(** X7. What [trigger_deployment] does with the server's answer, for an
    environment record that has a name.  One POST is sent.  No response is
    an uncaught [RequestException], not a [DeploymentFailure]: the call to
    [requests.post] is outside the [try].  A 4xx or 5xx status is a
    [DeploymentFailure] quoting the response text, and the outputs are not
    touched.  Any other status passes the response to
    [set_deployment_outputs]. *)
Theorem trigger_deployment_outcome (trigger : string)
    (env_file : option string) (allow ignore comment : bool) (H : dict string)
    (w : world) (head_repo ref : value) (environment : dict value)
    (name : value) (description : string) :
  lookup "name" environment = Some name ->
  let G := mkGlobals (make_config trigger env_file allow ignore comment) H in
  let req :=
    mkRequest POST (VStr (deployments_url head_repo)) (deployment_headers H)
      (Some (VDict (params_of ignore ref environment description name))) in
  trigger_deployment G w head_repo ref (VDict environment) description
  = match server w req with
    | NoResponse =>
        ([Call "trigger_deployment"; Send req], Raise RequestException)
    | Got resp =>
        if error_status resp then
          ([Call "trigger_deployment"; Send req],
           Raise (DeploymentFailure
                    ("Failed to trigger deployment (" ++ text resp ++ ")")))
        else
          (Call "trigger_deployment" :: Send req
             :: trace (set_deployment_outputs resp),
           result (set_deployment_outputs resp))
    end.
Proof.
  exact (trigger_deployment_run trigger env_file allow ignore comment H w
           head_repo ref environment name description).
Qed.

Lemma trigger_deployment_outcome_witness :
  result
    (trigger_deployment
       (mkGlobals (make_config "deploy to" None false false true) [])
       (sample_world [] refusing_server) (VStr "o/r") (VStr "abc123")
       (VDict [("name", VStr "staging")]) "Automatic deployment from #7")
  = Raise (DeploymentFailure
             "Failed to trigger deployment (No ref found for: abc123)").
Proof.
  exact (f_equal snd
           (trigger_deployment_outcome "deploy to" None false false true []
              (sample_world [] refusing_server) (VStr "o/r") (VStr "abc123")
              [("name", VStr "staging")] (VStr "staging")
              "Automatic deployment from #7" eq_refl)).
Defined.

(** X8. The parameters of a deployment, for an environment record with a
    name: the five keys in the order of the source, then
    [required_contexts] when status checks are ignored; the description as
    given; [transient_environment] and [production_environment] taken from
    the record, with [False] and [True] for a record that lacks them.  A
    record without a name raises [KeyError] and nothing is sent. *)
Theorem deployment_params_defaults (trigger : string)
    (env_file : option string) (allow ignore comment : bool) (H : dict string)
    (w : world) (head_repo ref : value) (environment : dict value)
    (description : string) :
  let G := mkGlobals (make_config trigger env_file allow ignore comment) H in
  (forall name, lookup "name" environment = Some name ->
     exists params,
       deployment_params G ref (VDict environment) description = ret params
       /\ map fst params
          = ([ "ref"; "environment"; "description"; "transient_environment";
               "production_environment" ]
             ++ if ignore then ["required_contexts"] else [])%list
       /\ lookup "description" params = Some (VStr description)
       /\ lookup "transient_environment" params
          = Some (match lookup "transient" environment with
                  | Some x => x
                  | None => VBool false
                  end)
       /\ lookup "production_environment" params
          = Some (match lookup "production" environment with
                  | Some x => x
                  | None => VBool true
                  end))
  /\ (lookup "name" environment = None ->
      trigger_deployment G w head_repo ref (VDict environment) description
      = ([Call "trigger_deployment"], Raise (KeyError "name"))).
Proof.
  intros G. split.
  - intros name Hn. eexists. split.
    + unfold G. apply (deployment_params_run _ _ _ _ _ _ _ _ _ _ Hn).
    + destruct ignore; repeat split; reflexivity.
  - intros Hn. unfold trigger_deployment, call. rewrite bind_emit.
    unfold deployment_params, get_method.
    destruct (lookup "transient" environment);
      destruct (lookup "production" environment);
      rewrite !bind_ret, (getitem_missing _ _ Hn); reflexivity.
Qed.

Lemma deployment_params_defaults_witness :
  exists params,
    deployment_params
      (mkGlobals (make_config "deploy to" None false false true) [])
      (VStr "abc123") (VDict [("name", VStr "qa"); ("transient", VBool true)])
      "Automatic deployment from #7"
    = ret params
    /\ lookup "transient_environment" params = Some (VBool true)
    /\ lookup "production_environment" params = Some (VBool true).
Proof.
  destruct (proj1 (deployment_params_defaults "deploy to" None false false true
                     [] (sample_world [] no_server) (VStr "o/r") (VStr "abc123")
                     [("name", VStr "qa"); ("transient", VBool true)]
                     "Automatic deployment from #7")
              (VStr "qa") eq_refl)
    as (params & E & _ & _ & Ht & Hp).
  exists params. repeat split; assumption.
Defined.

(** ** The reaction *)

Lemma react_run (G : globals) (w : world) (d : dict value) :
  (forall c u,
     lookup "comment" d = Some (VDict c) -> lookup "url" c = Some u ->
     let req :=
       mkRequest POST (VStr (py_str u ++ "/reactions"))
         (dict_update (BASE_GH_REQUEST_HEADERS G) [("Accept", reaction_accept)])
         (Some (VDict [("content", VStr "rocket")])) in
     react_to_original_comment G w (VDict d)
     = ([Call "react_to_original_comment"; Send req], checked (server w req)))
  /\ (lookup "comment" d = None ->
      react_to_original_comment G w (VDict d)
      = ([Call "react_to_original_comment"], Raise (KeyError "comment"))).
Proof.
  split.
  - intros c u Hc Hu req. unfold react_to_original_comment, call.
    rewrite bind_emit, (getitem_dict _ _ _ Hc), bind_ret.
    rewrite (getitem_dict _ _ _ Hu), bind_ret. cbv zeta.
    unfold requests_post, requests_send. fold reaction_accept. fold req.
    rewrite bind_emit. unfold checked.
    destruct (server w req) as [| resp]; [reflexivity |].
    cbn [ret fst snd]. rewrite bind_step. unfold raise_for_status, error_status.
    destruct ((400 <=? status_code resp)%Z && (status_code resp <? 600)%Z);
      reflexivity.
  - intros Hc. unfold react_to_original_comment, call.
    rewrite bind_emit, (getitem_missing _ _ Hc). reflexivity.
Qed.

(** X9. [react_to_original_comment] sends one POST of [{content: rocket}]
    to the comment's URL followed by [/reactions], with the reactions
    preview media type, and fails with an uncaught error when no response
    comes or the status is 4xx or 5xx.  An event without a [comment]
    raises [KeyError] before anything is sent. *)
Theorem react_posts_rocket (G : globals) (w : world) (d : dict value) :
  (forall c u,
     lookup "comment" d = Some (VDict c) -> lookup "url" c = Some u ->
     let req :=
       mkRequest POST (VStr (py_str u ++ "/reactions"))
         (dict_update (BASE_GH_REQUEST_HEADERS G) [("Accept", reaction_accept)])
         (Some (VDict [("content", VStr "rocket")])) in
     react_to_original_comment G w (VDict d)
     = ([Call "react_to_original_comment"; Send req], checked (server w req)))
  /\ (lookup "comment" d = None ->
      react_to_original_comment G w (VDict d)
      = ([Call "react_to_original_comment"], Raise (KeyError "comment"))).
Proof. exact (react_run G w d). Qed.

Lemma react_posts_rocket_witness :
  requests
    (trace
       (react_to_original_comment
          (mkGlobals (make_config "deploy to" None false false true) [])
          (sample_world [] no_server) (sample_event "deploy to staging")))
  = [ mkRequest POST
        (VStr "https://api.github.com/repos/o/r/issues/comments/1/reactions")
        [("Accept", reaction_accept)]
        (Some (VDict [("content", VStr "rocket")])) ].
Proof.
  exact (f_equal (fun r => requests (fst r))
           (proj1 (react_posts_rocket
                     (mkGlobals (make_config "deploy to" None false false true) [])
                     (sample_world [] no_server)
                     [ ("action", VStr "created");
                       ("issue",
                        VDict [ ("number", VInt 7);
                                ("pull_request", VDict [("url", VStr pr_api_url)]) ]);
                       ("comment", sample_comment "deploy to staging") ])
              _ _ eq_refl eq_refl)).
Defined.

(** ** The status checker, continued *)

Lemma eq_str_true (v : value) (s : string) :
  eq_str v s = true <-> v = VStr s.
Proof.
  destruct v; cbn; try (split; [discriminate | intros E; discriminate E]).
  split.
  - intros E. apply String.eqb_eq in E. now subst.
  - intros E. injection E as ->. apply String.eqb_refl.
Qed.

(** Peel one bind off a run whose result is known to be a return, naming
    the value the first part returned. *)
Ltac result_step_as a :=
  rewrite result_bind;
  match goal with
  | |- context [match result ?m with _ => _ end] =>
      let E := fresh "E" a in
      destruct (result m) as [a |] eqn:E; [| discriminate]
  end.

(** X10. With status checks enforced, [check_commit] returns if and only if
    the server answers the status request with a status that is not 4xx or
    5xx and a JSON object whose [state] is the string "success".  Any other
    answer ends in an exception. *)
Theorem check_commit_passes_on_success_only (trigger : string)
    (env_file : option string) (allow comment : bool) (H : dict string)
    (w : world) (head_repo sha : value) :
  let G := mkGlobals (make_config trigger env_file allow false comment) H in
  let req := mkRequest GET (VStr (status_url head_repo sha)) H None in
  result (check_commit G w head_repo sha) = Ret tt
  <-> exists resp status,
        server w req = Got resp
        /\ error_status resp = false
        /\ json_body resp = Some (VDict status)
        /\ lookup "state" status = Some (VStr "success").
Proof.
  intros G req. unfold check_commit, call. rewrite bind_emit.
  unfold G. rewrite config_ignore_status_checks, bind_ret. cbn [truthy].
  unfold requests_get, requests_send. cbn [BASE_GH_REQUEST_HEADERS]. fold req.
  rewrite bind_emit. unfold result. cbn [snd].
  destruct (server w req) as [| resp] eqn:Hserver.
  { split; [discriminate | intros (r & s & E & _); discriminate E]. }
  cbn [ret fst snd]. rewrite bind_step. cbn [snd].
  unfold raise_for_status. fold (error_status resp).
  destruct (error_status resp) eqn:Herr.
  { split; [discriminate | intros (r & s & E & F & _)].
    injection E as <-. congruence. }
  rewrite bind_ret. unfold response_json.
  destruct (json_body resp) as [status |] eqn:Hjson.
  2:{ split; [discriminate | intros (r & s & E & _ & F & _)].
      injection E as <-. congruence. }
  rewrite bind_ret.
  destruct status as [| b | z | s0 | l | d];
    try (split; [discriminate | intros (r & s & E & _ & F & _)];
         injection E as <-; congruence).
  cbn [getitem]. destruct (lookup "state" d) as [state |] eqn:Hs.
  2:{ split; [discriminate | intros (r & s & E & _ & F & F')].
      injection E as <-. congruence. }
  rewrite bind_ret. destruct (eq_str state "success") eqn:Hstate; cbn [negb].
  - apply eq_str_true in Hstate. subst state. split; [| reflexivity].
    intros _. exists resp, d. repeat split; first [assumption | reflexivity].
  - split.
    + fold (result
              (statuses <- match lookup "statuses" d with
                           | Some x => ret x
                           | None => raise (KeyError "statuses")
                           end ;;
               items <- py_iter statuses ;;
               lines <- mapM status_line items ;;
               @raise unit
                 (DeploymentFailure
                    ("The following status checks are not green for "
                     ++ py_str sha ++ ":" ++ nl ++ join nl lines ++ ".")))).
      rewrite result_bind.
      destruct (result _); [| discriminate].
      rewrite result_bind. destruct (result _); [| discriminate].
      rewrite result_bind. destruct (result _); discriminate.
    + intros (r & s & E & _ & F & F'). injection E as <-.
      assert (s = d) by congruence. subst s.
      assert (state = VStr "success") by congruence. subst state.
      discriminate Hstate.
Qed.

(** ** The command parser, continued *)

(** X11. Whatever the globals and the comment, a name that [parse_message]
    returns is not empty and has no whitespace at either end. *)
Theorem parse_message_returns_trimmed_name (G : globals) (comment : value)
    (e : string) :
  result (parse_message G comment) = Ret e -> e <> "" /\ trimmed e = true.
Proof.
  unfold parse_message.
  result_step_as u0. result_step_as message. result_step_as user.
  result_step_as author. result_step_as m. result_step_as trigger.
  result_step_as t.
  destruct (negb (startswith m t)); [discriminate |].
  cbv zeta.
  destruct (String.eqb_spec (strip (str_drop (String.length t) m)) "")
    as [Hs | Hs]; [discriminate |].
  intros He. injection He as <-. split; [exact Hs |].
  destruct (strip_split (str_drop (String.length t) m))
    as (l & r & _ & _ & _ & Ht).
  exact Ht.
Qed.

Lemma parse_message_returns_trimmed_name_witness :
  "staging" <> "" /\ trimmed "staging" = true.
Proof.
  exact (parse_message_returns_trimmed_name
           (mkGlobals (make_config "deploy to" None false false true) [])
           (sample_comment "deploy to  staging ") "staging" eq_refl).
Defined.

(** X12. A comment that does not start with the trigger phrase is left
    alone: one line in the log and [SystemExit(0)].  The test is exact on
    the first character: a body whose first character differs from that of
    the trigger phrase is no command, so the match is case-sensitive and
    leading whitespace is not skipped; nor is the empty body one. *)
Theorem parse_message_skips_other_comments (trigger : string)
    (env_file : option string) (allow ignore comment_on : bool)
    (H : dict string) (comment : value) (m : string) (author : value) :
  comment_fields comment m author ->
  let G := mkGlobals (make_config trigger env_file allow ignore comment_on) H in
  (startswith m trigger = false ->
   parse_message G comment
   = ([Call "parse_message"; Print (no_match_line author trigger)],
      Raise (SystemExit 0)))
  /\ (forall a t c s, trigger = String a t -> m = String c s -> a <> c ->
        startswith m trigger = false)
  /\ (forall a t, trigger = String a t -> m = "" ->
        startswith m trigger = false).
Proof.
  intros Hc G. repeat split.
  - intros Hs. unfold G. rewrite (parse_message_run _ _ _ _ _ _ _ _ _ Hc), Hs.
    reflexivity.
  - intros a t c s -> -> Hne. unfold startswith. cbn.
    destruct (Ascii.ascii_dec a c); [contradiction | reflexivity].
  - intros a t -> ->. reflexivity.
Qed.

Lemma parse_message_skips_other_comments_witness :
  parse_message
    (mkGlobals (make_config "deploy to" None false false true) [])
    (sample_comment "Deploy to prod")
  = ([ Call "parse_message";
       Print "Comment from octocat does not match the comment trigger (`deploy to`)." ],
     Raise (SystemExit 0)).
Proof.
  exact (proj1 (parse_message_skips_other_comments "deploy to" None false false
                  true [] _ _ _ (sample_comment_fields "Deploy to prod"))
           eq_refl).
Defined.

(** X13. With an empty trigger phrase every comment is a command, none
    is skipped: the body is whitespace, a trimmed part [e] and whitespace,
    and the parser answers [e] as the environment name, or raises
    [DeploymentFailure] when [e] is empty, that is for a blank comment. *)
Theorem parse_message_empty_trigger (env_file : option string)
    (allow ignore comment_on : bool) (H : dict string) (comment : value)
    (m : string) (author : value) :
  comment_fields comment m author ->
  exists l e r,
    m = l ++ e ++ r
    /\ all_space l = true /\ all_space r = true /\ trimmed e = true
    /\ parse_message
         (mkGlobals (make_config "" env_file allow ignore comment_on) H) comment
       = ([Call "parse_message"],
          if String.eqb e "" then
            Raise (DeploymentFailure (no_environment_message ""))
          else Ret e).
Proof.
  intros Hc. destruct (strip_split m) as (l & r & E & Hl & Hr & Ht).
  exists l, (strip m), r. repeat split; try assumption.
  rewrite E in Hc.
  exact (parse_message_trims "" env_file allow ignore comment_on H comment
           l (strip m) r author Hl Hr Ht Hc).
Qed.

Lemma parse_message_empty_trigger_witness :
  exists l e r,
    "  looks good to me " = l ++ e ++ r
    /\ all_space l = true /\ all_space r = true /\ trimmed e = true
    /\ parse_message (mkGlobals (make_config "" None false false true) [])
         (sample_comment "  looks good to me ")
       = ([Call "parse_message"],
          if String.eqb e "" then
            Raise (DeploymentFailure (no_environment_message ""))
          else Ret e).
Proof.
  exact (parse_message_empty_trigger None false false true [] _ _ _
           (sample_comment_fields "  looks good to me ")).
Defined.

(** ** The environment resolver, continued *)

Lemma find_environment_found (e : string) (envs : list value) (env : value) :
  result (find_environment e envs) = Ret (Some env) -> name_is e env = true.
Proof.
  induction envs as [| r envs IH]; cbn [find_environment].
  - discriminate.
  - rewrite result_bind. destruct r; try discriminate. cbn [getitem].
    destruct (lookup "name" d) as [n |] eqn:Hn; [| discriminate].
    cbn [ret result snd].
    destruct (eq_str n e) eqn:Hne.
    + intros E. injection E as <-. cbn [name_is]. rewrite Hn. exact Hne.
    + exact IH.
Qed.

(** X14. Whatever the globals and the world, a record that
    [get_environment] returns is an object whose [name] equals the
    requested name; so [trigger_deployment] always finds the name it
    posts. *)
Theorem get_environment_returns_requested_name (G : globals) (w : world)
    (e : string) (env : value) :
  result (get_environment G w e) = Ret env -> name_is e env = true.
Proof.
  unfold get_environment.
  result_step_as u0. result_step_as env_file.
  destruct (negb (truthy env_file)).
  - intros E. injection E as <-. cbn. apply String.eqb_refl.
  - result_step_as loaded. result_step_as envs. result_step_as found.
    destruct found as [r |]; [| discriminate].
    intros E. injection E as <-.
    exact (find_environment_found _ _ _ Efound).
Qed.

Lemma get_environment_returns_requested_name_witness :
  name_is "prod" (VDict [("name", VStr "prod"); ("production", VBool true)])
  = true.
Proof.
  exact (get_environment_returns_requested_name
           (mkGlobals
              (make_config "deploy to" (Some "envs.json") false false true) [])
           (sample_world [] no_server) "prod" _ eq_refl).
Defined.

(** X15. An allowlist file that parses but is not what the resolver
    expects.  An array whose first element is not an object (a list of
    names, say) raises [TypeError], as does any JSON value that is not an
    array, except the empty object and the empty string, over which the
    loop does not turn and which therefore reject every name with
    [DeploymentFailure] like the empty array does.  None of these is
    reported as a [DeploymentFailure] on the file. *)
Theorem get_environment_malformed_allowlist (trigger p : string)
    (allow ignore comment : bool) (H : dict string) (w : world) (e : string)
    (loaded : value) :
  p <> "" ->
  files w (VStr p) = Parsed loaded ->
  let run :=
    get_environment
      (mkGlobals (make_config trigger (Some p) allow ignore comment) H) w e in
  (forall r rest, loaded = VList (r :: rest) -> is_dict r = false ->
     run = ([Call "get_environment"; Open (VStr p)], Raise TypeError))
  /\ (is_list loaded = false -> empty_container loaded = false ->
      run = ([Call "get_environment"; Open (VStr p)], Raise TypeError))
  /\ (empty_container loaded = true ->
      run = ([Call "get_environment"; Open (VStr p)],
             Raise (DeploymentFailure (unknown_environment_message e p)))).
Proof.
  intros Hp Hf run. repeat split.
  - intros r rest -> Hr. unfold run.
    rewrite (get_environment_loaded _ _ _ _ _ _ _ _ _ Hp Hf).
    destruct r; try reflexivity. discriminate Hr.
  - intros Hl He. apply String.eqb_neq in Hp.
    unfold run, get_environment, call.
    rewrite bind_emit, config_env_file, bind_ret. cbn [truthy]. rewrite Hp.
    cbn [negb]. rewrite (json_load_open_parsed _ _ _ Hf), bind_step.
    destruct loaded as [| b | z | s | l | d]; try reflexivity.
    + destruct s as [| c s]; [discriminate He | reflexivity].
    + discriminate Hl.
    + destruct d as [| [k v] d]; [discriminate He | reflexivity].
  - intros He. apply String.eqb_neq in Hp.
    unfold run, get_environment, call.
    rewrite bind_emit, config_env_file, bind_ret. cbn [truthy]. rewrite Hp.
    cbn [negb]. rewrite (json_load_open_parsed _ _ _ Hf), bind_step.
    destruct loaded as [| b | z | s | l | d]; try discriminate He.
    + destruct s; [reflexivity | discriminate He].
    + destruct l; [reflexivity | discriminate He].
    + destruct d; [reflexivity | discriminate He].
Qed.

Lemma get_environment_malformed_allowlist_witness :
  get_environment
    (mkGlobals (make_config "deploy to" (Some "envs.json") false false true) [])
    (crowded_world [VStr "staging"; VStr "prod"]) "prod"
  = ([Call "get_environment"; Open (VStr "envs.json")], Raise TypeError).
Proof.
  refine (proj1 (get_environment_malformed_allowlist "deploy to" "envs.json"
                   false false true []
                   (crowded_world [VStr "staging"; VStr "prod"]) "prod" _ _
                   eq_refl)
            _ _ eq_refl eq_refl).
  discriminate.
Defined.

(** ** [__main__] as written *)

Lemma requests_app (t1 t2 : list event) :
  requests (t1 ++ t2) = (requests t1 ++ requests t2)%list.
Proof.
  induction t1 as [| [f | l | p | r] t1 IH]; cbn; try assumption.
  - reflexivity.
  - now rewrite IH.
Qed.

Lemma validate_event_sends_nothing (event : value) :
  requests (trace (validate_event event)) = [].
Proof.
  unfold validate_event, call. rewrite bind_emit. unfold trace. cbn [fst requests].
  destruct event; try reflexivity. cbn [get_method].
  destruct (lookup "issue" d) as [issue |]; rewrite ?bind_ret;
    [| reflexivity].
  destruct (truthy issue); cbn [negb]; [| reflexivity].
  cbn [getitem]. destruct (lookup "action" d) as [action |];
    rewrite ?bind_ret; [| reflexivity].
  destruct (eq_str action "created"); cbn [negb]; [| reflexivity].
  destruct issue; try reflexivity. cbn [get_method].
  destruct (lookup "pull_request" d0) as [pull |]; rewrite ?bind_ret;
    [| reflexivity].
  destruct (truthy pull); reflexivity.
Qed.

(** With the globals [__main__] builds, the pipeline is the validation of
    the event followed by the failed lookup of [pr_url]. *)
Lemma main_pipeline_as_built (w : world) (token : string) (event : value) :
  main_pipeline (main_globals w token) w event
  = (validate_event event ;; raise (KeyError "pr_url")).
Proof. reflexivity. Qed.


(** X16. As written, [__main__] never sends an HTTP request and never
    runs to its end, whatever the environment, the files and the server:
    every run stops in an exception, [SystemExit] included. *)
Theorem main_sends_nothing (w : world) :
  requests (trace (main w)) = [] /\ exists e, result (main w) = Raise e.
Proof.
  unfold main. destruct (lookup "GITHUB_ACTION" (environ w)) as [action |].
  2:{ split; [reflexivity | eexists; reflexivity]. }
  unfold environ_getitem.
  destruct (lookup "GITHUB_TOKEN" (environ w)) as [token |].
  2:{ split; [reflexivity | eexists; reflexivity]. }
  rewrite bind_ret.
  destruct (lookup "GITHUB_EVENT_PATH" (environ w)) as [path |].
  2:{ split; [reflexivity | eexists; reflexivity]. }
  rewrite bind_ret. cbv zeta.
  destruct (files w (VStr path)) as [| | event] eqn:Hf.
  - rewrite (json_load_open_cannot_open _ _ Hf).
    split; [reflexivity | eexists; reflexivity].
  - rewrite (json_load_open_not_json _ _ Hf).
    split; [reflexivity | eexists; reflexivity].
  - rewrite (json_load_open_parsed _ _ _ Hf), bind_step, main_pipeline_as_built.
    unfold trace, result. cbn [fst snd app requests].
    fold (trace (validate_event event ;; @raise unit (KeyError "pr_url"))).
    fold (result (validate_event event ;; @raise unit (KeyError "pr_url"))).
    rewrite trace_bind, result_bind, requests_app, validate_event_sends_nothing.
    destruct (result (validate_event event)); split;
      first [reflexivity | eexists; reflexivity].
Qed.

Lemma main_result (w : world) :
  result (main w)
  = match lookup "GITHUB_ACTION" (environ w),
          lookup "GITHUB_TOKEN" (environ w),
          lookup "GITHUB_EVENT_PATH" (environ w) with
    | None, _, _ => Raise (SystemExit 1)
    | Some _, None, _ => Raise (KeyError "GITHUB_TOKEN")
    | Some _, Some _, None => Raise (KeyError "GITHUB_EVENT_PATH")
    | Some _, Some _, Some path =>
        match files w (VStr path) with
        | CannotOpen => Raise OSError
        | NotJson => Raise JSONDecodeError
        | Parsed event =>
            match result (validate_event event) with
            | Ret _ => Raise (KeyError "pr_url")
            | Raise e => Raise e
            end
        end
    end.
Proof.
  unfold main. destruct (lookup "GITHUB_ACTION" (environ w)); [| reflexivity].
  unfold environ_getitem.
  destruct (lookup "GITHUB_TOKEN" (environ w)); [| reflexivity].
  rewrite bind_ret.
  destruct (lookup "GITHUB_EVENT_PATH" (environ w)) as [path |];
    [| reflexivity].
  rewrite bind_ret. cbv zeta.
  destruct (files w (VStr path)) as [| | event] eqn:Hf.
  - rewrite (json_load_open_cannot_open _ _ Hf). reflexivity.
  - rewrite (json_load_open_not_json _ _ Hf). reflexivity.
  - rewrite (json_load_open_parsed _ _ _ Hf), bind_step, main_pipeline_as_built.
    unfold result at 1. cbn [snd].
    fold (result (validate_event event ;; @raise unit (KeyError "pr_url"))).
    rewrite result_bind. destruct (result (validate_event event)); reflexivity.
Qed.

Lemma validate_event_raises (event : value) (e : exn) :
  result (validate_event event) = Raise e ->
  e = SystemExit 0 \/ exit_status (@Raise unit e) = 1%Z.
Proof.
  unfold validate_event, call. rewrite bind_emit. unfold result. cbn [snd].
  destruct event; try (intros E; injection E as <-; right; reflexivity).
  cbn [get_method].
  destruct (lookup "issue" d) as [issue |]; rewrite ?bind_ret.
  2:{ intros E. injection E as <-. right; reflexivity. }
  destruct (truthy issue); cbn [negb].
  2:{ intros E. injection E as <-. right; reflexivity. }
  cbn [getitem]. destruct (lookup "action" d) as [a |]; rewrite ?bind_ret.
  2:{ intros E. injection E as <-. right; reflexivity. }
  destruct (eq_str a "created"); cbn [negb].
  2:{ intros E. injection E as <-. left; reflexivity. }
  destruct issue; try (intros E; injection E as <-; right; reflexivity).
  cbn [get_method].
  destruct (lookup "pull_request" d0) as [pull |]; rewrite ?bind_ret.
  2:{ intros E. injection E as <-. left; reflexivity. }
  destruct (truthy pull); cbn [negb]; [discriminate |].
  intros E. injection E as <-. left; reflexivity.
Qed.

(** X17. [__main__] ends with status 0 exactly when the variables are set,
    the event file parses and [validate_event] skips the event with
    [SystemExit(0)]; in every other run the status is 1. *)
Theorem main_exit_status (w : world) :
  (exit_status (result (main w)) = 0%Z
   <-> exists action token path event,
         lookup "GITHUB_ACTION" (environ w) = Some action
         /\ lookup "GITHUB_TOKEN" (environ w) = Some token
         /\ lookup "GITHUB_EVENT_PATH" (environ w) = Some path
         /\ files w (VStr path) = Parsed event
         /\ result (validate_event event) = Raise (SystemExit 0))
  /\ (exit_status (result (main w)) = 0%Z
      \/ exit_status (result (main w)) = 1%Z).
Proof.
  rewrite main_result.
  destruct (lookup "GITHUB_ACTION" (environ w)) as [action |].
  2:{ split; [| right; reflexivity].
      split; [discriminate | intros (a & t & p & e & E & _); discriminate E]. }
  destruct (lookup "GITHUB_TOKEN" (environ w)) as [token |].
  2:{ split; [| right; reflexivity].
      split; [discriminate | intros (a & t & p & e & _ & E & _); discriminate E]. }
  destruct (lookup "GITHUB_EVENT_PATH" (environ w)) as [path |].
  2:{ split; [| right; reflexivity].
      split; [discriminate
             | intros (a & t & p & e & _ & _ & E & _); discriminate E]. }
  destruct (files w (VStr path)) as [| | event] eqn:Hf.
  1,2: split; [| right; reflexivity];
       (split; [discriminate
               | intros (a & t & p & e & _ & _ & E & F & _)];
        injection E as <-; congruence).
  destruct (result (validate_event event)) as [u | e] eqn:Hv.
  - split; [| right; reflexivity].
    split; [discriminate | intros (a & t & p & ev & _ & _ & E & F & V)].
    injection E as <-. congruence.
  - destruct (validate_event_raises _ _ Hv) as [-> | Hone].
    + split; [| left; reflexivity].
      split; [intros _ | reflexivity].
      exists action, token, path, event. repeat split; auto.
    + split; [| right; exact Hone].
      split.
      * intros Z. rewrite Hone in Z. discriminate Z.
      * intros (a & t & p & ev & _ & _ & E & F & V).
        injection E as <-. assert (ev = event) by congruence. subst ev.
        rewrite Hv in V. injection V as ->. discriminate Hone.
Qed.

(** ** The deployment pipeline *)

Lemma entered_bind {A B : Type} (f : string) (m : M A) (k : A -> M B) :
  entered f (bind m k) ->
  entered f m \/ exists a, result m = Ret a /\ entered f (k a).
Proof.
  unfold entered. rewrite trace_bind, calls_app. intros Hin.
  apply in_app_or in Hin as [Hin | Hin]; [left; exact Hin |].
  destruct (result m) as [a | e]; [| contradiction].
  right. exists a. split; [reflexivity | exact Hin].
Qed.

Lemma entered_try {A B : Type} (f : string) (body : M A)
    (handler : string -> M B) (orelse : A -> M B) :
  entered f (try_except_else body handler orelse) ->
  entered f body
  \/ (exists msg, entered f (handler msg))
  \/ (exists a, result body = Ret a /\ entered f (orelse a)).
Proof.
  unfold entered, trace, result. destruct body as [t [a | e]]; cbn [fst snd].
  - cbn [try_except_else]. destruct (orelse a) as [t' o] eqn:Ho. cbn [fst].
    rewrite calls_app. intros Hin.
    apply in_app_or in Hin as [Hin | Hin]; [left; exact Hin |].
    right; right. exists a. rewrite Ho. split; [reflexivity | exact Hin].
  - destruct e; cbn [try_except_else fst]; try (intros Hin; left; exact Hin).
    destruct (handler msg) as [t' o] eqn:Hh. cbn [fst].
    rewrite calls_app. intros Hin.
    apply in_app_or in Hin as [Hin | Hin]; [left; exact Hin |].
    right; left. exists msg. rewrite Hh. exact Hin.
Qed.

Lemma result_bind_ret {A B : Type} (m : M A) (k : A -> M B) (b : B) :
  result (bind m k) = Ret b ->
  exists a, result m = Ret a /\ result (k a) = Ret b.
Proof.
  rewrite result_bind. destruct (result m) as [a | e]; [| discriminate].
  intros E. exists a. split; [reflexivity | exact E].
Qed.

Lemma result_try_ret {A B : Type} (body : M A) (handler : string -> M B)
    (orelse : A -> M B) (b : B) :
  failure_handler handler ->
  result (try_except_else body handler orelse) = Ret b ->
  exists a, result body = Ret a /\ result (orelse a) = Ret b.
Proof.
  intros Hh. unfold result. destruct body as [t [a | e]]; cbn [snd].
  - cbn [try_except_else]. destruct (orelse a) as [t' o] eqn:Ho. cbn [snd].
    intros ->. exists a. rewrite Ho. split; reflexivity.
  - destruct e; cbn [try_except_else snd]; try discriminate.
    destruct (Hh msg) as ((e & He) & _). unfold result in He.
    destruct (handler msg) as [t' o]. cbn [snd] in *. subst o. discriminate.
Qed.

(** Close a goal whose hypothesis says that [f] was entered by a run that
    only enters other functions. *)
Ltac not_entered H :=
  exfalso; unfold entered in H;
  first
    [ rewrite calls_validate_pr in H
    | rewrite calls_parse_message in H
    | rewrite calls_get_environment in H
    | rewrite calls_check_commit in H
    | rewrite calls_react_to_original_comment in H
    | rewrite calls_add_comment in H
    | match type of H with
      | In _ (calls (trace ?m)) =>
          let Q := fresh "Q" in
          assert (Q : quiet m) by quiet_steps;
          unfold quiet in Q; rewrite Q in H
      end ];
  cbn in H; intuition discriminate.

(** X18. A deployment is triggered only after every check has passed.
    Whatever the globals, the event, the pull request and the server, if a
    run of the pipeline enters [trigger_deployment] then [validate_pr]
    returned, [parse_message] returned a name for the comment of the event,
    [get_environment] returned a record for that name, and [check_commit]
    returned for the head repository and commit of the pull request. *)
Theorem deployment_requires_all_checks (G : globals) (w : world)
    (event pr : value) :
  entered "trigger_deployment" (main_deploy G w event pr) ->
  exists head sha repo head_repo comment name environment,
    result (getitem pr "head") = Ret head
    /\ result (getitem head "sha") = Ret sha
    /\ result (getitem head "repo") = Ret repo
    /\ result (getitem repo "full_name") = Ret head_repo
    /\ result (validate_pr G pr) = Ret tt
    /\ result (getitem event "comment") = Ret comment
    /\ result (parse_message G comment) = Ret name
    /\ result (get_environment G w name) = Ret environment
    /\ result (check_commit G w head_repo sha) = Ret tt.
Proof.
  intros Hin. unfold main_deploy in Hin.
  apply entered_bind in Hin as [Hq | (head & Ehead & Hin)]; [not_entered Hq |].
  apply entered_bind in Hin as [Hq | (sha & Esha & Hin)]; [not_entered Hq |].
  apply entered_bind in Hin as [Hq | (head' & Ehead' & Hin)];
    [not_entered Hq |].
  assert (head' = head) by congruence. subst head'.
  apply entered_bind in Hin as [Hq | (repo & Erepo & Hin)]; [not_entered Hq |].
  apply entered_bind in Hin as [Hq | (head_repo & Efull & Hin)];
    [not_entered Hq |].
  apply entered_bind in Hin as [Hq | (pr_num & Enum & Hin)]; [not_entered Hq |].
  apply entered_bind in Hin as [Hfirst | (name & Ename & Hin)].
  { (* nothing in the first block enters the trigger *)
    unfold try_except in Hfirst.
    apply entered_try in Hfirst as [Hb | [(msg & Hh) | (a & _ & Ho)]].
    - apply entered_bind in Hb as [Hq | (u & _ & Hb)]; [not_entered Hq |].
      apply entered_bind in Hb as [Hq | (c & _ & Hb)]; [not_entered Hq |].
      not_entered Hb.
    - destruct (failure_handler_add_comment (B := string) G w pr
                  (fun e => "Deployment failed: " ++ e) msg) as (_ & [Q | Q]);
        unfold entered in Hh; rewrite Q in Hh; cbn in Hh;
        intuition discriminate.
    - not_entered Ho. }
  unfold try_except in Ename.
  apply result_try_ret in Ename as (name' & Ebody & Eret);
    [| apply (failure_handler_add_comment G w pr
                (fun e => "Deployment failed: " ++ e))].
  injection Eret as ->.
  apply result_bind_ret in Ebody as ([] & Evalid & Ebody).
  apply result_bind_ret in Ebody as (comment & Ecomment & Eparse).
  assert (Hbody :
            exists environment,
              result (get_environment G w name) = Ret environment
              /\ result (check_commit G w head_repo sha) = Ret tt).
  { apply entered_try in Hin as [Hb | [(msg & Hh) | (a & Hret & _)]].
    - apply entered_bind in Hb as [Hq | (environment & Eenv & Hb)];
        [not_entered Hq |].
      apply entered_bind in Hb as [Hq | ([] & Echeck & _)]; [not_entered Hq |].
      exists environment. split; assumption.
    - exfalso.
      destruct (failure_handler_add_comment (B := unit) G w pr
                  (fun e => "Deployment to " ++ name ++ " failed: " ++ e) msg)
        as (_ & [Q | Q]);
        unfold entered in Hh; rewrite Q in Hh; cbn in Hh;
        intuition discriminate.
    - apply result_bind_ret in Hret as (environment & Eenv & Hret).
      apply result_bind_ret in Hret as ([] & Echeck & _).
      exists environment. split; assumption. }
  destruct Hbody as (environment & Eenv & Echeck).
  exists head, sha, repo, head_repo, comment, name, environment.
  repeat split; assumption.
Qed.

Lemma deployment_requires_all_checks_witness :
  result
    (check_commit globals_with_pr_url
       (sample_world []
          (github (sample_pr false false VNone "open" "mergeable")))
       (VStr "o/r") (VStr "abc123"))
  = Ret tt.
Proof.
  destruct (deployment_requires_all_checks globals_with_pr_url
              (sample_world []
                 (github (sample_pr false false VNone "open" "mergeable")))
              (sample_event "deploy to staging")
              (sample_pr false false VNone "open" "mergeable"))
    as (head & sha & repo & head_repo & comment & name & environment
        & Ehead & Esha & Erepo & Efull & _ & _ & _ & _ & Echeck).
  - vm_compute. intuition.
  - vm_compute in Ehead. injection Ehead as <-.
    vm_compute in Esha. injection Esha as <-.
    vm_compute in Erepo. injection Erepo as <-.
    vm_compute in Efull. injection Efull as <-.
    exact Echeck.
Defined.

(** *** Budgets: how much of something a run can do *)

Section Budget.

Variable mu : list event -> nat.
Hypothesis mu_nil : mu [] = 0.
Hypothesis mu_app : forall t1 t2, mu (t1 ++ t2)%list = mu t1 + mu t2.

Lemma within_le {A : Type} (n : nat) (m : M A) :
  mu (trace m) <= n -> within mu n n m.
Proof. intros Hn. unfold within. destruct (result m); exact Hn. Qed.

Lemma within_total {A : Type} (a b : nat) (m : M A) :
  within mu a b m -> mu (trace m) <= Nat.max a b.
Proof. clear mu_nil mu_app. unfold within. destruct (result m); lia. Qed.

Lemma within_bind {A B : Type} (a b c d a' b' : nat) (m : M A) (k : A -> M B) :
  within mu a b m -> (forall x, within mu c d (k x)) ->
  a + c <= a' -> b <= b' -> a + d <= b' ->
  within mu a' b' (bind m k).
Proof.
  unfold within. intros Hm Hk H1 H2 H3.
  rewrite result_bind, trace_bind, mu_app.
  destruct (result m) as [x | e].
  - specialize (Hk x). destruct (result (k x)); lia.
  - rewrite mu_nil. lia.
Qed.

Lemma within_bind_free {A B : Type} (a b : nat) (m : M A) (k : A -> M B) :
  mu (trace m) = 0 -> (forall x, within mu a b (k x)) ->
  within mu a b (bind m k).
Proof.
  intros Hm Hk. apply (within_bind 0 0 a b); try lia; [| exact Hk].
  apply within_le. lia.
Qed.

Lemma within_try {A B : Type} (a b h c d a' b' : nat) (body : M A)
    (handler : string -> M B) (orelse : A -> M B) :
  within mu a b body ->
  (forall msg, mu (trace (handler msg)) <= h) ->
  (forall msg, exists e, result (handler msg) = Raise e) ->
  (forall x, within mu c d (orelse x)) ->
  a + c <= a' -> b + h <= b' -> a + d <= b' ->
  within mu a' b' (try_except_else body handler orelse).
Proof.
  unfold within, trace, result. intros Hb Hh Hraise Ho H1 H2 H3.
  destruct body as [t [x | e]]; cbn [fst snd] in Hb.
  - cbn [try_except_else]. specialize (Ho x).
    destruct (orelse x) as [t' o]. cbn [fst snd] in *. rewrite mu_app.
    destruct o; lia.
  - destruct e; cbn [try_except_else fst snd]; try lia.
    specialize (Hh msg). destruct (Hraise msg) as (e & He).
    destruct (handler msg) as [t' o]. cbn [fst snd] in *. subst o.
    rewrite mu_app. lia.
Qed.

End Budget.

Lemma sent_nil : sent [] = 0.
Proof. reflexivity. Qed.

Lemma sent_app (t1 t2 : list event) : sent (t1 ++ t2) = sent t1 + sent t2.
Proof. unfold sent. now rewrite requests_app, List.length_app. Qed.

Lemma entries_nil (f : string) : entries f [] = 0.
Proof. reflexivity. Qed.

Lemma entries_app (f : string) (t1 t2 : list event) :
  entries f (t1 ++ t2) = entries f t1 + entries f t2.
Proof. unfold entries. now rewrite calls_app, count_occ_app. Qed.

Lemma entries_quiet {A : Type} (f : string) (m : M A) :
  quiet m -> entries f (trace m) = 0.
Proof. unfold quiet, entries. now intros ->. Qed.

Lemma silent_ret {A : Type} (a : A) : silent (ret a).
Proof. reflexivity. Qed.

Lemma silent_raise {A : Type} (e : exn) : silent (@raise A e).
Proof. reflexivity. Qed.

Lemma silent_sys_exit {A : Type} (c : Z) : silent (@sys_exit A c).
Proof. reflexivity. Qed.

Lemma silent_print (l : string) : silent (print l).
Proof. reflexivity. Qed.

Lemma silent_error (l : string) : silent (error l).
Proof. reflexivity. Qed.

Lemma silent_call (f : string) : silent (call f).
Proof. reflexivity. Qed.

Lemma silent_bind {A B : Type} (m : M A) (k : A -> M B) :
  silent m -> (forall a, silent (k a)) -> silent (bind m k).
Proof.
  unfold silent. intros Hm Hk. rewrite trace_bind, requests_app, Hm.
  destruct (result m); [apply Hk | reflexivity].
Qed.

Lemma silent_getitem (v : value) (k : string) : silent (getitem v k).
Proof. destruct v; try reflexivity. cbn. destruct (lookup k d); reflexivity. Qed.

Lemma silent_config (G : globals) (k : string) : silent (config G k).
Proof. apply silent_getitem. Qed.

Lemma silent_get_method (v : value) (k : string) (d : value) :
  silent (get_method v k d).
Proof.
  destruct v; try reflexivity. cbn. destruct (lookup k d0); reflexivity.
Qed.

Lemma silent_py_iter (v : value) : silent (py_iter v).
Proof. destruct v; reflexivity. Qed.

Lemma silent_str_receiver (v : value) : silent (str_receiver v).
Proof. destruct v; reflexivity. Qed.

Lemma silent_str_argument (v : value) : silent (str_argument v).
Proof. destruct v; reflexivity. Qed.

Lemma silent_json_load_open (w : world) (p : value) :
  silent (json_load_open w p).
Proof. unfold json_load_open. destruct (files w p); reflexivity. Qed.

Lemma silent_raise_for_status (r : response) : silent (raise_for_status r).
Proof.
  unfold raise_for_status.
  destruct ((400 <=? status_code r)%Z && (status_code r <? 600)%Z); reflexivity.
Qed.

Lemma silent_response_json (r : response) : silent (response_json r).
Proof. unfold response_json. destruct (json_body r); reflexivity. Qed.

Create HintDb silent.
#[local] Hint Resolve silent_ret silent_raise silent_sys_exit silent_print
  silent_error silent_call silent_getitem silent_config silent_get_method
  silent_py_iter silent_str_receiver silent_str_argument silent_json_load_open
  silent_raise_for_status silent_response_json : silent.

Ltac silent_steps :=
  repeat first
    [ solve [auto with silent]
    | apply silent_bind; [| intros ?]
    | match goal with
      | |- silent (if ?b then _ else _) => destruct b
      | |- silent (match ?x with _ => _ end) => destruct x
      | |- silent (let _ := _ in _) => cbv zeta
      end ].

Lemma silent_find_environment (e : string) (envs : list value) :
  silent (find_environment e envs).
Proof.
  induction envs as [| r envs IH]; cbn [find_environment]; silent_steps.
Qed.

Lemma silent_mapM_status_line (l : list value) : silent (mapM status_line l).
Proof.
  induction l as [| s l IH]; cbn [mapM]; [apply silent_ret |].
  apply silent_bind; [unfold status_line; silent_steps | intros y].
  apply silent_bind; [exact IH | intros ys]. apply silent_ret.
Qed.

#[local] Hint Resolve silent_find_environment silent_mapM_status_line : silent.

Lemma silent_validate_pr (G : globals) (pr : value) : silent (validate_pr G pr).
Proof. unfold validate_pr. silent_steps. Qed.

Lemma silent_parse_message (G : globals) (comment : value) :
  silent (parse_message G comment).
Proof. unfold parse_message. silent_steps. Qed.

Lemma silent_get_environment (G : globals) (w : world) (e : string) :
  silent (get_environment G w e).
Proof. unfold get_environment. silent_steps. Qed.

Lemma silent_set_deployment_outputs (r : response) :
  silent (set_deployment_outputs r).
Proof. unfold set_deployment_outputs. silent_steps. Qed.

Lemma silent_deployment_params (G : globals) (ref environment : value)
    (description : string) :
  silent (deployment_params G ref environment description).
Proof. unfold deployment_params. silent_steps. Qed.

#[local] Hint Resolve silent_validate_pr silent_parse_message
  silent_get_environment silent_set_deployment_outputs
  silent_deployment_params : silent.

Lemma within_silent {A : Type} (a b : nat) (m : M A) :
  silent m -> within sent a b m.
Proof.
  unfold silent, within, sent. intros ->. destruct (result m); cbn; lia.
Qed.

Lemma sent_silent {A : Type} (m : M A) : silent m -> sent (trace m) = 0.
Proof. unfold silent, sent. now intros ->. Qed.

Lemma within_requests_send (w : world) (r : request) :
  within sent 1 1 (requests_send w r).
Proof.
  apply within_le. unfold requests_send. destruct (server w r); cbn; lia.
Qed.

(** One request, then nothing more. *)
Lemma within_send_then {B : Type} (w : world) (r : request)
    (k : response -> M B) :
  (forall resp, silent (k resp)) ->
  within sent 1 1 (bind (requests_send w r) k).
Proof.
  intros Hk.
  apply (within_bind sent sent_nil sent_app 1 1 0 0); try lia.
  - apply within_requests_send.
  - intros resp. apply within_silent, Hk.
Qed.

Lemma within_add_comment (G : globals) (w : world) (u : value) (msg : string)
    (is_error : bool) :
  within sent 1 1 (add_comment G w u msg is_error).
Proof.
  unfold add_comment.
  apply (within_bind_free sent sent_nil sent_app); [reflexivity | intros _].
  apply (within_bind_free sent sent_nil sent_app);
    [destruct is_error; reflexivity | intros _].
  apply (within_bind_free sent sent_nil sent_app);
    [apply sent_silent, silent_config | intros c].
  destruct (truthy c); [| apply within_silent, silent_ret].
  unfold requests_post. apply within_send_then. intros resp.
  apply silent_raise_for_status.
Qed.

Lemma within_check_commit (G : globals) (w : world) (head_repo sha : value) :
  within sent 1 1 (check_commit G w head_repo sha).
Proof.
  unfold check_commit.
  apply (within_bind_free sent sent_nil sent_app); [reflexivity | intros _].
  apply (within_bind_free sent sent_nil sent_app);
    [apply sent_silent, silent_config | intros c].
  destruct (truthy c); [apply within_silent, silent_ret |].
  unfold requests_get. apply within_send_then. intros resp. silent_steps.
Qed.

Lemma silent_trigger_status (resp : response) :
  silent (match raise_for_status resp with
          | (t, Raise _) =>
              (t, Raise (DeploymentFailure
                           ("Failed to trigger deployment (" ++ text resp ++ ")")))
          | (t, Ret _) => (t, Ret tt)
          end).
Proof.
  unfold raise_for_status.
  destruct ((400 <=? status_code resp)%Z && (status_code resp <? 600)%Z);
    reflexivity.
Qed.

Lemma within_trigger_deployment (G : globals) (w : world)
    (head_repo ref environment : value) (description : string) :
  within sent 1 1 (trigger_deployment G w head_repo ref environment description).
Proof.
  unfold trigger_deployment.
  apply (within_bind_free sent sent_nil sent_app); [reflexivity | intros _].
  apply (within_bind_free sent sent_nil sent_app);
    [apply sent_silent, silent_deployment_params | intros params].
  unfold requests_post. apply within_send_then. intros resp.
  apply silent_bind; [apply silent_trigger_status | intros _].
  apply silent_set_deployment_outputs.
Qed.

Lemma within_react (G : globals) (w : world) (event : value) :
  within sent 1 1 (react_to_original_comment G w event).
Proof.
  unfold react_to_original_comment.
  apply (within_bind_free sent sent_nil sent_app); [reflexivity | intros _].
  apply (within_bind_free sent sent_nil sent_app);
    [apply sent_silent, silent_getitem | intros comment].
  apply (within_bind_free sent sent_nil sent_app);
    [apply sent_silent, silent_getitem | intros comment_url].
  cbv zeta. unfold requests_post. apply within_send_then. intros resp.
  apply silent_raise_for_status.
Qed.

Lemma within_load_pr (G : globals) (w : world) (u : value) :
  within sent 1 1 (load_pr G w u).
Proof.
  unfold load_pr.
  apply (within_bind_free sent sent_nil sent_app); [reflexivity | intros _].
  apply (within_bind_free sent sent_nil sent_app);
    [apply sent_silent, silent_config | intros pr_url].
  unfold requests_get. apply within_send_then. intros resp. silent_steps.
Qed.

(** The handler of both [try] blocks sends at most the failure comment. *)
Lemma handler_sends_one {B : Type} (G : globals) (w : world) (pr : value)
    (text_of : string -> string) (msg : string) :
  sent (trace (comments_url <- getitem pr "comments_url" ;;
               add_comment G w comments_url (text_of msg) true ;;
               @sys_exit B 1)) <= 1.
Proof.
  apply Nat.le_trans with (Nat.max 1 1); [| cbn; lia]. apply within_total.
  apply (within_bind_free sent sent_nil sent_app);
    [apply sent_silent, silent_getitem | intros u].
  apply (within_bind sent sent_nil sent_app 1 1 0 0); try lia.
  - apply within_add_comment.
  - intros _. apply within_silent, silent_sys_exit.
Qed.

Lemma within_main_deploy (G : globals) (w : world) (event pr : value) :
  within sent 4 4 (main_deploy G w event pr).
Proof.
  unfold main_deploy.
  repeat (apply (within_bind_free sent sent_nil sent_app);
          [apply sent_silent, silent_getitem | intros ?]).
  apply (within_bind sent sent_nil sent_app 0 1 4 4); try lia.
  - unfold try_except.
    apply (within_try sent sent_nil sent_app 0 0 1 0 0); try lia.
    + apply within_silent. silent_steps.
    + intros msg. apply handler_sends_one with (text_of := fun e => "Deployment failed: " ++ e).
    + intros msg.
      apply (failure_handler_add_comment G w pr
               (fun e => "Deployment failed: " ++ e)).
    + intros name. apply within_silent, silent_ret.
  - intros environment_name.
    apply (within_try sent sent_nil sent_app 2 2 1 2 2); try lia.
    + apply (within_bind_free sent sent_nil sent_app);
        [apply sent_silent, silent_get_environment | intros environment].
      apply (within_bind sent sent_nil sent_app 1 1 1 1); try lia.
      * apply within_check_commit.
      * intros _. apply within_trigger_deployment.
    + intros msg.
      apply handler_sends_one
        with (text_of := fun e => "Deployment to " ++ environment_name
                                  ++ " failed: " ++ e).
    + intros msg.
      apply (failure_handler_add_comment G w pr
               (fun e => "Deployment to " ++ environment_name
                         ++ " failed: " ++ e)).
    + intros _.
      apply (within_bind sent sent_nil sent_app 1 1 1 1); try lia.
      * apply within_react.
      * intros _.
        repeat (apply (within_bind_free sent sent_nil sent_app);
                [apply sent_silent, silent_getitem | intros ?]).
        apply within_add_comment.
Qed.

(** X19. No run repeats a request.  From the loaded pull request on, a
    run sends at most four requests (the commit status, the deployment,
    the reaction, one comment); with the loading of the pull request, at
    most five.  There is no retry on any path. *)
Theorem pipeline_request_budget (G : globals) (w : world) (event pr : value) :
  sent (trace (main_deploy G w event pr)) <= 4
  /\ sent (trace (main_pipeline G w event)) <= 5.
Proof.
  split.
  - apply Nat.le_trans with (Nat.max 4 4); [| cbn; lia].
    apply within_total, within_main_deploy.
  - apply Nat.le_trans with (Nat.max 5 5); [| cbn; lia].
    apply within_total. unfold main_pipeline.
    apply (within_bind_free sent sent_nil sent_app);
      [unfold sent; now rewrite validate_event_sends_nothing | intros _].
    apply (within_bind_free sent sent_nil sent_app);
      [apply sent_silent, silent_config | intros pr_url].
    apply (within_bind sent sent_nil sent_app 1 1 4 4); try lia.
    + apply within_load_pr.
    + intros pr'. apply within_main_deploy.
Qed.

Lemma comments_of_trigger_deployment (G : globals) (w : world)
    (head_repo ref environment : value) (description : string) :
  entries "add_comment"
    (trace (trigger_deployment G w head_repo ref environment description)) = 0.
Proof.
  pose proof (clean_trigger_deployment G w head_repo ref environment
                description) as Hc.
  unfold clean in Hc. unfold entries.
  destruct (result _).
  - rewrite Hc. reflexivity.
  - destruct Hc as (k & Hk & ->).
    assert (Hcases : k = 6 \/ k = 7 \/ k = 8) by lia.
    destruct Hcases as [-> | [-> | ->]]; reflexivity.
Qed.

Lemma handler_comments_once {B : Type} (G : globals) (w : world) (pr : value)
    (text_of : string -> string) (msg : string) :
  entries "add_comment"
    (trace (comments_url <- getitem pr "comments_url" ;;
            add_comment G w comments_url (text_of msg) true ;;
            @sys_exit B 1)) <= 1.
Proof.
  destruct (failure_handler_add_comment (B := B) G w pr text_of msg)
    as (_ & [Q | Q]); unfold entries; rewrite Q; cbn; lia.
Qed.

(** The number of entries of a function that announces itself once. *)
Ltac entries_of_call :=
  unfold entries;
  first
    [ rewrite calls_validate_event
    | rewrite calls_load_pr
    | rewrite calls_validate_pr
    | rewrite calls_parse_message
    | rewrite calls_get_environment
    | rewrite calls_check_commit
    | rewrite calls_react_to_original_comment
    | rewrite calls_add_comment ];
  cbn; lia.

Lemma within_comments_main_deploy (G : globals) (w : world)
    (event pr : value) :
  within (entries "add_comment") 1 1 (main_deploy G w event pr).
Proof.
  pose proof (entries_nil "add_comment") as N.
  pose proof (entries_app "add_comment") as P.
  unfold main_deploy.
  repeat (apply (within_bind_free _ N P);
          [apply entries_quiet, quiet_getitem | intros ?]).
  apply (within_bind _ N P 0 1 1 1); try lia.
  - unfold try_except. apply (within_try _ N P 0 0 1 0 0); try lia.
    + apply (within_bind_free _ N P); [entries_of_call | intros _].
      apply (within_bind_free _ N P);
        [apply entries_quiet, quiet_getitem | intros comment].
      apply within_le. entries_of_call.
    + intros msg.
      apply handler_comments_once
        with (text_of := fun e => "Deployment failed: " ++ e).
    + intros msg.
      apply (failure_handler_add_comment G w pr
               (fun e => "Deployment failed: " ++ e)).
    + intros name. apply within_le. cbn. lia.
  - intros environment_name.
    apply (within_try _ N P 0 0 1 1 1); try lia.
    + apply (within_bind_free _ N P); [entries_of_call | intros environment].
      apply (within_bind_free _ N P); [entries_of_call | intros _].
      apply within_le. rewrite comments_of_trigger_deployment. lia.
    + intros msg.
      apply handler_comments_once
        with (text_of := fun e => "Deployment to " ++ environment_name
                                  ++ " failed: " ++ e).
    + intros msg.
      apply (failure_handler_add_comment G w pr
               (fun e => "Deployment to " ++ environment_name
                         ++ " failed: " ++ e)).
    + intros _.
      apply (within_bind_free _ N P); [entries_of_call | intros _].
      repeat (apply (within_bind_free _ N P);
              [apply entries_quiet, quiet_getitem | intros ?]).
      apply within_le. entries_of_call.
Qed.

Lemma seg_nodup (k : nat) : NoDup (seg 0 k).
Proof.
  unfold seg. cbn [skipn].
  do 11 (destruct k as [| k];
         [cbn; repeat constructor; cbn; intuition discriminate |]).
  cbn. repeat constructor; cbn; intuition discriminate.
Qed.

Lemma pipeline_calls_nodup (G : globals) (w : world) (event : value) :
  NoDup (calls (trace (main_pipeline G w event))).
Proof.
  apply (NoDup_count_occ string_dec). intros f.
  pose proof (stage_main_pipeline G w event) as Hs.
  destruct (String.eqb_spec f "add_comment") as [-> | Hf].
  - (* the comment: a budget of one *)
    change (entries "add_comment" (trace (main_pipeline G w event)) <= 1).
    apply Nat.le_trans with (Nat.max 1 1); [| cbn; lia].
    apply within_total. unfold main_pipeline.
    pose proof (entries_nil "add_comment") as N.
    pose proof (entries_app "add_comment") as P.
    apply (within_bind_free _ N P); [entries_of_call | intros _].
    apply (within_bind_free _ N P);
      [apply entries_quiet, quiet_config | intros pr_url].
    apply (within_bind_free _ N P); [entries_of_call | intros pr].
    apply within_comments_main_deploy.
  - (* any other function: the pipeline lists it once at most *)
    destruct (stage_calls _ Hs) as (k & Hk & [E | E]); rewrite E.
    + exact (proj1 (NoDup_count_occ string_dec _) (seg_nodup k) f).
    + rewrite count_occ_app. cbn [count_occ].
      destruct (string_dec "add_comment" f) as [<- | _]; [contradiction |].
      rewrite Nat.add_0_r.
      exact (proj1 (NoDup_count_occ string_dec _) (seg_nodup k) f).
Qed.

(** X20. None of the ten functions of the pipeline ([validate_event],
    [load_pr], [validate_pr], [parse_message], [get_environment],
    [check_commit], [trigger_deployment], [set_deployment_outputs],
    [react_to_original_comment], [add_comment]) is entered twice in a run,
    whatever the globals, the event and the server: at most one deployment
    is triggered and at most one comment, failure or success, is posted.
    The logging helpers [debug] and [error], which the trace does not
    record as entries, are outside this statement. *)
Theorem pipeline_functions_entered_once (G : globals) (w : world)
    (event : value) :
  Forall (fun f => entries f (trace (main_pipeline G w event)) <= 1) pipeline.
Proof.
  apply Forall_forall. intros f _. unfold entries.
  exact (proj1 (NoDup_count_occ string_dec _) (pipeline_calls_nodup G w event) f).
Qed.

(** *** Failure and success *)

Lemma add_comment_status (G : globals) (w : world) (u : value) (msg : string)
    (is_error : bool) (e : exn) :
  result (add_comment G w u msg is_error) = Raise e ->
  exit_status (@Raise unit e) = 1%Z.
Proof.
  unfold add_comment.
  rewrite result_bind. cbn [result call emit snd].
  rewrite result_bind.
  assert (L : result (if is_error then error msg else print msg) = Ret tt)
    by (destruct is_error; reflexivity).
  rewrite L. rewrite result_bind. unfold config.
  destruct (CONFIG G) as [| kv d] eqn:Hc; cbn [getitem].
  - cbn. intros E. injection E as <-. reflexivity.
  - destruct (lookup "comment" (kv :: d)) as [c |]; cbn [result ret raise snd].
    2:{ intros E. injection E as <-. reflexivity. }
    destruct (truthy c); [| discriminate].
    unfold requests_post, requests_send. rewrite result_bind, bind_emit.
    cbn [result snd].
    destruct (server w _) as [| resp].
    + cbn. intros E. injection E as <-. reflexivity.
    + cbn [ret snd]. unfold raise_for_status.
      destruct ((400 <=? status_code resp)%Z && (status_code resp <? 600)%Z);
        [| discriminate].
      cbn. intros E. injection E as <-. reflexivity.
Qed.

(** The failure report never returns, and ends the run with status 1. *)
Lemma failure_report_status (G : globals) (w : world) (u : value)
    (msg : string) :
  exists e, result (failure_report G w u msg) = Raise e
            /\ exit_status (@Raise unit e) = 1%Z.
Proof.
  unfold failure_report. rewrite result_bind.
  destruct (result (add_comment G w u msg true)) as [[] | e] eqn:E.
  - eexists. split; reflexivity.
  - exists e. split; [reflexivity |]. exact (add_comment_status _ _ _ _ _ _ E).
Qed.

Lemma bind_run_raises {A B : Type} (m : M A) (k : A -> M B) (e : exn) :
  result m = Raise e -> bind m k = (trace m, Raise e).
Proof. destruct m as [t o]. cbn. intros ->. reflexivity. Qed.

Lemma bind_run_returns {A B : Type} (m : M A) (k : A -> M B) (a : A) :
  result m = Ret a -> bind m k = ((trace m ++ trace (k a))%list, result (k a)).
Proof.
  destruct m as [t o]. cbn. intros ->. destruct (k a); reflexivity.
Qed.

(** The pipeline once the fields of the pull request have been read. *)
Lemma main_deploy_heads (G : globals) (w : world) (event pr : value)
    (sha head_repo pr_num comments_url : value) :
  pr_heads pr sha head_repo pr_num comments_url ->
  main_deploy G w event pr
  = (environment_name <-
       try_except
         (validate_pr G pr ;;
          comment <- getitem event "comment" ;;
          parse_message G comment)
         (fun e =>
            comments_url <- getitem pr "comments_url" ;;
            add_comment G w comments_url ("Deployment failed: " ++ e) true ;;
            sys_exit 1) ;;
     try_except_else
       (deploy_steps G w head_repo sha pr_num environment_name)
       (fun e =>
          comments_url <- getitem pr "comments_url" ;;
          add_comment G w comments_url
            ("Deployment to " ++ environment_name ++ " failed: " ++ e) true ;;
          sys_exit 1)
       (fun _ => success_report G w event pr head_repo environment_name)).
Proof.
  intros (p & h & rp & -> & Hh & Hsha & Hrepo & Hfull & Hnum & Hcu).
  unfold main_deploy.
  rewrite (getitem_dict _ _ _ Hh), bind_ret.
  rewrite (getitem_dict _ _ _ Hsha), !bind_ret.
  rewrite (getitem_dict _ _ _ Hrepo), bind_ret.
  rewrite (getitem_dict _ _ _ Hfull), bind_ret.
  rewrite (getitem_dict _ _ _ Hnum), bind_ret.
  reflexivity.
Qed.

Lemma handler_is_failure_report {B : Type} (G : globals) (w : world)
    (p : dict value) (comments_url : value) (message : string) :
  lookup "comments_url" p = Some comments_url ->
  (u <- getitem (VDict p) "comments_url" ;;
   add_comment G w u message true ;; @sys_exit B 1)
  = (trace (failure_report G w comments_url message),
     match result (failure_report G w comments_url message) with
     | Ret _ => Raise (SystemExit 1)
     | Raise e => Raise e
     end).
Proof.
  intros Hcu. rewrite (getitem_dict _ _ _ Hcu), bind_ret.
  unfold failure_report.
  destruct (add_comment G w comments_url message true) as [t [[] | e]];
    cbn; rewrite ?app_nil_r; reflexivity.
Qed.

Lemma calls_failure_report (G : globals) (w : world) (u : value)
    (msg : string) :
  calls (trace (failure_report G w u msg)) = ["add_comment"].
Proof.
  unfold failure_report. rewrite trace_bind, calls_app, calls_add_comment.
  destruct (result _); reflexivity.
Qed.

(** The first [try] block when its body raises [DeploymentFailure]. *)
Lemma first_block_failure (G : globals) (w : world) (event pr : value)
    (sha head_repo pr_num comments_url : value) (msg : string) :
  pr_heads pr sha head_repo pr_num comments_url ->
  result (validate_pr G pr ;;
          comment <- getitem event "comment" ;;
          parse_message G comment)
  = Raise (DeploymentFailure msg) ->
  main_deploy G w event pr
  = ((trace (validate_pr G pr ;;
             comment <- getitem event "comment" ;;
             parse_message G comment)
      ++ trace (failure_report G w comments_url ("Deployment failed: " ++ msg)))%list,
     result (failure_report G w comments_url ("Deployment failed: " ++ msg))).
Proof.
  intros Hheads Hbody. rewrite (main_deploy_heads _ _ _ _ _ _ _ _ Hheads).
  destruct Hheads as (p & h & rp & -> & _ & _ & _ & _ & _ & Hcu).
  unfold try_except.
  destruct (validate_pr G (VDict p) ;;
            comment <- getitem event "comment" ;;
            parse_message G comment) as [tb ob].
  unfold result in Hbody. cbn [snd] in Hbody. subst ob.
  cbn [try_except_else trace fst].
  rewrite (handler_is_failure_report G w p comments_url _ Hcu).
  destruct (failure_report_status G w comments_url
              ("Deployment failed: " ++ msg)) as (e & He & _).
  rewrite He. reflexivity.
Qed.

(** X21. A pull request that fails validation is answered with the failure
    comment and status 1 whatever the event holds: the comment of the event
    is not read and the parser is not entered, so the answer is given even
    to a comment that is no command, and to an event with no comment. *)
Theorem invalid_pr_is_reported (G : globals) (w : world) (event pr : value)
    (sha head_repo pr_num comments_url : value) (msg : string) :
  pr_heads pr sha head_repo pr_num comments_url ->
  result (validate_pr G pr) = Raise (DeploymentFailure msg) ->
  main_deploy G w event pr
  = ((trace (validate_pr G pr)
      ++ trace (failure_report G w comments_url ("Deployment failed: " ++ msg)))%list,
     result (failure_report G w comments_url ("Deployment failed: " ++ msg)))
  /\ exit_status (result (main_deploy G w event pr)) = 1%Z
  /\ calls (trace (main_deploy G w event pr)) = ["validate_pr"; "add_comment"].
Proof.
  intros Hheads Hv.
  assert (Hb : (validate_pr G pr ;;
                comment <- getitem event "comment" ;;
                parse_message G comment)
               = (trace (validate_pr G pr), Raise (DeploymentFailure msg))).
  { apply bind_run_raises, Hv. }
  assert (E : main_deploy G w event pr
              = ((trace (validate_pr G pr)
                  ++ trace (failure_report G w comments_url
                              ("Deployment failed: " ++ msg)))%list,
                 result (failure_report G w comments_url
                           ("Deployment failed: " ++ msg)))).
  { rewrite (first_block_failure G w event pr _ _ _ _ msg Hheads);
      rewrite Hb; reflexivity. }
  split; [exact E |]. split.
  - rewrite E. change (result (?t, ?o)) with o.
    destruct (failure_report_status G w comments_url
                ("Deployment failed: " ++ msg)) as (e & -> & He).
    exact He.
  - rewrite E. change (trace (?t, ?o)) with t.
    rewrite calls_app, calls_validate_pr, calls_failure_report. reflexivity.
Qed.

Lemma invalid_pr_is_reported_witness :
  calls
    (trace
       (main_deploy globals_with_pr_url (sample_world [] no_server)
          (VDict [("action", VStr "created")])
          (sample_pr false true VNone "closed" "clean")))
  = ["validate_pr"; "add_comment"].
Proof.
  refine (proj2 (proj2 (invalid_pr_is_reported globals_with_pr_url
                          (sample_world [] no_server)
                          (VDict [("action", VStr "created")])
                          (sample_pr false true VNone "closed" "clean")
                          (VStr "abc123") (VStr "o/r") (VInt 7)
                          (VStr "https://api.github.com/repos/o/r/issues/7/comments")
                          "Can't deploy a merged PR." _ eq_refl))).
  do 3 eexists. repeat split; reflexivity.
Defined.

(** X22. On a pull request that passes validation, a comment that does not
    start with the trigger phrase ends the run with status 0, one line
    written and nothing sent; a comment that is the trigger phrase and
    whitespace is answered with the failure comment for the missing
    environment. *)
Theorem valid_pr_comment_outcomes (trigger : string)
    (env_file : option string) (allow ignore comment_on : bool)
    (H : dict string) (w : world) (ev : dict value) (pr : value)
    (sha head_repo pr_num comments_url comment author : value) (m : string) :
  let G := mkGlobals (make_config trigger env_file allow ignore comment_on) H in
  pr_heads pr sha head_repo pr_num comments_url ->
  result (validate_pr G pr) = Ret tt ->
  lookup "comment" ev = Some comment ->
  comment_fields comment m author ->
  (startswith m trigger = false ->
   main_deploy G w (VDict ev) pr
   = ((trace (validate_pr G pr)
       ++ [Call "parse_message"; Print (no_match_line author trigger)])%list,
      Raise (SystemExit 0))
   /\ requests (trace (main_deploy G w (VDict ev) pr)) = [])
  /\ (startswith m trigger = true ->
      strip (str_drop (String.length trigger) m) = "" ->
      main_deploy G w (VDict ev) pr
      = ((trace (validate_pr G pr) ++ [Call "parse_message"]
          ++ trace (failure_report G w comments_url
                      ("Deployment failed: "
                       ++ no_environment_message trigger)))%list,
         result (failure_report G w comments_url
                   ("Deployment failed: " ++ no_environment_message trigger)))).
Proof.
  intros G Hheads Hv Hc Hf.
  assert (Hb : (validate_pr G pr ;;
                comment <- getitem (VDict ev) "comment" ;;
                parse_message G comment)
               = ((trace (validate_pr G pr) ++ trace (parse_message G comment))%list,
                  result (parse_message G comment))).
  { rewrite (bind_run_returns _ _ _ Hv), (getitem_dict _ _ _ Hc), bind_ret.
    reflexivity. }
  pose proof (parse_message_run trigger env_file allow ignore comment_on H
                comment m author Hf) as Hp.
  fold G in Hp. split.
  - intros Hs. rewrite Hs in Hp.
    assert (E : main_deploy G w (VDict ev) pr
                = ((trace (validate_pr G pr)
                    ++ [Call "parse_message";
                        Print (no_match_line author trigger)])%list,
                   Raise (SystemExit 0))).
    { rewrite (main_deploy_heads _ _ _ _ _ _ _ _ Hheads).
      unfold try_except. rewrite Hb, Hp. reflexivity. }
    split; [exact E |]. rewrite E. unfold trace. cbn [fst].
    rewrite requests_app. fold (trace (validate_pr G pr)).
    rewrite (silent_validate_pr G pr). reflexivity.
  - intros Hs Hempty. rewrite Hs in Hp. cbv zeta in Hp.
    rewrite Hempty in Hp. cbn [String.eqb] in Hp.
    rewrite (first_block_failure G w (VDict ev) pr _ _ _ _
               (no_environment_message trigger) Hheads).
    + rewrite Hb, Hp. unfold trace at 1. cbn [fst].
      rewrite <- List.app_assoc. reflexivity.
    + rewrite Hb, Hp. reflexivity.
Qed.

Lemma valid_pr_comment_outcomes_witness :
  main_deploy
    (mkGlobals (make_config "deploy to" None true false true) [])
    (sample_world [] no_server)
    (VDict [("comment", sample_comment "looks good to me")])
    (sample_pr true false VNone "open" "draft")
  = ([ Call "validate_pr"; Call "parse_message";
       Print "Comment from octocat does not match the comment trigger (`deploy to`)." ],
     Raise (SystemExit 0)).
Proof.
  refine (proj1 (proj1 (valid_pr_comment_outcomes "deploy to" None true false
                          true [] (sample_world [] no_server)
                          [("comment", sample_comment "looks good to me")]
                          (sample_pr true false VNone "open" "draft")
                          (VStr "abc123") (VStr "o/r") (VInt 7)
                          (VStr "https://api.github.com/repos/o/r/issues/7/comments")
                          _ _ _ _ eq_refl eq_refl
                          (sample_comment_fields "looks good to me"))
                   eq_refl)).
  do 3 eexists. repeat split; reflexivity.
Defined.

(** The pipeline once the first [try] block has returned a name. *)
Lemma second_block (G : globals) (w : world) (event pr : value)
    (sha head_repo pr_num comments_url comment : value) (name : string) :
  pr_heads pr sha head_repo pr_num comments_url ->
  result (validate_pr G pr) = Ret tt ->
  getitem event "comment" = ret comment ->
  result (parse_message G comment) = Ret name ->
  main_deploy G w event pr
  = bind (trace (validate_pr G pr) ++ trace (parse_message G comment),
          Ret tt)%list
      (fun _ =>
         try_except_else
           (deploy_steps G w head_repo sha pr_num name)
           (fun e =>
              comments_url <- getitem pr "comments_url" ;;
              add_comment G w comments_url
                ("Deployment to " ++ name ++ " failed: " ++ e) true ;;
              sys_exit 1)
           (fun _ => success_report G w event pr head_repo name)).
Proof.
  intros Hheads Hv Hc Hp. rewrite (main_deploy_heads _ _ _ _ _ _ _ _ Hheads).
  unfold try_except.
  rewrite (bind_run_returns _ _ _ Hv), Hc, bind_ret.
  destruct (parse_message G comment) as [tp op]. unfold result in Hp.
  cbn [snd] in Hp. subst op. cbn [trace result fst snd try_except_else ret].
  rewrite app_nil_r. cbn [bind].
  destruct (try_except_else _ _ _). reflexivity.
Qed.

(** X23. What the second [try] block makes of its three steps, once the
    pull request is valid and the comment names an environment.  A
    [DeploymentFailure] from the resolver, the status check or the trigger
    is answered with the failure comment naming the environment, and the
    run ends with status 1.  Any other exception (an HTTP error, no
    response, a malformed allowlist) ends the run at once: no comment is
    posted.  When the steps return, the reaction and the success comment
    follow. *)
Theorem deploy_outcomes (G : globals) (w : world) (event pr : value)
    (sha head_repo pr_num comments_url comment : value) (name : string) :
  pr_heads pr sha head_repo pr_num comments_url ->
  result (validate_pr G pr) = Ret tt ->
  getitem event "comment" = ret comment ->
  result (parse_message G comment) = Ret name ->
  let first := (trace (validate_pr G pr) ++ trace (parse_message G comment))%list in
  let steps := deploy_steps G w head_repo sha pr_num name in
  (forall msg,
     result steps = Raise (DeploymentFailure msg) ->
     let report :=
       failure_report G w comments_url
         ("Deployment to " ++ name ++ " failed: " ++ msg) in
     main_deploy G w event pr
     = ((first ++ trace steps ++ trace report)%list, result report)
     /\ exit_status (result report) = 1%Z)
  /\ (forall e,
        result steps = Raise e -> (forall msg, e <> DeploymentFailure msg) ->
        main_deploy G w event pr = ((first ++ trace steps)%list, Raise e))
  /\ (result steps = Ret tt ->
      let report := success_report G w event pr head_repo name in
      main_deploy G w event pr
      = ((first ++ trace steps ++ trace report)%list, result report)).
Proof.
  intros Hheads Hv Hc Hp first steps.
  pose proof (second_block G w event pr _ _ _ _ _ _ Hheads Hv Hc Hp) as E.
  fold first in E. fold steps in E.
  destruct Hheads as (p & h & rp & -> & _ & _ & _ & _ & _ & Hcu).
  split; [| split].
  - intros msg Hs report.
    destruct (failure_report_status G w comments_url
                ("Deployment to " ++ name ++ " failed: " ++ msg))
      as (e & He & Hone).
    fold report in He. split; [| rewrite He; exact Hone].
    rewrite E. destruct steps as [ts os]. unfold result in Hs. cbn [snd] in Hs.
    subst os. cbn [try_except_else bind trace fst].
    rewrite (handler_is_failure_report G w p comments_url _ Hcu).
    fold report. rewrite He. reflexivity.
  - intros e He Hne. rewrite E. destruct steps as [ts os].
    unfold result in He. cbn [snd] in He. subst os.
    destruct e; try reflexivity. exfalso. exact (Hne msg eq_refl).
  - intros Hs report. rewrite E. destruct steps as [ts os].
    unfold result in Hs. cbn [snd] in Hs. subst os.
    cbn [try_except_else bind trace fst]. fold report.
    destruct report as [tr or']. reflexivity.
Qed.

Lemma deploy_outcomes_witness :
  main_deploy
    (mkGlobals (make_config "deploy to" (Some "envs.json") false false true) [])
    (sample_world [] no_server)
    (VDict [("comment", sample_comment "deploy to qa")])
    (sample_pr false false VNone "open" "mergeable")
  = ([ Call "validate_pr"; Call "parse_message"; Call "get_environment";
       Open (VStr "envs.json"); Call "add_comment";
       Print "::error ::Deployment to qa failed: Environment 'qa' doesn't exist in CONFIG['env_file'] (envs.json).";
       Send (mkRequest POST
               (VStr "https://api.github.com/repos/o/r/issues/7/comments") []
               (Some (VDict [("body",
                              VStr "Deployment to qa failed: Environment 'qa' doesn't exist in CONFIG['env_file'] (envs.json).")]))) ],
     Raise RequestException).
Proof.
  refine (proj1 (proj1 (deploy_outcomes
                          (mkGlobals
                             (make_config "deploy to" (Some "envs.json") false
                                false true) [])
                          (sample_world [] no_server)
                          (VDict [("comment", sample_comment "deploy to qa")])
                          (sample_pr false false VNone "open" "mergeable")
                          (VStr "abc123") (VStr "o/r") (VInt 7)
                          (VStr "https://api.github.com/repos/o/r/issues/7/comments")
                          (sample_comment "deploy to qa") "qa"
                          _ eq_refl eq_refl eq_refl)
                   "Environment 'qa' doesn't exist in CONFIG['env_file'] (envs.json)."
                   eq_refl)).
  do 3 eexists. repeat split; reflexivity.
Defined.

(** X24. A successful deployment, with status checks ignored and no
    allowlist.  On a valid pull request and a comment that names an
    environment, when the server accepts the deployment, the reaction and
    the comment, the run sends exactly the deployment, then the reaction,
    then (when comments are enabled) the success comment; it writes the two
    outputs and the success line, and returns. *)
Theorem successful_deployment (trigger : string) (allow comment_on : bool)
    (H : dict string) (w : world) (ev c : dict value) (pr : value)
    (sha head_repo pr_num comments_url author u : value) (m name : string)
    (resp_d resp_r : response) (d : dict value) (i du : value) :
  let G := mkGlobals (make_config trigger None allow true comment_on) H in
  let dep_req :=
    mkRequest POST (VStr (deployments_url head_repo)) (deployment_headers H)
      (Some (VDict (params_of true sha [("name", VStr name)]
                      ("Automatic deployment from #" ++ py_str pr_num)
                      (VStr name)))) in
  let react_req :=
    mkRequest POST (VStr (py_str u ++ "/reactions"))
      (dict_update H [("Accept", reaction_accept)])
      (Some (VDict [("content", VStr "rocket")])) in
  let line :=
    "@" ++ py_str author ++ ": Triggered [deployment](https://github.com/"
    ++ py_str head_repo ++ "/deployments) to " ++ name ++ "." in
  let comment_req :=
    mkRequest POST comments_url H (Some (VDict [("body", VStr line)])) in
  pr_heads pr sha head_repo pr_num comments_url ->
  result (validate_pr G pr) = Ret tt ->
  lookup "comment" ev = Some (VDict c) ->
  lookup "url" c = Some u ->
  comment_fields (VDict c) m author ->
  startswith m trigger = true ->
  strip (str_drop (String.length trigger) m) = name -> name <> "" ->
  server w dep_req = Got resp_d -> error_status resp_d = false ->
  json_body resp_d = Some (VDict d) ->
  lookup "id" d = Some i -> lookup "url" d = Some du ->
  server w react_req = Got resp_r -> error_status resp_r = false ->
  (comment_on = true ->
   exists resp_c, server w comment_req = Got resp_c
                  /\ error_status resp_c = false) ->
  main_deploy G w (VDict ev) pr
  = ((trace (validate_pr G pr)
      ++ [ Call "parse_message"; Call "get_environment"; Call "check_commit";
           Call "trigger_deployment"; Send dep_req;
           Call "set_deployment_outputs";
           Print ("::set-output name=deployment_id::" ++ py_str i);
           Print ("::set-output name=deployment_api_url::" ++ py_str du);
           Call "react_to_original_comment"; Send react_req;
           Call "add_comment"; Print line ]
      ++ if comment_on then [Send comment_req] else [])%list,
     Ret tt).
Proof.
  intros G dep_req react_req line comment_req Hheads Hv Hc Hu Hf Hs Hname
    Hne Hdep Hdep_ok Hj Hi Hdu Hreact Hreact_ok Hcomment.
  (* the parser *)
  assert (Hp : parse_message G (VDict c) = ([Call "parse_message"], Ret name)).
  { unfold G. rewrite (parse_message_run _ _ _ _ _ _ _ _ _ Hf), Hs. cbv zeta.
    rewrite Hname. apply String.eqb_neq in Hne. rewrite Hne. reflexivity. }
  (* the three steps *)
  assert (Hsteps :
            deploy_steps G w head_repo sha pr_num name
            = ([ Call "get_environment"; Call "check_commit";
                 Call "trigger_deployment"; Send dep_req;
                 Call "set_deployment_outputs";
                 Print ("::set-output name=deployment_id::" ++ py_str i);
                 Print ("::set-output name=deployment_api_url::" ++ py_str du) ],
               Ret tt)).
  { unfold deploy_steps.
    assert (Hge : get_environment G w name
                  = ([Call "get_environment"],
                     Ret (VDict [("name", VStr name)]))) by reflexivity.
    assert (Hcc : check_commit G w head_repo sha
                  = ([Call "check_commit"], Ret tt)) by reflexivity.
    rewrite Hge, bind_step, Hcc, bind_step. unfold G.
    rewrite (trigger_deployment_run trigger None allow true comment_on H w
               head_repo sha [("name", VStr name)] (VStr name) _ eq_refl).
    fold dep_req. rewrite Hdep, Hdep_ok.
    rewrite (set_deployment_outputs_run _ _ _ _ Hj Hi Hdu). reflexivity. }
  (* the reaction and the comment *)
  assert (Hreport :
            success_report G w (VDict ev) pr head_repo name
            = (([ Call "react_to_original_comment"; Send react_req;
                  Call "add_comment"; Print line ]
                ++ if comment_on then [Send comment_req] else [])%list,
               Ret tt)).
  { unfold success_report.
    rewrite (proj1 (react_run G w ev) c u Hc Hu).
    cbn [BASE_GH_REQUEST_HEADERS G]. fold react_req.
    rewrite Hreact. unfold checked. rewrite Hreact_ok, bind_step.
    rewrite (getitem_dict _ _ _ Hc), bind_ret.
    destruct Hf as (c' & usr & Ec & _ & Husr & Hlogin).
    injection Ec as <-.
    rewrite (getitem_dict _ _ _ Husr), bind_ret.
    rewrite (getitem_dict _ _ _ Hlogin), bind_ret.
    destruct Hheads as (p & h & rp & -> & _ & _ & _ & _ & _ & Hcu).
    rewrite (getitem_dict _ _ _ Hcu), bind_ret. fold line. unfold G.
    rewrite (add_comment_run trigger None allow true comment_on H w
               comments_url line false).
    fold comment_req. unfold log_line.
    destruct comment_on; [| reflexivity].
    destruct (Hcomment eq_refl) as (resp_c & Hserver & Hok).
    rewrite Hserver. unfold checked. rewrite Hok. reflexivity. }
  rewrite (second_block G w (VDict ev) pr _ _ _ _ (VDict c) name Hheads Hv).
  - rewrite Hp, Hsteps. cbn [try_except_else bind trace fst].
    rewrite Hreport. cbn [app]. rewrite <- !List.app_assoc. reflexivity.
  - apply (getitem_dict _ _ _ Hc).
  - rewrite Hp. reflexivity.
Qed.

Lemma successful_deployment_witness :
  result
    (main_deploy
       (mkGlobals (make_config "deploy to" None false true true) [])
       (sample_world [] obliging_server)
       (VDict [("comment", sample_comment "deploy to staging")])
       (sample_pr false false VNone "open" "mergeable"))
  = Ret tt.
Proof.
  refine (f_equal snd
            (successful_deployment "deploy to" false true []
               (sample_world [] obliging_server)
               [("comment", sample_comment "deploy to staging")]
               [ ("url",
                  VStr "https://api.github.com/repos/o/r/issues/comments/1");
                 ("body", VStr "deploy to staging");
                 ("user", VDict [("login", VStr "octocat")]) ]
               (sample_pr false false VNone "open" "mergeable")
               (VStr "abc123") (VStr "o/r") (VInt 7)
               (VStr "https://api.github.com/repos/o/r/issues/7/comments")
               (VStr "octocat")
               (VStr "https://api.github.com/repos/o/r/issues/comments/1")
               "deploy to staging" "staging"
               (mkResponse 201 "" _) (mkResponse 201 "" _) _
               (VInt 42)
               (VStr "https://api.github.com/repos/o/r/deployments/42")
               _ eq_refl eq_refl eq_refl
               (sample_comment_fields "deploy to staging")
               eq_refl eq_refl _ eq_refl eq_refl eq_refl eq_refl eq_refl
               eq_refl eq_refl _)).
  - do 3 eexists. repeat split; reflexivity.
  - discriminate.
  - intros _. eexists. split; reflexivity.
Defined.

(** ** The configuration *)

Ltac by_cases_on_char c :=
  destruct c as [[] [] [] [] [] [] [] []]; vm_compute; intros E;
  first [discriminate E | left; reflexivity | right; reflexivity].

Lemma lower_char_t (c : ascii) :
  lower_char c = "t"%char -> c = "t"%char \/ c = "T"%char.
Proof. by_cases_on_char c. Qed.

Lemma lower_char_r (c : ascii) :
  lower_char c = "r"%char -> c = "r"%char \/ c = "R"%char.
Proof. by_cases_on_char c. Qed.

Lemma lower_char_u (c : ascii) :
  lower_char c = "u"%char -> c = "u"%char \/ c = "U"%char.
Proof. by_cases_on_char c. Qed.

Lemma lower_char_e (c : ascii) :
  lower_char c = "e"%char -> c = "e"%char \/ c = "E"%char.
Proof. by_cases_on_char c. Qed.

Lemma lower_true (s : string) :
  String.eqb (lower s) "true" = true <-> true_word s.
Proof.
  rewrite String.eqb_eq. split.
  - destruct s as [| a [| b [| c [| d [| x s]]]]]; cbn [lower]; try discriminate.
    intros E. injection E as Ea Eb Ec Ed.
    exists a, b, c, d. split; [reflexivity |].
    repeat split;
      [apply lower_char_t | apply lower_char_r | apply lower_char_u
      | apply lower_char_e]; assumption.
  - intros (a & b & c & d & -> & Ha & Hb & Hc & Hd).
    destruct Ha as [-> | ->], Hb as [-> | ->], Hc as [-> | ->],
      Hd as [-> | ->]; reflexivity.
Qed.

Lemma ret_bool_true (b : bool) : ret (VBool b) = ret (VBool true) <-> b = true.
Proof.
  split; [intros E; injection E as -> | intros ->]; reflexivity.
Qed.

(** X25. How [__main__] reads its settings.  A flag is on exactly when its
    variable holds "true" in any mix of upper and lower case; every other
    value, the empty string and " true" with a space included, turns it
    off.  An unset [INPUT_ALLOW_DRAFT_DEPLOY] or
    [INPUT_IGNORE_STATUS_CHECKS] is off and an unset [INPUT_COMMENT] is on.
    The trigger phrase is the variable's value as it is, "deploy to" when
    unset. *)
Theorem flags_read_true_only (w : world) (token : string) :
  let G := main_globals w token in
  (config G "allow_draft" = ret (VBool true)
   <-> exists v, lookup "INPUT_ALLOW_DRAFT_DEPLOY" (environ w) = Some v
                 /\ true_word v)
  /\ (config G "ignore_status_checks" = ret (VBool true)
      <-> exists v, lookup "INPUT_IGNORE_STATUS_CHECKS" (environ w) = Some v
                    /\ true_word v)
  /\ (config G "comment" = ret (VBool true)
      <-> lookup "INPUT_COMMENT" (environ w) = None
          \/ exists v, lookup "INPUT_COMMENT" (environ w) = Some v
                       /\ true_word v)
  /\ config G "trigger"
     = ret (VStr (match lookup "INPUT_TRIGGER_PHRASE" (environ w) with
                  | Some t => t
                  | None => "deploy to"
                  end)).
Proof.
  intros G. unfold G, main_globals.
  rewrite config_allow_draft, config_ignore_status_checks, config_comment,
    config_trigger.
  rewrite !ret_bool_true, !lower_true. unfold environ_get.
  repeat split.
  - destruct (lookup "INPUT_ALLOW_DRAFT_DEPLOY" (environ w)) as [v |].
    + intros Hv. exists v. split; [reflexivity | exact Hv].
    + intros (a & b & c & d & E & _). discriminate E.
  - intros (v & -> & Hv). exact Hv.
  - destruct (lookup "INPUT_IGNORE_STATUS_CHECKS" (environ w)) as [v |].
    + intros Hv. exists v. split; [reflexivity | exact Hv].
    + intros (a & b & c & d & E & _). discriminate E.
  - intros (v & -> & Hv). exact Hv.
  - destruct (lookup "INPUT_COMMENT" (environ w)) as [v |].
    + intros Hv. right. exists v. split; [reflexivity | exact Hv].
    + intros _. left. reflexivity.
  - intros [-> | (v & -> & Hv)]; [| exact Hv].
    exists "t"%char, "r"%char, "u"%char, "e"%char. repeat split; auto.
Qed.
